(** * neural_style.py: a shallow embedding and its verified properties

    The development follows [src/neural_style.py] function by function.

    Conventions of the embedding.
    - Python floats and the float32 entries of numpy and TensorFlow arrays are
      read as real numbers ([R]): rounding, overflow and NaN are outside the
      model.  Python ints that count things are [nat], other ints are [Z].
    - A Python exception is a value [Raise e] of the type [result]; code that
      can raise is written in the monad of [result].
    - A TensorFlow tensor is a node of the graph: a static shape and, for
      each value of the variables, the row-major list of its entries.  The
      kernels of the network (convolution, pooling), the optimizers and the
      printing of floats belong to the libraries and are parameters.
    - numpy arrays are modelled twice: as values, and as views of buffers in
      a heap where aliasing matters; the two are shown to agree.
    - Of the console output only the loss report of the first-order loop is
      kept, as an event; reading image files is outside the model. *)

From Stdlib Require Import String Ascii DecimalString.
From Stdlib Require Import Reals Lra Lia ZArith Bool Arith List Permutation.
Import ListNotations.

Open Scope string_scope.
Open Scope list_scope.
Open Scope R_scope.

(* ================================================================= *)
(** * Part I: the program *)

(** ** Python exceptions and the monad of results *)

Inductive pyexn : Type :=
| ZeroDivisionError
| ValueError
| KeyError (key : string)
| AttributeError (name : string)
| ArgumentError (option_string : string)
| InvalidArgumentError
| TypeError
| IndexError.

Inductive result (A : Type) : Type :=
| Ok (a : A)
| Raise (e : pyexn).

Arguments Ok {A} a.
Arguments Raise {A} e.

Definition bind {A B : Type} (m : result A) (k : A -> result B) : result B :=
  match m with
  | Ok a => k a
  | Raise e => Raise e
  end.

Notation "x <- m ;; k" := (bind m (fun x => k))
  (at level 61, m at next level, right associativity).
Notation "' p <- m ;; k" := (bind m (fun p => k))
  (at level 61, p pattern, m at next level, right associativity).

(** ** Python built-ins used by the program *)

Module Py.

(** [sum(l)]: a left fold that starts from [0]. *)
Definition sum (l : list R) : R := fold_left Rplus l 0.

(** [zip(a, b)] stops at the end of the shorter list. *)
Definition zip {A B : Type} (a : list A) (b : list B) : list (A * B) :=
  combine a b.

(** [a / b] on floats. *)
Definition div (a b : R) : result R :=
  if Req_dec_T b 0 then Raise ZeroDivisionError else Ok (a / b).

(** [x ** y] for a base [x >= 0]; [0 ** y] is [0] for [y > 0] and
    [1] for [y = 0]. *)
Definition pow (x y : R) : R :=
  if Req_dec_T x 0
  then (if Req_dec_T y 0 then 1 else 0)
  else Rpower x y.

End Py.

(** ** [normalize] (lines 354-358) *)

Definition normalize (weights : list R) : list R :=
  let denom := Py.sum weights in
  if Rlt_dec 0 denom
  then map (fun i => i / denom) weights
  else repeat 0 (length weights).

(** ** Tensors and the TensorFlow operations of the loss functions *)

(** A tensor is a node of the graph: a static shape and, for each value [e]
    of the variables of the graph, its entries in row-major order.  The
    exceptions of the operations below are those of the construction of the
    graph, which only looks at shapes; a scalar node is a function of the
    variables. *)
Record tensor (E : Type) : Type :=
  mkTensor { shape : list nat; value : E -> list R }.

Arguments mkTensor {E} shape value.
Arguments shape {E} t.
Arguments value {E} t e.

Definition numel (s : list nat) : nat := fold_right Nat.mul 1%nat s.


Definition shape_eq_dec : forall s1 s2 : list nat, {s1 = s2} + {s1 <> s2} :=
  list_eq_dec Nat.eq_dec.

(** Entry [(i, j)] of a matrix with [cols] columns stored row-major. *)
Definition entry (cols : nat) (d : list R) (i j : nat) : R :=
  nth (i * cols + j) d 0.

Module tf.

Section Ops.

Context {E : Type}.

(** [tf.constant(a)] and [tf.convert_to_tensor(a)] of an array with the
    given shape and entries. *)
Definition constant (s : list nat) (d : list R) : tensor E :=
  mkTensor s (fun _ => d).

(** [x - y] for two tensors of one shape.  The program only subtracts a
    tensor from another value of the same graph node; operands of different
    shapes, which TensorFlow would try to broadcast, are an error here. *)
Definition sub (x y : tensor E) : result (tensor E) :=
  if shape_eq_dec (shape x) (shape y)
  then Ok (mkTensor (shape x)
             (fun e => map (fun xy => fst xy - snd xy)
                         (combine (value x e) (value y e))))
  else Raise InvalidArgumentError.

(** [tf.pow(t, n)] for an integer exponent, entry by entry. *)
Definition pow (t : tensor E) (n : nat) : tensor E :=
  mkTensor (shape t) (fun e => map (fun v => v ^ n) (value t e)).

(** [tf.reduce_sum(t)]: the sum of all the entries. *)
Definition reduce_sum (t : tensor E) : E -> R :=
  fun e => fold_left Rplus (value t e) 0.

(** [tf.reshape(t, s)] keeps the row-major entries and needs as many
    entries as the new shape holds. *)
Definition reshape (t : tensor E) (s : list nat) : result (tensor E) :=
  if Nat.eq_dec (numel (shape t)) (numel s)
  then Ok (mkTensor s (value t))
  else Raise InvalidArgumentError.

(** [tf.transpose(F)] of a matrix. *)
Definition transpose (F : tensor E) : result (tensor E) :=
  match shape F with
  | [r; c] =>
      Ok (mkTensor [c; r]
            (fun e =>
               flat_map
                 (fun j => map (fun i => entry c (value F e) i j) (seq 0 r))
                 (seq 0 c)))
  | _ => Raise InvalidArgumentError
  end.

(** [tf.matmul(A, B)] of two matrices. *)
Definition matmul (A B : tensor E) : result (tensor E) :=
  match shape A, shape B with
  | [m; k], [k'; n] =>
      if Nat.eq_dec k k'
      then Ok (mkTensor [m; n]
                 (fun e =>
                    flat_map
                      (fun i =>
                         map (fun j =>
                                fold_left Rplus
                                  (map (fun l => entry k (value A e) i l
                                                 * entry n (value B e) l j)
                                     (seq 0 k)) 0)
                           (seq 0 n))
                      (seq 0 m)))
      else Raise InvalidArgumentError
  | _, _ => Raise InvalidArgumentError
  end.

End Ops.

End tf.

(** ** The loss functions (lines 257-277) *)

(** [_, h, w, d = t.get_shape()] *)
Definition unpack4 {E : Type} (t : tensor E) : result (nat * nat * nat) :=
  match shape t with
  | [_; h; w; d] => Ok (h, w, d)
  | _ => Raise ValueError
  end.

Definition content_layer_loss {E : Type} (p x : tensor E) : result (E -> R) :=
  '(h, w, d) <- unpack4 p ;;
  let M := (h * w)%nat in
  let N := d in
  K <- Py.div 1 (2 * Py.pow (INR N) 0.5 * Py.pow (INR M) 0.5) ;;
  diff <- tf.sub x p ;;
  Ok (fun e => K * tf.reduce_sum (tf.pow diff 2) e).

Definition gram_matrix {E : Type} (x : tensor E) (area depth : nat)
  : result (tensor E) :=
  F <- tf.reshape x [area; depth] ;;
  Ft <- tf.transpose F ;;
  tf.matmul Ft F.

Definition style_layer_loss {E : Type} (a x : tensor E) : result (E -> R) :=
  '(h, w, d) <- unpack4 a ;;
  let M := (h * w)%nat in
  let N := d in
  A <- gram_matrix a M N ;;
  G <- gram_matrix x M N ;;
  c <- Py.div 1 (INR (4 * N ^ 2 * M ^ 2)) ;;
  diff <- tf.sub G A ;;
  Ok (fun e => c * tf.reduce_sum (tf.pow diff 2) e).

(** ** Dictionaries *)

(** A Python [dict] with string keys: the bindings in insertion order.
    Assigning to a key that is present keeps its position. *)
Definition dict (V : Type) : Type := list (string * V).

Definition dict_get {V : Type} (d : dict V) (k : string) : result V :=
  match find (fun kv => String.eqb (fst kv) k) d with
  | Some kv => Ok (snd kv)
  | None => Raise (KeyError k)
  end.

Definition dict_set {V : Type} (d : dict V) (k : string) (v : V) : dict V :=
  if existsb (fun kv => String.eqb (fst kv) k) d
  then map (fun kv => if String.eqb (fst kv) k then (k, v) else kv) d
  else d ++ [(k, v)].

(** ** The VGG-19 graph (lines 148-252) *)

(** The constants read from the weight store.  [vgg_layers[i][0][0][2][0][0]]
    is the kernel and [vgg_layers[i][0][0][2][0][1]] the bias of entry [i];
    a constant is identified by the entry it is read from.  Loading the
    store itself ([scipy.io.loadmat]) is outside the model. *)
Inductive vgg_const : Type :=
| Weights (i : nat)
| Bias (i : nat).

(** The nodes of the TensorFlow graph that [build_model] constructs. *)
Inductive node : Type :=
| Variable_zeros (shp : list nat)
| Conv2d (layer_input : node) (W : vgg_const)
| Relu_add (layer_input : node) (b : vgg_const)
| Avg_pool (layer_input : node).

Definition get_weights (i : nat) : vgg_const := Weights i.

Definition get_bias (i : nat) : vgg_const := Bias i.

(** [tf.nn.conv2d(layer_input, W, strides=[1,1,1,1], padding='SAME')] *)
Definition conv_layer (layer_name : string) (layer_input : node)
    (W : vgg_const) : node :=
  Conv2d layer_input W.

(** [tf.nn.relu(layer_input + b)] *)
Definition relu_layer (layer_name : string) (layer_input : node)
    (b : vgg_const) : node :=
  Relu_add layer_input b.

(** [tf.nn.avg_pool(layer_input, ksize=[1,2,2,1], strides=[1,2,2,1],
    padding='SAME')] *)
Definition pool_layer (layer_name : string) (layer_input : node) : node :=
  Avg_pool layer_input.

Definition build_model (input_img_shape : list nat) : result (dict node) :=
  match input_img_shape with
  | [_; h; w; d] =>
    let net : dict node := [] in
    let net := dict_set net "input" (Variable_zeros [1%nat; h; w; d]) in
    x <- dict_get net "input" ;;
    let net := dict_set net "conv1_1" (conv_layer "conv1_1" x (get_weights 0)) in
    x <- dict_get net "conv1_1" ;;
    let net := dict_set net "relu1_1" (relu_layer "relu1_1" x (get_bias 0)) in
    x <- dict_get net "relu1_1" ;;
    let net := dict_set net "conv1_2" (conv_layer "conv1_2" x (get_weights 2)) in
    x <- dict_get net "conv1_2" ;;
    let net := dict_set net "relu1_2" (relu_layer "relu1_2" x (get_bias 2)) in
    x <- dict_get net "relu1_2" ;;
    let net := dict_set net "pool1" (pool_layer "pool1" x) in
    x <- dict_get net "pool1" ;;
    let net := dict_set net "conv2_1" (conv_layer "conv2_1" x (get_weights 5)) in
    x <- dict_get net "conv2_1" ;;
    let net := dict_set net "relu2_1" (relu_layer "relu2_1" x (get_bias 5)) in
    x <- dict_get net "relu2_1" ;;
    let net := dict_set net "conv2_2" (conv_layer "conv2_2" x (get_weights 7)) in
    x <- dict_get net "conv2_2" ;;
    let net := dict_set net "relu2_2" (relu_layer "relu2_2" x (get_bias 7)) in
    x <- dict_get net "relu2_2" ;;
    let net := dict_set net "pool2" (pool_layer "pool2" x) in
    x <- dict_get net "pool2" ;;
    let net := dict_set net "conv3_1" (conv_layer "conv3_1" x (get_weights 10)) in
    x <- dict_get net "conv3_1" ;;
    let net := dict_set net "relu3_1" (relu_layer "relu3_1" x (get_bias 10)) in
    x <- dict_get net "relu3_1" ;;
    let net := dict_set net "conv3_2" (conv_layer "conv3_2" x (get_weights 12)) in
    x <- dict_get net "conv3_2" ;;
    let net := dict_set net "relu3_2" (relu_layer "relu3_2" x (get_bias 12)) in
    x <- dict_get net "relu3_2" ;;
    let net := dict_set net "conv3_3" (conv_layer "conv3_3" x (get_weights 14)) in
    x <- dict_get net "conv3_3" ;;
    let net := dict_set net "relu3_3" (relu_layer "relu3_3" x (get_bias 14)) in
    x <- dict_get net "relu3_3" ;;
    let net := dict_set net "conv3_4" (conv_layer "conv3_4" x (get_weights 16)) in
    x <- dict_get net "conv3_4" ;;
    let net := dict_set net "relu3_4" (relu_layer "relu3_4" x (get_bias 16)) in
    x <- dict_get net "relu3_4" ;;
    let net := dict_set net "pool3" (pool_layer "pool3" x) in
    x <- dict_get net "pool3" ;;
    let net := dict_set net "conv4_1" (conv_layer "conv4_1" x (get_weights 19)) in
    x <- dict_get net "conv4_1" ;;
    let net := dict_set net "relu4_1" (relu_layer "relu4_1" x (get_bias 19)) in
    x <- dict_get net "relu4_1" ;;
    let net := dict_set net "conv4_2" (conv_layer "conv4_2" x (get_weights 21)) in
    x <- dict_get net "conv4_2" ;;
    let net := dict_set net "relu4_2" (relu_layer "relu4_2" x (get_bias 21)) in
    x <- dict_get net "relu4_2" ;;
    let net := dict_set net "conv4_3" (conv_layer "conv4_3" x (get_weights 23)) in
    x <- dict_get net "conv4_3" ;;
    let net := dict_set net "relu4_3" (relu_layer "relu4_3" x (get_bias 23)) in
    x <- dict_get net "relu4_3" ;;
    let net := dict_set net "conv4_4" (conv_layer "conv4_4" x (get_weights 25)) in
    x <- dict_get net "conv4_4" ;;
    let net := dict_set net "relu4_4" (relu_layer "relu4_4" x (get_bias 25)) in
    x <- dict_get net "relu4_4" ;;
    let net := dict_set net "pool4" (pool_layer "pool4" x) in
    x <- dict_get net "pool4" ;;
    let net := dict_set net "conv5_1" (conv_layer "conv5_1" x (get_weights 28)) in
    x <- dict_get net "conv5_1" ;;
    let net := dict_set net "relu5_1" (relu_layer "relu5_1" x (get_bias 28)) in
    x <- dict_get net "relu5_1" ;;
    let net := dict_set net "conv5_2" (conv_layer "conv5_2" x (get_weights 30)) in
    x <- dict_get net "conv5_2" ;;
    let net := dict_set net "relu5_2" (relu_layer "relu5_2" x (get_bias 30)) in
    x <- dict_get net "relu5_2" ;;
    let net := dict_set net "conv5_3" (conv_layer "conv5_3" x (get_weights 32)) in
    x <- dict_get net "conv5_3" ;;
    let net := dict_set net "relu5_3" (relu_layer "relu5_3" x (get_bias 32)) in
    x <- dict_get net "relu5_3" ;;
    let net := dict_set net "conv5_4" (conv_layer "conv5_4" x (get_weights 34)) in
    x <- dict_get net "conv5_4" ;;
    let net := dict_set net "relu5_4" (relu_layer "relu5_4" x (get_bias 34)) in
    x <- dict_get net "relu5_4" ;;
    let net := dict_set net "pool5" (pool_layer "pool5" x) in
    Ok net
  | _ => Raise ValueError
  end.

(** *** Reading the topology off a built network *)

Inductive layer_kind : Type :=
| KInput
| KConv (i : nat)
| KRelu (i : nat)
| KPool.

Definition index_of (c : vgg_const) : nat :=
  match c with Weights i => i | Bias i => i end.

Definition kind_of (n : node) : layer_kind :=
  match n with
  | Variable_zeros _ => KInput
  | Conv2d _ W => KConv (index_of W)
  | Relu_add _ b => KRelu (index_of b)
  | Avg_pool _ => KPool
  end.

(** The layers in construction order, with the weight indices they use. *)
Definition layer_kinds (net : dict node) : list layer_kind :=
  map (fun kv => kind_of (snd kv)) net.

(** The weight indices of the convolution layers, in order. *)
Definition conv_indices (net : dict node) : list nat :=
  flat_map (fun k => match k with KConv i => [i] | _ => [] end)
    (layer_kinds net).

(** The convolution layers grouped by the pooling layer that closes their
    block: the closed blocks, then the layers after the last pooling layer. *)
Fixpoint conv_blocks_from (ks : list layer_kind) (cur : list nat)
  : list (list nat) * list nat :=
  match ks with
  | [] => ([], cur)
  | KConv i :: ks' => conv_blocks_from ks' (cur ++ [i])
  | KPool :: ks' =>
      let (bs, rest) := conv_blocks_from ks' [] in (cur :: bs, rest)
  | _ :: ks' => conv_blocks_from ks' cur
  end.

Definition conv_blocks (net : dict node) : list (list nat) * list nat :=
  conv_blocks_from (layer_kinds net) [].

Definition input_of (n : node) : option node :=
  match n with
  | Variable_zeros _ => None
  | Conv2d i _ | Relu_add i _ | Avg_pool i => Some i
  end.

(** Every layer consumes the node bound just before it. *)
Fixpoint chained (prev : node) (ns : list node) : Prop :=
  match ns with
  | [] => True
  | n :: ns' => input_of n = Some prev /\ chained n ns'
  end.

Definition pool_count (net : dict node) : nat :=
  length (filter (fun k => match k with KPool => true | _ => false end)
            (layer_kinds net)).

(** Every convolution is directly followed by the activation that adds the
    bias of the same store entry. *)
Fixpoint conv_then_relu (ks : list layer_kind) : bool :=
  match ks with
  | [] => true
  | KConv i :: KRelu j :: ks' => Nat.eqb i j && conv_then_relu ks'
  | KConv _ :: _ => false
  | KRelu _ :: _ => false
  | _ :: ks' => conv_then_relu ks'
  end.

(** Consecutive entries of a list of indices differ by [step]. *)
Fixpoint steps_by (step : nat) (l : list nat) : bool :=
  match l with
  | a :: ((b :: _) as l') => Nat.eqb (a + step) b && steps_by step l'
  | _ => true
  end.

(** The first index of each block but the first is [step] above the last
    index of the block before it. *)
Fixpoint blocks_step_by (step : nat) (bs : list (list nat)) : bool :=
  match bs with
  | b1 :: ((b2 :: _) as bs') =>
      match rev b1, b2 with
      | last1 :: _, first2 :: _ =>
          Nat.eqb (last1 + step) first2 && blocks_step_by step bs'
      | _, _ => false
      end
  | _ => true
  end.

(** ** numpy arrays and image pre- and postprocessing (lines 321-338) *)

(** An image array: its shape, and its pixels in row-major order, each pixel
    being the list of its channel values (the last axis). *)
Record ndarray : Type := mkArray { ashape : list nat; pixels : list (list R) }.

(** The number of pixels a shape holds: the product of all axes but the
    last. *)
Definition pixel_count (s : list nat) : nat := numel (removelast s).

(** The pixels fill the shape. *)
Definition wf_array (a : ndarray) : Prop :=
  length (pixels a) = pixel_count (ashape a) /\
  Forall (fun px => length px = last (ashape a) 0%nat) (pixels a).

(** [np.array([123.68, 116.779, 103.939]).reshape((1,1,1,3))] *)
Definition vgg_mean : list R := [123.68; 116.779; 103.939].

(** [float -> uint8] conversion of C: the fractional part is dropped. *)
Definition trunc (x : R) : Z :=
  if Rle_dec 0 x then Int_part x else (- Int_part (- x))%Z.

Module np.

(** [np.copy(a)] *)
Definition copy (a : ndarray) : ndarray := mkArray (ashape a) (pixels a).

(** [a[...,::-1]]: the last axis reversed. *)
Definition rev_last (a : ndarray) : ndarray :=
  mkArray (ashape a) (map (@rev R) (pixels a)).

(** [a[np.newaxis,:,:,:]]: a new leading axis; the three slices need three
    axes to index. *)
Definition newaxis3 (a : ndarray) : result ndarray :=
  if (3 <=? length (ashape a))%nat
  then Ok (mkArray (1%nat :: ashape a) (pixels a))
  else Raise IndexError.

(** The in-place [a op= c] for [c] of shape (1,1,1,3): the result has to
    fit [a], so [a] has at least four axes, the last of size 3. *)
Definition broadcast3 (op : R -> R -> R) (a : ndarray) (c : list R)
  : result ndarray :=
  if ((4 <=? length (ashape a)) && (last (ashape a) 0 =? 3))%nat
  then Ok (mkArray (ashape a)
             (map (fun px => map (fun vc => op (fst vc) (snd vc))
                               (combine px c))
                (pixels a)))
  else Raise ValueError.

(** [a[0]]: the first block along the leading axis. *)
Definition index0 (a : ndarray) : result ndarray :=
  match ashape a with
  | S _ :: rest => Ok (mkArray rest (firstn (pixel_count rest) (pixels a)))
  | _ => Raise IndexError
  end.

(** [np.clip(a, lo, hi)] *)
Definition clip (a : ndarray) (lo hi : R) : ndarray :=
  mkArray (ashape a) (map (map (fun v => Rmin (Rmax v lo) hi)) (pixels a)).

(** [a.astype('uint8')], applied to values of the range [0, 255]. *)
Definition astype_uint8 (a : ndarray) : ndarray :=
  mkArray (ashape a) (map (map (fun v => IZR (trunc v))) (pixels a)).

End np.

Definition preprocess (img : ndarray) : result ndarray :=
  let imgpre := np.copy img in
  let imgpre := np.rev_last imgpre in
  imgpre <- np.newaxis3 imgpre ;;
  np.broadcast3 Rminus imgpre vgg_mean.

Definition postprocess (img : ndarray) : result ndarray :=
  let imgpost := np.copy img in
  imgpost <- np.broadcast3 Rplus imgpost vgg_mean ;;
  imgpost <- np.index0 imgpost ;;
  let imgpost := np.astype_uint8 (np.clip imgpost 0 255) in
  Ok (np.rev_last imgpost).

(** ** The same two functions on numpy's memory model

    numpy arrays are views of buffers: [np.copy], [np.clip] and [astype]
    allocate a buffer, slicing ([a[...,::-1]], [a[np.newaxis]], [a[0]])
    makes a view of the buffer of [a], and [-=] and [+=] write through the
    view into that buffer. *)

Module Mem.

Definition loc : Type := nat.

(** The buffers allocated so far; a buffer holds pixels. *)
Definition heap : Type := list (list (list R)).

(** A view: the buffer it reads, its shape, and whether it runs over the
    last axis backwards. *)
Record view : Type := mkView { base : loc; vshape : list nat; reversed : bool }.

(** Computations that read and write the heap and may raise; what was
    written before an exception stays written. *)
Definition H (A : Type) : Type := heap -> result A * heap.

Definition ret {A : Type} (a : A) : H A := fun s => (Ok a, s).

Definition hbind {A B : Type} (m : H A) (k : A -> H B) : H B :=
  fun s =>
    match m s with
    | (Ok a, s') => k a s'
    | (Raise e, s') => (Raise e, s')
    end.

Definition lift {A : Type} (r : result A) : H A := fun s => (r, s).

Fixpoint list_update {A : Type} (l : list A) (i : nat) (v : A) : list A :=
  match l, i with
  | [], _ => []
  | _ :: l', O => v :: l'
  | x :: l', S i' => x :: list_update l' i' v
  end.

(** A pixel as the view shows it, and back. *)
Definition orient (reversed : bool) (px : list R) : list R :=
  if reversed then rev px else px.

(** The pixels a view shows. *)
Definition read (v : view) (s : heap) : result (list (list R)) :=
  match nth_error s (base v) with
  | Some buf =>
      Ok (map (orient (reversed v)) (firstn (pixel_count (vshape v)) buf))
  | None => Raise InvalidArgumentError
  end.

Definition alloc (shp : list nat) (px : list (list R)) : H view :=
  fun s => (Ok (mkView (length s) shp false), s ++ [px]).

(** [np.copy(a)] *)
Definition copy (a : view) : H view :=
  hbind (fun s => (read a s, s)) (fun px => alloc (vshape a) px).

(** [a[...,::-1]] *)
Definition rev_last (a : view) : view :=
  mkView (base a) (vshape a) (negb (reversed a)).

(** [a[np.newaxis,:,:,:]] *)
Definition newaxis3 (a : view) : result view :=
  if (3 <=? length (vshape a))%nat
  then Ok (mkView (base a) (1%nat :: vshape a) (reversed a))
  else Raise IndexError.

(** [a op= c] for [c] of shape (1,1,1,3): written through the view. *)
Definition broadcast3 (op : R -> R -> R) (a : view) (c : list R) : H unit :=
  fun s =>
    if ((4 <=? length (vshape a)) && (last (vshape a) 0 =? 3))%nat
    then
      match nth_error s (base a) with
      | Some buf =>
          let n := pixel_count (vshape a) in
          let upd px :=
            orient (reversed a)
              (map (fun vc => op (fst vc) (snd vc))
                 (combine (orient (reversed a) px) c)) in
          (Ok tt, list_update s (base a) (map upd (firstn n buf) ++ skipn n buf))
      | None => (Raise InvalidArgumentError, s)
      end
    else (Raise ValueError, s).

(** [a[0]] *)
Definition index0 (a : view) : result view :=
  match vshape a with
  | S _ :: rest => Ok (mkView (base a) rest (reversed a))
  | _ => Raise IndexError
  end.

(** [np.clip(a, lo, hi)] *)
Definition clip (a : view) (lo hi : R) : H view :=
  hbind (fun s => (read a s, s))
    (fun px => alloc (vshape a) (map (map (fun v => Rmin (Rmax v lo) hi)) px)).

(** [a.astype('uint8')] *)
Definition astype_uint8 (a : view) : H view :=
  hbind (fun s => (read a s, s))
    (fun px => alloc (vshape a) (map (map (fun v => IZR (trunc v))) px)).

Definition preprocess (img : view) : H view :=
  hbind (copy img) (fun imgpre =>
  let imgpre := rev_last imgpre in
  hbind (lift (newaxis3 imgpre)) (fun imgpre =>
  hbind (broadcast3 Rminus imgpre vgg_mean) (fun _ =>
  ret imgpre))).

Definition postprocess (img : view) : H view :=
  hbind (copy img) (fun imgpost =>
  hbind (broadcast3 Rplus imgpost vgg_mean) (fun _ =>
  hbind (lift (index0 imgpost)) (fun imgpost =>
  hbind (clip imgpost 0 255) (fun imgpost =>
  hbind (astype_uint8 imgpost) (fun imgpost =>
  ret (rev_last imgpost)))))).

(** [frames n Q m]: run on a heap of at least [n] buffers, [m] leaves the
    first [n] buffers as they are, frees nothing, and returns a value that
    satisfies [Q]. *)
Definition frames {A : Type} (n : nat) (Q : A -> Prop) (m : H A) : Prop :=
  forall s : heap,
    (n <= length s)%nat ->
    firstn n (snd (m s)) = firstn n s /\
    (length s <= length (snd (m s)))%nat /\
    (forall a, fst (m s) = Ok a -> Q a).

End Mem.

(** ** The render configuration: the namespace of [parse_args] *)

Inductive optimizer_kind : Type := lbfgs | adam.

(** The attributes of [args] that the program reads.  [img_name] and
    [content_img] have no default and are [None] when not given.  The
    program reads [args.beta2], which no option declares: the attribute may
    be missing. *)
Record Namespace : Type := mkNamespace {
  verbose : bool;
  img_name : option string;
  style_imgs : list string;
  style_imgs_weights : list R;
  content_img : option string;
  style_imgs_dir : string;
  content_img_dir : string;
  max_size : Z;
  content_weight : R;
  style_weight : R;
  tv_weight : R;
  content_layers : list string;
  style_layers : list string;
  content_layer_weights : list R;
  style_layer_weights : list R;
  seed : Z;
  model_weights : string;
  device : string;
  img_output_dir : string;
  optimizer : optimizer_kind;
  learning_rate : R;
  beta1 : R;
  beta2 : option R;
  epsilon : R;
  blocks : Z;
  max_iterations : Z;
  print_iterations : Z
}.

(** [args.beta2] *)
Definition get_beta2 (args : Namespace) : result R :=
  match beta2 args with
  | Some b => Ok b
  | None => Raise (AttributeError "beta2")
  end.

(** ** Strings and paths *)

(** [a + b] on strings. *)
Infix "+++" := String.append (at level 60, right associativity).

(** [str(n)] of an int. *)
Definition str_int (z : Z) : string := NilZero.string_of_int (Z.to_int z).

(** [s[:-4]] *)
Definition drop_last4 (s : string) : string :=
  substring 0 (String.length s - 4) s.

Fixpoint endswith_sep (s : string) : bool :=
  match s with
  | EmptyString => false
  | String c EmptyString => Ascii.eqb c "/"
  | String _ s' => endswith_sep s'
  end.

Definition startswith_sep (s : string) : bool :=
  match s with
  | String c _ => Ascii.eqb c "/"
  | EmptyString => false
  end.

(** [os.path.join(a, b)] of [posixpath]. *)
Definition os_path_join (a b : string) : string :=
  if startswith_sep b then b
  else if (String.eqb a "" || endswith_sep a)%bool then a +++ b
  else a +++ "/" +++ b.

(** The [repr] of a list of strings, as ['{}'.format] prints it. *)
Definition repr_strs (l : list string) : string :=
  "[" +++ String.concat ", " (map (fun s => "'" +++ s +++ "'") l) +++ "]".

Definition str_option (o : option string) : string :=
  match o with Some s => s | None => "None" end.

Definition str_optimizer (o : optimizer_kind) : string :=
  match o with lbfgs => "lbfgs" | adam => "adam" end.

(** ** The argument parser (lines 16-131)

    [argparse] keeps the declared options; with its default conflict handler
    it refuses an option string that is already declared. *)

Inductive argval : Type :=
| VNone
| VFalse
| VStr (s : string)
| VInt (z : Z)
| VFloat (r : R)
| VStrs (l : list string)
| VFloats (l : list R).

Record argument : Type := mkArgument {
  option_string : string;
  default : argval;
  required : bool
}.

(** [parser.add_argument(option_string, default=..., required=...)] *)
Definition add_argument (parser : list argument) (name : string)
    (default : argval) (required : bool) : result (list argument) :=
  if existsb (fun a => String.eqb (option_string a) name) parser
  then Raise (ArgumentError name)
  else Ok (parser ++ [mkArgument name default required]).

(** The declarations of [parse_args], in order: option string, default,
    and whether the option is required. *)
Definition declarations : list (string * argval * bool) :=
  [
    ("--verbose", VFalse, false);
    ("--img_name", VNone, false);
    ("--style_imgs", VNone, true);
    ("--style_imgs_weights", VFloats [1.0], false);
    ("--content_img", VNone, false);
    ("--style_imgs_dir", VStr "./styles", false);
    ("--content_img_dir", VStr "./image_input", false);
    ("--max_size", VInt 512, false);
    ("--content_weight", VFloat 5e0, false);
    ("--style_weight", VFloat 1e4, false);
    ("--tv_weight", VFloat 1e-3, false);
    ("--content_layers", VStrs ["conv4_2"], false);
    ("--style_layers",
     VStrs ["relu1_1"; "relu2_1"; "relu3_1"; "relu4_1"; "relu5_1"], false);
    ("--content_layer_weights", VFloats [1.0], false);
    ("--style_layer_weights", VFloats [0.2; 0.2; 0.2; 0.2; 0.2], false);
    ("--seed", VInt 0, false);
    ("--model_weights", VStr "imagenet-vgg-verydeep-19.mat", false);
    ("--device", VStr "/gpu:0", false);
    ("--img_output_dir", VStr "./image_output", false);
    ("--optimizer", VStr "lbfgs", false);
    ("--learning_rate", VFloat 1e1, false);
    ("--beta1", VFloat 0.9, false);
    ("--beta1", VFloat 0.999, false);
    ("--epsilon", VFloat 1e-8, false);
    ("--blocks", VInt 1, false);
    ("--max_iterations", VInt 1000, false);
    ("--print_iterations", VInt 50, false)
  ].

(** The parser after the declarations. *)
Definition parse_args_parser : result (list argument) :=
  fold_left
    (fun (parser : result (list argument)) (d : string * argval * bool) =>
       parser <- parser ;;
       add_argument parser (fst (fst d)) (snd (fst d)) (snd d))
    declarations (Ok []).

(** The three assignments that normalize the weights of a namespace. *)
Definition normalize_weights (a : Namespace) : Namespace :=
  mkNamespace (verbose a) (img_name a) (style_imgs a)
    (normalize (style_imgs_weights a))
    (content_img a) (style_imgs_dir a) (content_img_dir a) (max_size a)
    (content_weight a) (style_weight a) (tv_weight a)
    (content_layers a) (style_layers a)
    (normalize (content_layer_weights a))
    (normalize (style_layer_weights a))
    (seed a) (model_weights a) (device a) (img_output_dir a) (optimizer a)
    (learning_rate a) (beta1 a) (beta2 a) (epsilon a)
    (blocks a) (max_iterations a) (print_iterations a).

(** ** The world of a render *)

(** What a render does to the outside, in order. *)
Inductive event : Type :=
| Makedirs (path : string)
| Imwrite (path : string) (img : ndarray)
| WriteFile (path : string) (text : string)
| RunTrainOp
| RunMinimize
| PrintIterate (iteration : Z) (curr_loss : R).

(** The optimizer objects of [get_optimizer]. *)
Inductive optimizer_obj : Type :=
| ScipyOptimizerInterface (loss : ndarray -> R) (maxiter disp : Z)
| AdamOptimizer (learning_rate beta1 beta2 epsilon : R).

(** What the optimizer loop does, without the images and loss values. *)
Inductive action : Type :=
| ATrain
| AMinimize
| AReport (iteration : Z)
| AWrite (path : string).

Definition action_of (ev : event) : list action :=
  match ev with
  | RunTrainOp => [ATrain]
  | RunMinimize => [AMinimize]
  | PrintIterate i _ => [AReport i]
  | Imwrite path _ => [AWrite path]
  | Makedirs _ | WriteFile _ _ => []
  end.

Definition actions (l : list event) : list action := flat_map action_of l.

Section Render.

(** The configuration is the global [args]. *)
Variable args : Namespace.

(** [str(x)] of a float. *)
Variable str_float : R -> string.

(** The TensorFlow runtime: the static shape of a node of the network, its
    entries when [net['input']] holds a given image, and the total
    variation of an image. *)
Variable node_shape : node -> list nat.
Variable node_value : node -> ndarray -> list R.
Variable total_variation : ndarray -> R.

(** The optimizers: the slot variables of Adam, their initial value, one
    run of the training operation, and one call of the L-BFGS-B minimizer
    of scipy. *)
Variable OptState : Type.
Variable opt_init : OptState.
Variable adam_train_op :
  R -> R -> R -> R -> (ndarray -> R) -> ndarray * OptState -> ndarray * OptState.
Variable scipy_minimize : Z -> Z -> (ndarray -> R) -> ndarray -> ndarray.

(** The session and the file system: the value of [net['input']], the
    slots of the optimizer, the directories that exist, and the events so
    far (the latest last). *)
Record world : Type := mkWorld {
  input_var : ndarray;
  slots : OptState;
  dirs : list string;
  log : list event
}.

(** Computations in the world that may raise; what happened before an
    exception has happened. *)
Definition M (A : Type) : Type := world -> result A * world.

Definition ret {A : Type} (a : A) : M A := fun w => (Ok a, w).

Definition mbind {A B : Type} (m : M A) (k : A -> M B) : M B :=
  fun w =>
    match m w with
    | (Ok a, w') => k a w'
    | (Raise e, w') => (Raise e, w')
    end.

Definition lift {A : Type} (r : result A) : M A := fun w => (r, w).

Definition emit (ev : event) : M unit :=
  fun w => (Ok tt, mkWorld (input_var w) (slots w) (dirs w) (log w ++ [ev])).

Notation "x <~ m ;; k" := (mbind m (fun x => k))
  (at level 61, m at next level, right associativity).
Notation "' p <~ m ;; k" := (mbind m (fun p => k))
  (at level 61, p pattern, m at next level, right associativity).
Notation "m ;;; k" := (mbind m (fun _ => k))
  (at level 61, right associativity).

(** [for x in l: body(x)] *)
Fixpoint for_each {A : Type} (l : list A) (body : A -> M unit) : M unit :=
  match l with
  | [] => ret tt
  | x :: l' => body x ;;; for_each l' body
  end.

(** The values of [i] in [i = 0; while i < n: ...; i += 1]. *)
Definition counter_range (n : Z) : list Z :=
  map Z.of_nat (seq 0 (Z.to_nat n)).

(** [maybe_make_directory] (lines 360-362) *)
Definition maybe_make_directory (dir_path : string) : M unit :=
  fun w =>
    if existsb (String.eqb dir_path) (dirs w)
    then (Ok tt, w)
    else (Ok tt, mkWorld (input_var w) (slots w) (dirs w ++ [dir_path])
                   (log w ++ [Makedirs dir_path])).

(** [get_image_savename] (lines 454-481).  Line 464 of the source lacks two
    [+] signs; it is read as the concatenation it spells out. *)
Definition get_image_savename (block iteration : Z) : M (string * string) :=
  out_dir <~ lift
    match img_name args with
    | Some name => Ok (os_path_join (img_output_dir args) name)
    | None =>
        match content_img args, style_imgs args with
        | None, _ => Raise TypeError
        | Some _, [] => Raise IndexError
        | Some c, s0 :: _ =>
            let out_subdir := drop_last4 c +++ "." +++ drop_last4 s0 in
            Ok (os_path_join (img_output_dir args) out_subdir)
        end
    end ;;
  let out_dir := out_dir +++ str_int (max_size args) in
  out_dir <~ lift
    match optimizer args with
    | adam =>
        let out_dir := out_dir +++ "A" in
        b2 <- get_beta2 args ;;
        Ok (out_dir +++ "(" +++ str_float (learning_rate args) +++ ","
              +++ str_float (beta1 args) +++ "," +++ str_float b2
              +++ "," +++ str_float (epsilon args) +++ ")")
    | lbfgs => Ok (out_dir +++ "LBFGS")
    end ;;
  let out_dir :=
    if (blocks args =? 1)%Z then out_dir
    else out_dir +++ str_int (blocks args) +++ "x" in
  let out_dir := out_dir +++ str_int (max_iterations args) in
  let out_dir :=
    if ((block <? blocks args) || (iteration <? max_iterations args))%Z%bool
    then os_path_join out_dir "iters"
    else out_dir in
  maybe_make_directory out_dir ;;;
  let img_path :=
    match img_name args with
    | Some name => os_path_join out_dir name
    | None =>
        os_path_join out_dir
          (str_int block +++ "." +++ str_int iteration +++ ".png")
    end in
  ret (out_dir, img_path).

(** The directory of the render that [get_image_savename] computes before
    it decides on the [iters] subfolder, the name of the image file, and
    the two paths it returns. *)
Definition render_dir : result string :=
  out_dir <-
    match img_name args with
    | Some name => Ok (os_path_join (img_output_dir args) name)
    | None =>
        match content_img args, style_imgs args with
        | None, _ => Raise TypeError
        | Some _, [] => Raise IndexError
        | Some c, s0 :: _ =>
            Ok (os_path_join (img_output_dir args)
                  (drop_last4 c +++ "." +++ drop_last4 s0))
        end
    end ;;
  let out_dir := out_dir +++ str_int (max_size args) in
  out_dir <-
    match optimizer args with
    | adam =>
        b2 <- get_beta2 args ;;
        Ok ((out_dir +++ "A") +++ "(" +++ str_float (learning_rate args)
              +++ "," +++ str_float (beta1 args) +++ "," +++ str_float b2
              +++ "," +++ str_float (epsilon args) +++ ")")
    | lbfgs => Ok (out_dir +++ "LBFGS")
    end ;;
  let out_dir :=
    if (blocks args =? 1)%Z then out_dir
    else out_dir +++ str_int (blocks args) +++ "x" in
  Ok (out_dir +++ str_int (max_iterations args)).

Definition file_name (block iteration : Z) : string :=
  match img_name args with
  | Some name => name
  | None => str_int block +++ "." +++ str_int iteration +++ ".png"
  end.

Definition image_paths (block iteration : Z) : result (string * string) :=
  out_dir <- render_dir ;;
  let out_dir :=
    if ((block <? blocks args) || (iteration <? max_iterations args))%Z%bool
    then os_path_join out_dir "iters"
    else out_dir in
  Ok (out_dir, os_path_join out_dir (file_name block iteration)).



(** [write_image] (lines 317-319) *)
Definition write_image (path : string) (img : ndarray) : M unit :=
  img <~ lift (postprocess img) ;;
  emit (Imwrite path img).

(** *** The session *)

(** [sess.run(var.assign(img))]: the value has to have the shape of the
    variable. *)
Definition assign (var : node) (img : ndarray) : M unit :=
  fun w =>
    match var with
    | Variable_zeros shp =>
        if shape_eq_dec shp (ashape img)
        then (Ok tt, mkWorld img (slots w) (dirs w) (log w))
        else (Raise ValueError, w)
    | _ => (Raise (AttributeError "assign"), w)
    end.

(** [sess.run(tf.global_variables_initializer())]: every variable gets its
    initial value. *)
Definition run_init (net : dict node) : M unit :=
  var <~ lift (dict_get net "input") ;;
  fun w =>
    match var with
    | Variable_zeros shp =>
        (Ok tt,
         mkWorld (mkArray shp
                    (repeat (repeat 0 (last shp 0%nat)) (pixel_count shp)))
           opt_init (dirs w) (log w))
    | _ => (Ok tt, mkWorld (input_var w) opt_init (dirs w) (log w))
    end.

(** [sess.run(net['input'])] *)
Definition run_input (net : dict node) : M ndarray :=
  _ <~ lift (dict_get net "input") ;;
  fun w => (Ok (input_var w), w).

(** [net[layer]] as a tensor of the graph, and [sess.run(net[layer])]
    turned into a constant by [tf.convert_to_tensor]. *)
Definition net_tensor (n : node) : tensor ndarray :=
  mkTensor (node_shape n) (node_value n).

Definition run_constant (n : node) (input : ndarray) : tensor ndarray :=
  tf.constant (node_shape n) (node_value n input).

(** *** The aggregate losses (lines 279-304) *)

(** [acc /= float(len(l))].  With no element in [l] the loop before it has
    not run, [acc] is still the Python float [0.] and the division raises. *)
Definition div_len (acc : ndarray -> R) (n : nat) : result (ndarray -> R) :=
  if (n =? 0)%nat then Raise ZeroDivisionError
  else Ok (fun e => acc e / INR n).

(** The loss of one layer for the image that [net['input']] holds:
    [a = sess.run(net[layer])], [x = net[layer]],
    [a = tf.convert_to_tensor(a)] and the call of the layer loss. *)
Definition layer_loss
    (layer_loss_fn :
       tensor ndarray -> tensor ndarray -> result (ndarray -> R))
    (net : dict node) (input : ndarray) (layer : string)
  : result (ndarray -> R) :=
  n <- dict_get net layer ;;
  let a := run_constant n input in
  let x := net_tensor n in
  layer_loss_fn a x.

(** The loop over [zip(layers, weights)] of [sum_style_losses] and of
    [sum_content_losses]: [loss += layer_loss(a, x) * weight]. *)
Fixpoint layers_loop
    (layer_loss_fn :
       tensor ndarray -> tensor ndarray -> result (ndarray -> R))
    (net : dict node) (input : ndarray)
    (pairs : list (string * R)) (loss : ndarray -> R)
  : result (ndarray -> R) :=
  match pairs with
  | [] => Ok loss
  | (layer, weight) :: rest =>
      l <- layer_loss layer_loss_fn net input layer ;;
      layers_loop layer_loss_fn net input rest
        (fun e => loss e + l e * weight)
  end.

Fixpoint style_imgs_loop (net : dict node) (pairs : list (ndarray * R))
    (total_style_loss : ndarray -> R) : M (ndarray -> R) :=
  match pairs with
  | [] => ret total_style_loss
  | (img, img_weight) :: rest =>
      var <~ lift (dict_get net "input") ;;
      assign var img ;;;
      style_loss <~ (fun w =>
        (layers_loop style_layer_loss net (input_var w)
           (Py.zip (style_layers args) (style_layer_weights args))
           (fun _ => 0), w)) ;;
      style_loss <~ lift (div_len style_loss (length (style_layers args))) ;;
      style_imgs_loop net rest
        (fun e => total_style_loss e + style_loss e * img_weight)
  end.

Definition sum_style_losses (net : dict node) (style_imgs : list ndarray)
  : M (ndarray -> R) :=
  let weights := style_imgs_weights args in
  total_style_loss <~ style_imgs_loop net (Py.zip style_imgs weights)
                        (fun _ => 0) ;;
  lift (div_len total_style_loss (length style_imgs)).

Definition sum_content_losses (net : dict node) (content_img : ndarray)
  : M (ndarray -> R) :=
  var <~ lift (dict_get net "input") ;;
  assign var content_img ;;;
  content_loss <~ (fun w =>
    (layers_loop content_layer_loss net (input_var w)
       (Py.zip (content_layers args) (content_layer_weights args))
       (fun _ => 0), w)) ;;
  lift (div_len content_loss (length (content_layers args))).

(** The weighted sum of the losses of the paired layers, and the aggregate
    losses: what the two functions above are shown to compute. *)
Definition layer_term
    (layer_loss_fn :
       tensor ndarray -> tensor ndarray -> result (ndarray -> R))
    (net : dict node) (input : ndarray) (layer : string) (e : ndarray) : R :=
  match layer_loss layer_loss_fn net input layer with
  | Ok l => l e
  | Raise _ => 0
  end.

Definition weighted_terms
    (layer_loss_fn :
       tensor ndarray -> tensor ndarray -> result (ndarray -> R))
    (net : dict node) (input : ndarray) (pairs : list (string * R))
    (e : ndarray) : R :=
  fold_right
    (fun (lw : string * R) acc =>
       layer_term layer_loss_fn net input (fst lw) e * snd lw + acc)
    0 pairs.

Definition content_aggregate (net : dict node) (content_img e : ndarray) : R :=
  weighted_terms content_layer_loss net content_img
    (Py.zip (content_layers args) (content_layer_weights args)) e
  / INR (length (content_layers args)).

Definition style_aggregate (net : dict node) (style_imgs : list ndarray)
    (e : ndarray) : R :=
  fold_right
    (fun (iw : ndarray * R) acc =>
       weighted_terms style_layer_loss net (fst iw)
         (Py.zip (style_layers args) (style_layer_weights args)) e
       / INR (length (style_layers args)) * snd iw + acc)
    0 (Py.zip style_imgs (style_imgs_weights args))
  / INR (length style_imgs).

(** *** The optimizers (lines 407-452) *)

Definition get_optimizer (loss : ndarray -> R) : result optimizer_obj :=
  let print_iterations :=
    if verbose args then print_iterations args else 0%Z in
  match optimizer args with
  | lbfgs =>
      Ok (ScipyOptimizerInterface loss (max_iterations args) print_iterations)
  | adam =>
      b2 <- get_beta2 args ;;
      Ok (AdamOptimizer (learning_rate args) (beta1 args) b2 (epsilon args))
  end.

(** [optimizer.minimize(sess)] of the scipy interface. *)
Definition scipy_run (optimizer : optimizer_obj) : M unit :=
  match optimizer with
  | ScipyOptimizerInterface loss maxiter disp =>
      fun w =>
        (Ok tt,
         mkWorld (scipy_minimize maxiter disp loss (input_var w)) (slots w)
           (dirs w) (log w ++ [RunMinimize]))
  | AdamOptimizer _ _ _ _ => lift (Raise TypeError)
  end.

Definition minimize_with_lbfgs (net : dict node) (optimizer : optimizer_obj)
    (init_img : ndarray) : M unit :=
  run_init net ;;;
  var <~ lift (dict_get net "input") ;;
  assign var init_img ;;;
  for_each (counter_range (blocks args)) (fun block =>
    scipy_run optimizer ;;;
    output_img <~ run_input net ;;
    '(out_dir, img_path) <~ get_image_savename block (max_iterations args) ;;
    write_image img_path output_img).

(** [sess.run(train_op)] for [train_op = optimizer.minimize(loss)]. *)
Definition run_train_op (optimizer : optimizer_obj) (loss : ndarray -> R)
  : M unit :=
  match optimizer with
  | AdamOptimizer lr b1 b2 eps =>
      fun w =>
        let r := adam_train_op lr b1 b2 eps loss (input_var w, slots w) in
        (Ok tt, mkWorld (fst r) (snd r) (dirs w) (log w ++ [RunTrainOp]))
  | ScipyOptimizerInterface _ _ _ => lift (Raise TypeError)
  end.

Definition minimize_with_adam (net : dict node) (optimizer : optimizer_obj)
    (init_img : ndarray) (loss : ndarray -> R) : M unit :=
  match optimizer with
  | AdamOptimizer _ _ _ _ => ret tt
  | ScipyOptimizerInterface _ _ _ => lift (Raise TypeError)
  end ;;;
  run_init net ;;;
  var <~ lift (dict_get net "input") ;;
  assign var init_img ;;;
  for_each (counter_range (blocks args)) (fun block =>
    for_each (counter_range (max_iterations args)) (fun iteration =>
      run_train_op optimizer loss ;;;
      (if (print_iterations args =? 0)%Z
       then lift (Raise ZeroDivisionError)
       else ret tt) ;;;
      if ((iteration mod print_iterations args =? 0)%Z && verbose args)%bool
      then
        curr_loss <~ (fun w => (Ok (loss (input_var w)), w)) ;;
        emit (PrintIterate iteration curr_loss) ;;;
        output_img <~ run_input net ;;
        '(out_dir, img_path) <~ get_image_savename block iteration ;;
        write_image img_path output_img
      else ret tt)).

(** *** The final output (lines 483-513) *)

Definition nl : string := String (ascii_of_nat 10) EmptyString.

Definition meta_data : string :=
  "image_name: " +++ str_option (img_name args) +++ nl +++
  "content: " +++ str_option (content_img args) +++ nl +++
  String.concat ""
    (map (fun iw : nat * (string * R) =>
            let (index, sw) := iw in
            let (style_img, weight) := sw in
            "styles[" +++ str_int (Z.of_nat index) +++ "]: "
            +++ str_float weight +++ " * " +++ style_img +++ nl)
       (combine (seq 0 (length (style_imgs args)))
          (Py.zip (style_imgs args) (style_imgs_weights args)))) +++
  "content_weight: " +++ str_float (content_weight args) +++ nl +++
  "style_weight: " +++ str_float (style_weight args) +++ nl +++
  "tv_weight: " +++ str_float (tv_weight args) +++ nl +++
  "content_layers: " +++ repr_strs (content_layers args) +++ nl +++
  "style_layers: " +++ repr_strs (style_layers args) +++ nl +++
  "optimizer_type: " +++ str_optimizer (optimizer args) +++ nl +++
  "training_blocks: " +++ str_int (blocks args) +++ nl +++
  "max_iterations: " +++ str_int (max_iterations args) +++ nl +++
  "max_image_size: " +++ str_int (max_size args) +++ nl.

Definition write_image_output (output_img content_img : ndarray)
    (style_imgs : list ndarray) : M unit :=
  '(out_dir, img_path) <~ get_image_savename (blocks args) 0 ;;
  let content_path := os_path_join out_dir "0content.png" in
  write_image img_path output_img ;;;
  write_image content_path content_img ;;;
  for_each (combine (seq 0 (length style_imgs)) style_imgs)
    (fun is_ : nat * ndarray =>
       let (index, style_img) := is_ in
       let path :=
         os_path_join out_dir (str_int (Z.of_nat index) +++ "_style.png") in
       write_image path style_img) ;;;
  let out_file := os_path_join out_dir "meta_data.txt" in
  emit (WriteFile out_file meta_data).

(** *** [stylize] (lines 371-405) *)

Definition stylize (content_img : ndarray) (style_imgs : list ndarray)
    (init_img : ndarray) : M unit :=
  net <~ lift (build_model (ashape content_img)) ;;
  L_style <~ sum_style_losses net style_imgs ;;
  L_content <~ sum_content_losses net content_img ;;
  _ <~ lift (dict_get net "input") ;;
  let L_tv := total_variation in
  let alpha := content_weight args in
  let beta := style_weight args in
  let theta := tv_weight args in
  let L_total := fun e => alpha * L_content e + beta * L_style e
                          + theta * L_tv e in
  opt <~ lift (get_optimizer L_total) ;;
  match optimizer args with
  | adam => minimize_with_adam net opt init_img L_total
  | lbfgs => minimize_with_lbfgs net opt init_img
  end ;;;
  output_img <~ run_input net ;;
  write_image_output output_img content_img style_imgs.

(** *** [parse_args] (lines 16-141) *)

(** [parser.parse_args()] of the library: the command line read against
    the declared options. *)
Variable argparse_parse : list argument -> list string -> result Namespace.

Definition parse_args (argv : list string) : M Namespace :=
  parser <~ lift parse_args_parser ;;
  ns <~ lift (argparse_parse parser argv) ;;
  let ns := normalize_weights ns in
  maybe_make_directory (img_output_dir ns) ;;;
  ret ns.

End Render.

(** ** Image files and the program (lines 309-315, 364-366, 518-565) *)

(** What loading the images and rendering raise: the exceptions above, the
    [OSError] of [check_image] with its three arguments, and [cv2.error]. *)
Inductive exn : Type :=
| PyExn (e : pyexn)
| OSError (errno : Z) (strerror filename : string)
| Cv2Error.

Inductive outcome (A : Type) : Type :=
| Done (a : A)
| Failed (e : exn).

Arguments Done {A} a.
Arguments Failed {A} e.

Definition and_then {A B : Type} (m : outcome A) (k : A -> outcome B)
  : outcome B :=
  match m with
  | Done a => k a
  | Failed e => Failed e
  end.

Definition of_result {A : Type} (r : result A) : outcome A :=
  match r with
  | Ok a => Done a
  | Raise e => Failed (PyExn e)
  end.

(** [errno.ENOENT] *)
Definition ENOENT : Z := 2.

(** [check_image] (lines 364-366) *)
Definition check_image (img : option ndarray) (path : string) : outcome unit :=
  match img with
  | None => Failed (OSError ENOENT "No such file" path)
  | Some _ => Done tt
  end.

(** [img.astype(np.float32)] of what [cv2.imread] returned: the values of
    an image are kept, and [None] has no such attribute. *)
Definition astype_float32 (img : option ndarray) : outcome ndarray :=
  match img with
  | Some a => Done a
  | None => Failed (PyExn (AttributeError "astype"))
  end.

(** [h, w, d = img.shape] *)
Definition unpack3 (s : list nat) : outcome (nat * nat * nat) :=
  match s with
  | [h; w; d] => Done (h, w, d)
  | _ => Failed (PyExn ValueError)
  end.

Section Program.

(** The configuration is the global [args]. *)
Variable args : Namespace.

(** The files: [cv2.imread(path, cv2.IMREAD_COLOR)] is the image of a file,
    or [None] when the file is missing or cannot be read. *)
Variable imread : string -> option ndarray.

(** The pixels that area interpolation gives an image for a width and a
    height. *)
Variable resample : ndarray -> nat -> nat -> list (list R).

Notation "x <-- m ;; k" := (and_then m (fun x => k))
  (at level 61, m at next level, right associativity).
Notation "' p <-- m ;; k" := (and_then m (fun p => k))
  (at level 61, p pattern, m at next level, right associativity).

(** [cv2.resize(img, dsize=(width, height), interpolation=cv2.INTER_AREA)]:
    an image of [height] rows and [width] columns with the channels of
    [img]; the library refuses an empty source and an empty size. *)
Definition cv2_resize (img : ndarray) (dsize : Z * Z) : outcome ndarray :=
  let width := fst dsize in
  let height := snd dsize in
  if ((pixel_count (ashape img) =? 0)%nat
      || (width <=? 0)%Z || (height <=? 0)%Z)%bool
  then Failed Cv2Error
  else Done (mkArray [Z.to_nat height; Z.to_nat width;
                      last (ashape img) 0%nat]
               (resample img (Z.to_nat width) (Z.to_nat height))).

(** [read_image] (lines 309-315) *)
Definition read_image (path : string) : outcome ndarray :=
  let img := imread path in
  _ <-- check_image img path ;;
  img <-- astype_float32 img ;;
  of_result (preprocess img).

(** [get_content_image] (lines 518-534).  After the first resize [w] is
    the float it was scaled to. *)
Definition get_content_image (content_img : option string)
  : outcome ndarray :=
  path <-- match content_img with
           | Some c => Done (os_path_join (content_img_dir args) c)
           | None => Failed (PyExn TypeError)
           end ;;
  let img := imread path in
  _ <-- check_image img path ;;
  img <-- astype_float32 img ;;
  ' (h, w, d) <-- unpack3 (ashape img) ;;
  let mx := max_size args in
  wimg <--
    (if ((w <? h)%nat && (mx <? Z.of_nat h)%Z)%bool
     then
       r <-- of_result (Py.div (IZR mx) (INR h)) ;;
       let w := r * INR w in
       img <-- cv2_resize img (trunc w, mx) ;;
       Done (w, img)
     else Done (INR w, img)) ;;
  let w := fst wimg in
  let img := snd wimg in
  img <--
    (if Rlt_dec (IZR mx) w
     then
       r <-- of_result (Py.div (IZR mx) w) ;;
       let h := r * INR h in
       cv2_resize img (mx, trunc h)
     else Done img) ;;
  of_result (preprocess img).

(** The loop of [get_style_images] over [args.style_imgs]. *)
Fixpoint style_imgs_from (fns : list string) (ch cw : nat)
  : outcome (list ndarray) :=
  match fns with
  | [] => Done []
  | style_fn :: rest =>
      let path := os_path_join (style_imgs_dir args) style_fn in
      let img := imread path in
      _ <-- check_image img path ;;
      img <-- astype_float32 img ;;
      img <-- cv2_resize img (Z.of_nat cw, Z.of_nat ch) ;;
      img <-- of_result (preprocess img) ;;
      style_imgs <-- style_imgs_from rest ch cw ;;
      Done (img :: style_imgs)
  end.

(** [get_style_images] (lines 536-548) *)
Definition get_style_images (content_img : ndarray)
  : outcome (list ndarray) :=
  ' (ch, cw) <-- match ashape content_img with
                 | [_; ch; cw; cd] => Done (ch, cw)
                 | _ => Failed (PyExn ValueError)
                 end ;;
  style_imgs_from (style_imgs args) ch cw.

Variable str_float : R -> string.
Variable node_shape : node -> list nat.
Variable node_value : node -> ndarray -> list R.
Variable total_variation : ndarray -> R.
Variable OptState : Type.
Variable opt_init : OptState.
Variable adam_train_op :
  R -> R -> R -> R -> (ndarray -> R) -> ndarray * OptState -> ndarray * OptState.
Variable scipy_minimize : Z -> Z -> (ndarray -> R) -> ndarray -> ndarray.

(** [render_image] (lines 550-559) *)
Definition render_image (w : world OptState)
  : outcome unit * world OptState :=
  match get_content_image (content_img args) with
  | Failed e => (Failed e, w)
  | Done content_img =>
      match get_style_images content_img with
      | Failed e => (Failed e, w)
      | Done style_imgs =>
          let init_img := content_img in
          let rw :=
            stylize args str_float node_shape node_value total_variation
              OptState opt_init adam_train_op scipy_minimize
              content_img style_imgs init_img w in
          (of_result (fst rw), snd rw)
      end
  end.

End Program.

(** [main] (lines 561-565): [args] is what [parse_args] returns. *)
Definition main (imread : string -> option ndarray)
    (resample : ndarray -> nat -> nat -> list (list R))
    (str_float : R -> string) (node_shape : node -> list nat)
    (node_value : node -> ndarray -> list R)
    (total_variation : ndarray -> R) (OptState : Type) (opt_init : OptState)
    (adam_train_op :
       R -> R -> R -> R -> (ndarray -> R) ->
       ndarray * OptState -> ndarray * OptState)
    (scipy_minimize : Z -> Z -> (ndarray -> R) -> ndarray -> ndarray)
    (argparse_parse : list argument -> list string -> result Namespace)
    (argv : list string) (w : world OptState)
  : outcome unit * world OptState :=
  match parse_args OptState argparse_parse argv w with
  | (Ok args, w') =>
      render_image args imread resample str_float node_shape node_value
        total_variation OptState opt_init adam_train_op scipy_minimize w'
  | (Raise e, w') => (Failed (PyExn e), w')
  end.

(** ** Notions used to state the properties *)

(** The namespace of the defaults of [parse_args] for a content image and a
    style image; no declaration defines [beta2]. *)
Definition default_args (content style : string) : Namespace :=
  mkNamespace false None [style] [1.0] (Some content) "./styles"
    "./image_input" 512 5e0 1e4 1e-3 ["conv4_2"]
    ["relu1_1"; "relu2_1"; "relu3_1"; "relu4_1"; "relu5_1"] [1.0]
    [0.2; 0.2; 0.2; 0.2; 0.2] 0 "imagenet-vgg-verydeep-19.mat" "/gpu:0"
    "./image_output" lbfgs 1e1 0.9 None 1e-8 1 1000 50.

(** A first-order run of 2 blocks of 10 iterations that reports every 5
    iterations, for a content image and a style image. *)
Definition adam_args (content style : string) (verbose : bool)
    (beta2 : option R) : Namespace :=
  mkNamespace verbose None [style] [1.0] (Some content) "./styles"
    "./image_input" 512 5e0 1e4 1e-3 ["conv4_2"]
    ["relu1_1"; "relu2_1"; "relu3_1"; "relu4_1"; "relu5_1"] [1.0]
    [0.2; 0.2; 0.2; 0.2; 0.2] 0 "imagenet-vgg-verydeep-19.mat" "/gpu:0"
    "./image_output" adam 1e1 0.9 beta2 1e-8 2 10 5.

(** A world in which nothing has happened, for an optimizer without slots. *)
Definition empty_world : world unit := mkWorld unit (mkArray [] []) tt [] [].

(** The network of a 1x1 image of three channels, such an image, and an
    optimizer step that leaves the image as it is. *)
Definition example_net : dict node :=
  match build_model [1; 1; 1; 3]%nat with
  | Ok net => net
  | Raise _ => []
  end.

Definition example_img : ndarray := mkArray [1; 1; 1; 3]%nat [[1; 2; 3]].

Definition idle_train_op (lr b1 b2 eps : R) (loss : ndarray -> R)
    (st : ndarray * unit) : ndarray * unit := st.

(** A configuration with 2 content layers for 1 content weight and 5 style
    layers for 2 style weights, and a runtime in which every layer is one
    number, the sum of the pixel values of the image. *)
Definition mismatched_args : Namespace :=
  mkNamespace false None ["starry-night.jpg"] [1.0] (Some "lion.jpg")
    "./styles" "./image_input" 512 5e0 1e4 1e-3 ["conv4_2"; "relu4_2"]
    ["relu1_1"; "relu2_1"; "relu3_1"; "relu4_1"; "relu5_1"] [1.0]
    [0.5; 0.5] 0 "imagenet-vgg-verydeep-19.mat" "/gpu:0"
    "./image_output" lbfgs 1e1 0.9 None 1e-8 1 1000 50.

Definition point_shape (n : node) : list nat := [1; 1; 1; 1]%nat.

Definition point_value (n : node) (img : ndarray) : list R :=
  [Py.sum (concat (pixels img))].

Definition no_variation (img : ndarray) : R := 0.

Definition idle_minimize (maxiter disp : Z) (loss : ndarray -> R)
    (img : ndarray) : ndarray := img.

(** The sum over all entries of [(X - P)^2], entry by entry: the quantity
    the loss formulas are stated with. *)
Fixpoint sum_sq_diff (xs ps : list R) : R :=
  match xs, ps with
  | x :: xs', p :: ps' => (x - p) ^ 2 + sum_sq_diff xs' ps'
  | _, _ => 0
  end.

(** Three image files, a resampling that fills the image with the first
    pixel of its source, and the defaults with [--max_size 2]. *)
Definition example_files (path : string) : option ndarray :=
  if String.eqb path "./image_input/lion.jpg"
  then Some (mkArray [1; 1; 3]%nat [[1; 2; 3]])
  else if String.eqb path "./styles/starry-night.jpg"
  then Some (mkArray [2; 2; 3]%nat (repeat [4; 5; 6] 4))
  else if String.eqb path "./image_input/tower.jpg"
  then Some (mkArray [4; 2; 3]%nat (repeat [7; 8; 9] 8))
  else None.

Definition flat_resample (img : ndarray) (width height : nat)
  : list (list R) :=
  repeat (hd [] (pixels img)) (height * width).

Definition thumbnail_args : Namespace :=
  mkNamespace false None ["starry-night.jpg"] [1.0] (Some "tower.jpg")
    "./styles" "./image_input" 2 5e0 1e4 1e-3 ["conv4_2"]
    ["relu1_1"; "relu2_1"; "relu3_1"; "relu4_1"; "relu5_1"] [1.0]
    [0.2; 0.2; 0.2; 0.2; 0.2] 0 "imagenet-vgg-verydeep-19.mat" "/gpu:0"
    "./image_output" lbfgs 1e1 0.9 None 1e-8 1 1000 50.

(** A computation keeps the session when it leaves the variable and the
    slots of the optimizer as they are, and is silent when it leaves the
    directories and the events as they are, whether it returns or raises. *)
Definition keeps_session {OptState A : Type} (m : M OptState A) : Prop :=
  forall (wd wd' : world OptState) (r : result A),
    m wd = (r, wd') ->
    input_var OptState wd' = input_var OptState wd /\
    slots OptState wd' = slots OptState wd.

Definition silent {OptState A : Type} (m : M OptState A) : Prop :=
  forall (wd wd' : world OptState) (r : result A),
    m wd = (r, wd') ->
    dirs OptState wd' = dirs OptState wd /\
    log OptState wd' = log OptState wd.

(* ================================================================= *)
(** * Part II: properties *)

(** *** Facts about [Py.sum] *)

Lemma fold_left_Rplus_acc (l : list R) (a : R) :
  fold_left Rplus l a = a + fold_left Rplus l 0.
Proof.
  revert a; induction l as [|x l IH]; intros a; simpl.
  - lra.
  - rewrite (IH (a + x)), (IH (0 + x)). lra.
Qed.

Lemma sum_nil : Py.sum [] = 0.
Proof. reflexivity. Qed.

Lemma sum_cons (x : R) (l : list R) : Py.sum (x :: l) = x + Py.sum l.
Proof.
  unfold Py.sum; simpl. rewrite fold_left_Rplus_acc. lra.
Qed.

Lemma sum_app (l1 l2 : list R) : Py.sum (l1 ++ l2) = Py.sum l1 + Py.sum l2.
Proof.
  induction l1 as [|x l1 IH]; simpl.
  - rewrite sum_nil. lra.
  - rewrite !sum_cons, IH. lra.
Qed.

Lemma sum_map_div (l : list R) (c : R) :
  Py.sum (map (fun i => i / c) l) = Py.sum l / c.
Proof.
  induction l as [|x l IH]; simpl.
  - rewrite sum_nil. unfold Rdiv. lra.
  - rewrite !sum_cons, IH. unfold Rdiv. lra.
Qed.

Lemma sum_repeat_0 (n : nat) : Py.sum (repeat 0 n) = 0.
Proof.
  induction n as [|n IH]; simpl.
  - apply sum_nil.
  - rewrite sum_cons, IH. lra.
Qed.

(** *** Properties of [normalize] *)

Lemma normalize_length (weights : list R) :
  length (normalize weights) = length weights.
Proof.
  unfold normalize. destruct (Rlt_dec 0 (Py.sum weights)).
  - apply length_map.
  - apply repeat_length.
Qed.

Lemma normalize_pos (weights : list R) :
  0 < Py.sum weights ->
  normalize weights = map (fun i => i / Py.sum weights) weights.
Proof.
  intros H. unfold normalize. destruct (Rlt_dec 0 (Py.sum weights)); [reflexivity | lra].
Qed.

Lemma normalize_nonpos (weights : list R) :
  Py.sum weights <= 0 ->
  normalize weights = repeat 0 (length weights).
Proof.
  intros H. unfold normalize. destruct (Rlt_dec 0 (Py.sum weights)); [lra | reflexivity].
Qed.

(** C2. [normalize] keeps the length of the weight vector; when the sum of
    the weights is positive the result sums to 1, and when the sum is less
    than or equal to 0 the result is the all-zero vector of that length. *)
Theorem normalize_spec (weights : list R) :
  length (normalize weights) = length weights /\
  (0 < Py.sum weights -> Py.sum (normalize weights) = 1) /\
  (Py.sum weights <= 0 -> normalize weights = repeat 0 (length weights)).
Proof.
  split; [apply normalize_length | split].
  - intros H. rewrite (normalize_pos _ H), sum_map_div. field. lra.
  - apply normalize_nonpos.
Qed.

Lemma normalize_spec_witness :
  Py.sum (normalize [3; 7]) = 1 /\ normalize [-2; 1] = repeat 0 2.
Proof.
  split.
  - apply (proj1 (proj2 (normalize_spec [3; 7]))).
    unfold Py.sum; simpl; lra.
  - apply (proj2 (proj2 (normalize_spec [-2; 1]))).
    unfold Py.sum; simpl; lra.
Defined.

(** *** Inversion of the result monad *)

Lemma bind_Ok_inv {A B : Type} (m : result A) (k : A -> result B) (b : B) :
  bind m k = Ok b -> exists a, m = Ok a /\ k a = Ok b.
Proof.
  destruct m as [a|e]; simpl; intros H.
  - exists a. split; [reflexivity | exact H].
  - discriminate H.
Qed.

Tactic Notation "bind_inv" hyp(H) "as" ident(a) ident(Ha) :=
  apply bind_Ok_inv in H; destruct H as (a & Ha & H).



Lemma length_flat_map_const {A B : Type} (f : A -> list B) (l : list A) (n : nat) :
  (forall a, length (f a) = n) ->
  length (flat_map f l) = (length l * n)%nat.
Proof.
  intros Hf. induction l as [|a l IH]; simpl.
  - reflexivity.
  - rewrite length_app, Hf, IH. reflexivity.
Qed.

(** ** The loss functions *)

Lemma pow_half_sqrt (n : nat) : Py.pow (INR n) 0.5 = sqrt (INR n).
Proof.
  unfold Py.pow. destruct (Req_dec_T (INR n) 0) as [e|ne].
  - rewrite e, sqrt_0. destruct (Req_dec_T 0.5 0); [lra | reflexivity].
  - replace 0.5 with (/ 2) by lra. apply Rpower_sqrt.
    pose proof (pos_INR n). lra.
Qed.

Lemma reduce_sum_sq_diff (xs ps : list R) :
  fold_left Rplus
    (map (fun v => v ^ 2) (map (fun xy => fst xy - snd xy) (combine xs ps))) 0
  = sum_sq_diff xs ps.
Proof.
  revert ps; induction xs as [|x xs IH]; intros [|p ps];
    cbn [combine map fold_left sum_sq_diff fst snd]; try reflexivity.
  rewrite fold_left_Rplus_acc, IH. lra.
Qed.



Lemma INR_pos (n : nat) : (0 < n)%nat -> 0 < INR n.
Proof. intros H. apply lt_0_INR. exact H. Qed.

Lemma content_scale_pos (h w d : nat) :
  (0 < h)%nat -> (0 < w)%nat -> (0 < d)%nat ->
  0 < 2 * sqrt (INR d) * sqrt (INR (h * w)).
Proof.
  intros Hh Hw Hd.
  assert (0 < sqrt (INR d)) by (apply sqrt_lt_R0, INR_pos; lia).
  assert (0 < sqrt (INR (h * w))) by (apply sqrt_lt_R0, INR_pos; nia).
  nra.
Qed.

Section Losses.

Context {E : Type}.

Lemma content_layer_loss_eq (P X : tensor E) (b h w d : nat) :
  shape P = [b; h; w; d] -> shape X = [b; h; w; d] ->
  (0 < h)%nat -> (0 < w)%nat -> (0 < d)%nat ->
  exists loss : E -> R,
    content_layer_loss P X = Ok loss /\
    forall e, loss e = 1 / (2 * sqrt (INR d) * sqrt (INR (h * w)))
                       * sum_sq_diff (value X e) (value P e).
Proof.
  intros HP HX Hh Hw Hd.
  unfold content_layer_loss, unpack4. rewrite HP. cbn [bind].
  rewrite !pow_half_sqrt.
  pose proof (content_scale_pos h w d Hh Hw Hd) as Hpos.
  unfold Py.div.
  destruct (Req_dec_T (2 * sqrt (INR d) * sqrt (INR (h * w))) 0) as [e|_];
    [lra|].
  cbn [bind]. unfold tf.sub. rewrite HX, HP.
  destruct (shape_eq_dec [b; h; w; d] [b; h; w; d]) as [_|ne];
    [|contradiction].
  cbn [bind]. eexists. split; [reflexivity|].
  intros e. cbv beta. unfold tf.reduce_sum, tf.pow. cbn [value].
  rewrite reduce_sum_sq_diff. reflexivity.
Qed.

(** Without entries the scale factor does not exist: the division raises. *)
Lemma content_layer_loss_no_depth (P X : tensor E) (b h w : nat) :
  shape P = [b; h; w; 0%nat] ->
  content_layer_loss P X = Raise ZeroDivisionError.
Proof.
  intros HP. unfold content_layer_loss, unpack4. rewrite HP. cbn [bind].
  rewrite !pow_half_sqrt. simpl INR. rewrite sqrt_0.
  unfold Py.div.
  destruct (Req_dec_T (2 * 0 * sqrt (INR (h * w))) 0) as [_|ne];
    [reflexivity | exfalso; apply ne; ring].
Qed.

(** *** The Gram matrix *)

Lemma gram_matrix_ok (x : tensor E) (h w d : nat) :
  shape x = [1; h; w; d]%nat ->
  exists G, gram_matrix x (h * w) d = Ok G /\
            shape G = [d; d] /\
            forall e, length (value G e) = (d * d)%nat.
Proof.
  intros Hx. unfold gram_matrix, tf.reshape. rewrite Hx.
  destruct (Nat.eq_dec (numel [1; h; w; d]%nat) (numel [(h * w)%nat; d]))
    as [_|ne]; [|exfalso; apply ne; simpl; lia].
  cbn [bind]. unfold tf.transpose; cbn [shape value bind].
  unfold tf.matmul; cbn [shape value].
  destruct (Nat.eq_dec (h * w) (h * w)) as [_|ne]; [|contradiction].
  eexists. split; [reflexivity|]. cbn [shape value]. split; [reflexivity|].
  intros e. rewrite length_flat_map_const with (n := d).
  - rewrite length_seq. reflexivity.
  - intros i. rewrite length_map, length_seq. reflexivity.
Qed.




Lemma style_layer_loss_eq (a x Ga Gx : tensor E) (h w d : nat) :
  shape a = [1; h; w; d]%nat ->
  (0 < h)%nat -> (0 < w)%nat -> (0 < d)%nat ->
  gram_matrix a (h * w) d = Ok Ga -> gram_matrix x (h * w) d = Ok Gx ->
  shape Ga = [d; d] -> shape Gx = [d; d] ->
  exists loss : E -> R,
    style_layer_loss a x = Ok loss /\
    forall e, loss e = 1 / INR (4 * d ^ 2 * (h * w) ^ 2)
                       * sum_sq_diff (value Gx e) (value Ga e).
Proof.
  intros Ha Hh Hw Hd HGa HGx Hsa Hsx.
  unfold style_layer_loss, unpack4. rewrite Ha. cbn [bind].
  rewrite HGa, HGx. cbn [bind]. unfold Py.div.
  destruct (Req_dec_T (INR (4 * d ^ 2 * (h * w) ^ 2)) 0) as [e|_].
  - exfalso. assert (0 < INR (4 * d ^ 2 * (h * w) ^ 2)); [|lra].
    apply INR_pos. simpl. nia.
  - cbn [bind]. unfold tf.sub. rewrite Hsa, Hsx.
    destruct (shape_eq_dec [d; d] [d; d]) as [_|ne]; [|contradiction].
    cbn [bind]. eexists. split; [reflexivity|].
    intros e. cbv beta. unfold tf.reduce_sum, tf.pow. cbn [value].
    rewrite reduce_sum_sq_diff. reflexivity.
Qed.

End Losses.


(** C1. For a reference activation [P] and a current activation [X] of shape
    (1,h,w,d), the content loss of the layer is
    (1 / (2*sqrt(d)*sqrt(h*w))) times the sum over all entries of (X - P)^2,
    whatever the values of the variables of the graph. *)
Theorem content_layer_loss_formula {E : Type} (P X : tensor E) (h w d : nat) :
  shape P = [1; h; w; d]%nat -> shape X = [1; h; w; d]%nat ->
  (0 < h)%nat -> (0 < w)%nat -> (0 < d)%nat ->
  exists loss : E -> R,
    content_layer_loss P X = Ok loss /\
    forall e, loss e = 1 / (2 * sqrt (INR d) * sqrt (INR (h * w)))
                       * sum_sq_diff (value X e) (value P e).
Proof. apply content_layer_loss_eq. Qed.

Lemma content_layer_loss_formula_witness :
  exists loss : unit -> R,
    content_layer_loss (tf.constant [1; 1; 2; 1]%nat [1; 2] : tensor unit) (tf.constant [1; 1; 2; 1]%nat [4; 6] : tensor unit) = Ok loss /\
    forall e, loss e = 1 / (2 * sqrt (INR 1) * sqrt (INR (1 * 2)))
                       * sum_sq_diff (value (tf.constant [1; 1; 2; 1]%nat [4; 6] : tensor unit) e) (value (tf.constant [1; 1; 2; 1]%nat [1; 2] : tensor unit) e).
Proof.
  apply (content_layer_loss_formula (tf.constant [1; 1; 2; 1]%nat [1; 2] : tensor unit) (tf.constant [1; 1; 2; 1]%nat [4; 6] : tensor unit) 1%nat 2%nat 1%nat);
    (reflexivity || lia).
Defined.



(** ** The VGG-19 topology *)

(** C4. The network built by [build_model] has 16 convolution+activation
    layers in 5 blocks of sizes (2,2,4,4,4), each block closed by one pooling
    layer; the weight-store index grows by 2 between consecutive convolution
    layers of a block and by 3 across a pooling layer, which gives the
    indices 0,2, 5,7, 10,12,14,16, 19,21,23,25, 28,30,32,34. *)
Theorem build_model_topology (b h w d : nat) :
  exists net : dict node,
    build_model [b; h; w; d] = Ok net /\
    length (conv_indices net) = 16%nat /\
    conv_then_relu (layer_kinds net) = true /\
    conv_blocks net
    = ([[0; 2]; [5; 7]; [10; 12; 14; 16]; [19; 21; 23; 25]; [28; 30; 32; 34]]%nat,
       []) /\
    map (@length nat) (fst (conv_blocks net)) = [2; 2; 4; 4; 4]%nat /\
    pool_count net = 5%nat /\
    forallb (steps_by 2) (fst (conv_blocks net)) = true /\
    blocks_step_by 3 (fst (conv_blocks net)) = true /\
    conv_indices net
    = [0; 2; 5; 7; 10; 12; 14; 16; 19; 21; 23; 25; 28; 30; 32; 34]%nat /\
    match map snd net with
    | input :: layers => input = Variable_zeros [1%nat; h; w; d] /\
                         chained input layers
    | [] => False
    end.
Proof.
  eexists. split; [vm_compute; reflexivity|].
  do 8 (split; [vm_compute; reflexivity|]).
  cbn [map snd]. split; [reflexivity|].
  cbn [chained input_of]. repeat split.
Qed.

(** ** Image pre- and postprocessing *)





Lemma trunc_nonneg (v : R) : 0 <= v -> trunc v = Int_part v.
Proof.
  intros H. unfold trunc. destruct (Rle_dec 0 v); [reflexivity | contradiction].
Qed.


Lemma Int_part_close (v : R) : IZR (Int_part v) <= v < IZR (Int_part v) + 1.
Proof. destruct (base_Int_part v). lra. Qed.

(** What [preprocess] returns on an image of three channels. *)
Lemma preprocess_eq (img : ndarray) (h w : nat) :
  ashape img = [h; w; 3%nat] ->
  preprocess img
  = Ok (mkArray [1%nat; h; w; 3%nat]
          (map (fun px => map (fun vc => fst vc - snd vc)
                            (combine px vgg_mean))
             (map (@rev R) (pixels img)))).
Proof.
  intros Hs. unfold preprocess, np.newaxis3, np.rev_last, np.copy.
  cbn [ashape pixels]. rewrite Hs. cbn [length Nat.leb bind].
  unfold np.broadcast3. cbn [ashape pixels length Nat.leb last Nat.eqb andb].
  reflexivity.
Qed.




(** ** The frame of pre- and postprocessing on the heap *)

Module MemFacts.
Import Mem.

Lemma frames_ret {A : Type} (n : nat) (Q : A -> Prop) (a : A) :
  Q a -> frames n Q (ret a).
Proof.
  intros HQ s Hn. cbn. split; [reflexivity | split; [lia|]].
  intros a' [= <-]. exact HQ.
Qed.

Lemma frames_lift {A : Type} (n : nat) (Q : A -> Prop) (r : result A) :
  (forall a, r = Ok a -> Q a) -> frames n Q (lift r).
Proof.
  intros HQ s Hn. cbn. split; [reflexivity | split; [lia | exact HQ]].
Qed.

Lemma frames_bind {A B : Type} (n : nat) (Q : A -> Prop) (Q' : B -> Prop)
    (m : H A) (k : A -> H B) :
  frames n Q m -> (forall a, Q a -> frames n Q' (k a)) ->
  frames n Q' (hbind m k).
Proof.
  intros Hm Hk s Hn. unfold hbind.
  destruct (Hm s Hn) as (Hf & Hl & HQ).
  destruct (m s) as [[a|e] s1]; cbn [fst snd] in *.
  - destruct (Hk a (HQ a eq_refl) s1 ltac:(lia)) as (Hf' & Hl' & HQ').
    split; [congruence | split; [lia | exact HQ']].
  - split; [exact Hf | split; [exact Hl|]]. intros b [=].
Qed.

Lemma frames_alloc (n : nat) (shp : list nat) (px : list (list R)) :
  frames n (fun v => (n <= base v)%nat) (alloc shp px).
Proof.
  intros s Hn. unfold alloc; cbn [fst snd].
  split; [|split].
  - rewrite firstn_app. replace (n - length s)%nat with 0%nat by lia.
    cbn [firstn]. apply app_nil_r.
  - rewrite length_app. lia.
  - intros a [= <-]. cbn [base]. exact Hn.
Qed.

Lemma frames_read (n : nat) (a : view) :
  frames n (fun _ => True) (fun s => (read a s, s)).
Proof.
  intros s Hn. cbn [fst snd]. split; [reflexivity | split; [lia | trivial]].
Qed.

Lemma frames_copy (n : nat) (a : view) :
  frames n (fun v => (n <= base v)%nat) (copy a).
Proof.
  unfold copy. eapply frames_bind; [apply frames_read|].
  intros px _. apply frames_alloc.
Qed.

Lemma frames_clip (n : nat) (a : view) (lo hi : R) :
  frames n (fun v => (n <= base v)%nat) (clip a lo hi).
Proof.
  unfold clip. eapply frames_bind; [apply frames_read|].
  intros px _. apply frames_alloc.
Qed.

Lemma frames_astype_uint8 (n : nat) (a : view) :
  frames n (fun v => (n <= base v)%nat) (astype_uint8 a).
Proof.
  unfold astype_uint8. eapply frames_bind; [apply frames_read|].
  intros px _. apply frames_alloc.
Qed.

Lemma length_list_update {A : Type} (l : list A) (i : nat) (v : A) :
  length (list_update l i v) = length l.
Proof.
  revert i; induction l as [|x l IH]; intros [|i]; simpl; auto.
Qed.

Lemma firstn_list_update {A : Type} (l : list A) (i n : nat) (v : A) :
  (n <= i)%nat -> firstn n (list_update l i v) = firstn n l.
Proof.
  revert i n; induction l as [|x l IH]; intros [|i] [|n] H; simpl;
    try reflexivity; try lia.
  f_equal. apply IH. lia.
Qed.

(** A write through a view only touches the buffer of the view. *)
Lemma frames_broadcast3 (n : nat) (op : R -> R -> R) (a : view) (c : list R) :
  (n <= base a)%nat -> frames n (fun _ => True) (broadcast3 op a c).
Proof.
  intros Hb s Hn. unfold broadcast3.
  destruct ((4 <=? length (vshape a)) && (last (vshape a) 0 =? 3))%nat;
    [destruct (nth_error s (base a))|]; cbn [fst snd].
  - split; [apply firstn_list_update; exact Hb|].
    split; [rewrite length_list_update; lia | trivial].
  - split; [reflexivity | split; [lia | trivial]].
  - split; [reflexivity | split; [lia | trivial]].
Qed.

Lemma frames_preprocess (n : nat) (img : view) :
  frames n (fun v => (n <= base v)%nat) (preprocess img).
Proof.
  unfold preprocess.
  eapply frames_bind; [apply frames_copy|]. intros v Hv.
  eapply frames_bind with (Q := fun v => (n <= base v)%nat).
  { apply frames_lift. unfold newaxis3, rev_last. cbn [vshape base reversed].
    intros a. destruct (3 <=? length (vshape v))%nat; intros [= <-].
    exact Hv. }
  intros v' Hv'.
  eapply frames_bind; [apply frames_broadcast3; exact Hv'|].
  intros _ _. apply frames_ret. exact Hv'.
Qed.

Lemma frames_postprocess (n : nat) (img : view) :
  frames n (fun v => (n <= base v)%nat) (postprocess img).
Proof.
  unfold postprocess.
  eapply frames_bind; [apply frames_copy|]. intros v Hv.
  eapply frames_bind; [apply frames_broadcast3; exact Hv|]. intros _ _.
  eapply frames_bind with (Q := fun v => (n <= base v)%nat).
  { apply frames_lift. unfold index0. intros a.
    destruct (vshape v) as [|[|k] rest]; intros [= <-]. exact Hv. }
  intros v1 _.
  eapply frames_bind; [apply frames_clip|]. intros v2 _.
  eapply frames_bind; [apply frames_astype_uint8|]. intros v3 Hv3.
  apply frames_ret. exact Hv3.
Qed.

(** A heap that keeps its first buffers shows the same through any view. *)
Lemma read_frame (img : view) (s s' : heap) :
  firstn (length s) s' = s ->
  (base img < length s)%nat ->
  read img s' = read img s.
Proof.
  intros Hf Hb. unfold read.
  replace (nth_error s' (base img)) with (nth_error s (base img));
    [reflexivity|].
  rewrite <- Hf at 1. rewrite nth_error_firstn.
  destruct (Nat.ltb_spec (base img) (length s)); [reflexivity | lia].
Qed.

(** On a dangling view the copy fails before anything is allocated. *)
Lemma copy_dangling (img : view) (s : heap) :
  (length s <= base img)%nat ->
  copy img s = (Raise InvalidArgumentError, s).
Proof.
  intros Hb. unfold copy, hbind, read.
  replace (nth_error s (base img)) with (@None (list (list R)));
    [reflexivity|].
  symmetry. apply nth_error_None. exact Hb.
Qed.

Lemma frame_of_frames (m : H view) (img : view) (s : heap) :
  frames (length s) (fun v => (length s <= base v)%nat) m ->
  ((length s <= base img)%nat -> snd (m s) = s) ->
  firstn (length s) (snd (m s)) = s /\
  read img (snd (m s)) = read img s /\
  (forall v, fst (m s) = Ok v -> base v <> base img \/ read img s = Raise InvalidArgumentError).
Proof.
  intros Hfr Hdang.
  destruct (Hfr s (le_n _)) as (Hf & Hl & HQ). rewrite firstn_all in Hf.
  split; [exact Hf|].
  destruct (Nat.lt_ge_cases (base img) (length s)) as [Hlt|Hge].
  - split; [apply read_frame; assumption|].
    intros v Hv. left. specialize (HQ v Hv). lia.
  - rewrite (Hdang Hge). split; [reflexivity|].
    intros v Hv. right. unfold read.
    replace (nth_error s (base img)) with (@None (list (list R)));
      [reflexivity|].
    symmetry. apply nth_error_None. exact Hge.
Qed.

End MemFacts.

(** C10. [preprocess] and [postprocess] leave their argument unchanged: they
    work on a buffer of their own, so every buffer that exists before the
    call, and with it what the caller's array shows, is the same after the
    call, whether the call returns or raises. *)
Theorem preprocess_postprocess_leave_argument (img : Mem.view) (s : Mem.heap) :
  (firstn (length s) (snd (Mem.preprocess img s)) = s /\
   Mem.read img (snd (Mem.preprocess img s)) = Mem.read img s /\
   (forall v, fst (Mem.preprocess img s) = Ok v ->
              Mem.base v <> Mem.base img \/
              Mem.read img s = Raise InvalidArgumentError)) /\
  (firstn (length s) (snd (Mem.postprocess img s)) = s /\
   Mem.read img (snd (Mem.postprocess img s)) = Mem.read img s /\
   (forall v, fst (Mem.postprocess img s) = Ok v ->
              Mem.base v <> Mem.base img \/
              Mem.read img s = Raise InvalidArgumentError)).
Proof.
  split; apply MemFacts.frame_of_frames.
  - apply MemFacts.frames_preprocess.
  - intros Hd. unfold Mem.preprocess, Mem.hbind.
    rewrite (MemFacts.copy_dangling img s Hd). reflexivity.
  - apply MemFacts.frames_postprocess.
  - intros Hd. unfold Mem.postprocess, Mem.hbind.
    rewrite (MemFacts.copy_dangling img s Hd). reflexivity.
Qed.

Lemma preprocess_postprocess_leave_argument_witness :
  Mem.base (Mem.mkView 1%nat [1; 1; 1; 3]%nat true)
  <> Mem.base (Mem.mkView 0%nat [1; 1; 3]%nat false) \/
  Mem.read (Mem.mkView 0%nat [1; 1; 3]%nat false) [[[5; 6; 7]]]
  = Raise InvalidArgumentError.
Proof.
  apply (proj2 (proj2 (proj1
           (preprocess_postprocess_leave_argument
              (Mem.mkView 0%nat [1; 1; 3]%nat false) [[[5; 6; 7]]])))
           (Mem.mkView 1%nat [1; 1; 1; 3]%nat true)).
  reflexivity.
Defined.

(** Without the copy the caller's array would change: [-=] writes through
    the view it is applied to. *)
Lemma broadcast3_writes_through :
  Mem.read (Mem.mkView 0%nat [1; 1; 1; 3]%nat false)
    (snd (Mem.broadcast3 Rminus (Mem.mkView 0%nat [1; 1; 1; 3]%nat false)
            [1; 1; 1] [[[5; 6; 7]]]))
  = Ok [[4; 5; 6]].
Proof.
  unfold Mem.broadcast3, Mem.read. cbn. repeat f_equal; lra.
Qed.

(** ** The argument parser *)




(** ** The paths of the images *)

(** Whenever [max_iterations] is positive, the directory computed for the
    final write is the [iters] subfolder of the directory of the render. *)
Lemma final_paths_under_iters (args : Namespace) (str_float : R -> string)
    (base : string) :
  render_dir args str_float = Ok base ->
  (0 < max_iterations args)%Z ->
  image_paths args str_float (blocks args) 0
  = Ok (os_path_join base "iters",
        os_path_join (os_path_join base "iters")
          (file_name args (blocks args) 0)).
Proof.
  intros Hdir Hmax. unfold image_paths. rewrite Hdir. cbn [bind].
  replace (0 <? max_iterations args)%Z with true
    by (symmetry; apply Z.ltb_lt; exact Hmax).
  rewrite orb_true_r. reflexivity.
Qed.

(** C5 fails on the defaults: the path of the final write, computed for
    block = blocks and iteration = 0, lies under [iters], because iteration 0
    is below [max_iterations]. *)
Theorem final_output_written_under_iters :
  fst (get_image_savename (default_args "lion.jpg" "starry-night.jpg")
         (fun _ => "") unit
         (blocks (default_args "lion.jpg" "starry-night.jpg")) 0 empty_world)
  = Ok ("./image_output/lion.starry-night512LBFGS1000/iters",
        "./image_output/lion.starry-night512LBFGS1000/iters/1.0.png").
Proof. vm_compute. reflexivity. Qed.

(** ** The optimizer driver *)

Lemma actions_app (l1 l2 : list event) :
  actions (l1 ++ l2) = actions l1 ++ actions l2.
Proof. unfold actions. apply flat_map_app. Qed.

Lemma postprocess_ok (img : ndarray) (h w : nat) :
  ashape img = [1; h; w; 3]%nat -> exists out, postprocess img = Ok out.
Proof.
  intros Hs. unfold postprocess, np.copy, np.broadcast3. cbn [ashape pixels].
  rewrite Hs. cbn [length Nat.leb last Nat.eqb andb bind].
  unfold np.index0. cbn [ashape bind]. eexists. reflexivity.
Qed.

Section DriverFacts.

Variable args : Namespace.
Variable str_float : R -> string.
Variable OptState : Type.
Variable opt_init : OptState.
Variable adam_train_op :
  R -> R -> R -> R -> (ndarray -> R) -> ndarray * OptState -> ndarray * OptState.

(** The variable [net['input']] of the network and its shape. *)
Variable net : dict node.
Variables h w : nat.
Hypothesis net_input : dict_get net "input" = Ok (Variable_zeros [1; h; w; 3]%nat).

(** The training operation keeps the shape of the variable. *)
Hypothesis train_shape :
  forall lr b1 b2 eps loss img st,
    ashape (fst (adam_train_op lr b1 b2 eps loss (img, st))) = ashape img.

Local Abbreviation W := (world OptState).

(** The invariant of the loops: the variable holds an image of its shape. *)
Local Abbreviation holds_image :=
  (fun wd : W => ashape (input_var OptState wd) = [1; h; w; 3]%nat).

Lemma maybe_make_directory_run (d : string) (wd : W) :
  exists wd',
    maybe_make_directory OptState d wd = (Ok tt, wd') /\
    input_var OptState wd' = input_var OptState wd /\
    actions (log OptState wd') = actions (log OptState wd).
Proof.
  unfold maybe_make_directory.
  destruct (existsb (String.eqb d) (dirs OptState wd)).
  - exists wd. auto.
  - eexists. split; [reflexivity|]. cbn. split; [reflexivity|].
    rewrite actions_app. cbn. apply app_nil_r.
Qed.

Lemma get_image_savename_run (block iteration : Z) (wd : W) :
  match image_paths args str_float block iteration with
  | Ok dp =>
      exists wd',
        get_image_savename args str_float OptState block iteration wd
        = (Ok dp, wd') /\
        input_var OptState wd' = input_var OptState wd /\
        actions (log OptState wd') = actions (log OptState wd)
  | Raise e =>
      get_image_savename args str_float OptState block iteration wd
      = (Raise e, wd)
  end.
Proof.
  unfold image_paths, render_dir, file_name, get_image_savename, mbind, lift, ret.
  destruct (img_name args) as [name|];
    [|destruct (content_img args) as [c|];
      [destruct (style_imgs args) as [|s0 ss]|]];
    cbn [bind]; try reflexivity;
    (destruct (optimizer args);
     [|unfold get_beta2; destruct (beta2 args) as [b2|]];
     cbn [bind]; try reflexivity;
     match goal with
     | |- context [maybe_make_directory OptState ?d wd] =>
         destruct (maybe_make_directory_run d wd) as (wd' & -> & Hi & Ha);
         exists wd'; split; [reflexivity | split; assumption]
     end).
Qed.

Lemma write_image_run (path : string) (img : ndarray) (wd : W) :
  ashape img = [1; h; w; 3]%nat ->
  exists wd',
    write_image OptState path img wd = (Ok tt, wd') /\
    input_var OptState wd' = input_var OptState wd /\
    actions (log OptState wd') = actions (log OptState wd) ++ [AWrite path].
Proof.
  intros Hs. destruct (postprocess_ok img h w Hs) as (out & Hout).
  unfold write_image, mbind, lift, emit. rewrite Hout.
  eexists. split; [reflexivity|]. cbn. split; [reflexivity|].
  rewrite actions_app. reflexivity.
Qed.

(** The rule of [for]: an invariant, and the actions of each turn. *)
Lemma for_each_run {A : Type} (l : list A) (body : A -> M OptState unit)
    (I : W -> Prop) (acts : A -> list action) (wd : W) :
  I wd ->
  (forall x wd1, In x l -> I wd1 ->
     exists wd2, body x wd1 = (Ok tt, wd2) /\ I wd2 /\
                 actions (log OptState wd2)
                 = actions (log OptState wd1) ++ acts x) ->
  exists wd', for_each OptState l body wd = (Ok tt, wd') /\ I wd' /\
              actions (log OptState wd')
              = actions (log OptState wd) ++ flat_map acts l.
Proof.
  revert wd. induction l as [|x l IH]; intros wd HI Hbody.
  - exists wd. cbn. rewrite app_nil_r. auto.
  - destruct (Hbody x wd (or_introl eq_refl) HI) as (wd1 & Hx & HI1 & Ha1).
    destruct (IH wd1 HI1) as (wd2 & Hl & HI2 & Ha2).
    { intros y wd' Hy. apply Hbody. right. exact Hy. }
    exists wd2. cbn [for_each]. unfold mbind at 1. rewrite Hx.
    split; [exact Hl | split; [exact HI2|]].
    rewrite Ha2, Ha1. cbn [flat_map]. rewrite app_assoc. reflexivity.
Qed.

Lemma in_counter_range (x n : Z) :
  In x (counter_range n) -> (0 <= x < n)%Z.
Proof.
  unfold counter_range. rewrite in_map_iff. intros (k & <- & Hk).
  apply in_seq in Hk. lia.
Qed.

Lemma image_paths_checkpoint (base : string) (block iteration : Z) :
  render_dir args str_float = Ok base ->
  (block < blocks args)%Z ->
  image_paths args str_float block iteration
  = Ok (os_path_join base "iters",
        os_path_join (os_path_join base "iters")
          (file_name args block iteration)).
Proof.
  intros Hdir Hb. unfold image_paths. rewrite Hdir. cbn [bind].
  replace (block <? blocks args)%Z with true by (symmetry; apply Z.ltb_lt; lia).
  reflexivity.
Qed.



(** [write_image_output] writes the output image, the copy of the content
    image and the copies of the style images. *)
Lemma write_image_output_run (output_img content_img : ndarray)
    (style_imgs : list ndarray) (d pth : string) (wd : W) :
  image_paths args str_float (blocks args) 0 = Ok (d, pth) ->
  ashape output_img = [1; h; w; 3]%nat ->
  ashape content_img = [1; h; w; 3]%nat ->
  Forall (fun img => ashape img = [1; h; w; 3]%nat) style_imgs ->
  exists wd',
    write_image_output args str_float OptState output_img content_img
      style_imgs wd
    = (Ok tt, wd') /\
    actions (log OptState wd')
    = actions (log OptState wd) ++
      AWrite pth :: AWrite (os_path_join d "0content.png") ::
      map (fun index =>
             AWrite (os_path_join d (str_int (Z.of_nat index) +++ "_style.png")))
        (seq 0 (length style_imgs)).
Proof.
  intros Hpaths Hout Hcontent Hstyles.
  unfold write_image_output.
  pose proof (get_image_savename_run (blocks args) 0 wd) as Hsave.
  rewrite Hpaths in Hsave. destruct Hsave as (wd1 & Hs1 & _ & Ha1).
  unfold mbind at 1. rewrite Hs1.
  destruct (write_image_run pth output_img wd1 Hout) as (wd2 & Hw2 & _ & Ha2).
  unfold mbind at 1. rewrite Hw2.
  destruct (write_image_run (os_path_join d "0content.png") content_img wd2
              Hcontent) as (wd3 & Hw3 & _ & Ha3).
  unfold mbind at 1. rewrite Hw3.
  unfold mbind at 1.
  match goal with
  | |- context [for_each OptState ?l ?body wd3] =>
      destruct (for_each_run l body (fun _ => True)
                  (fun is_ : nat * ndarray =>
                     [AWrite (os_path_join d
                                (str_int (Z.of_nat (fst is_)) +++ "_style.png"))])
                  wd3 I)
        as (wd4 & Hw4 & _ & Ha4)
  end.
  { intros [index style_img] wd' Hin _. apply in_combine_r in Hin.
    rewrite Forall_forall in Hstyles.
    destruct (write_image_run
                (os_path_join d (str_int (Z.of_nat index) +++ "_style.png"))
                style_img wd' (Hstyles _ Hin)) as (wd'' & Hw & _ & Ha).
    exists wd''. split; [exact Hw | split; [exact I | exact Ha]]. }
  rewrite Hw4. cbn [emit].
  eexists. split; [reflexivity|].
  cbn [log]. rewrite actions_app, Ha4, Ha3, Ha2, Ha1. cbn [actions flat_map action_of].
  rewrite app_nil_r, <- !app_assoc. cbn [app]. do 3 f_equal.
  clear. generalize 0%nat at 1 2 as k.
  induction style_imgs as [|img l IH]; intros k; cbn; [reflexivity|].
  f_equal. apply IH.
Qed.

End DriverFacts.

(** ** The aggregate losses *)

Section AggregateFacts.

Variable args : Namespace.
Variable node_shape : node -> list nat.
Variable node_value : node -> ndarray -> list R.
Variable OptState : Type.
Variable net : dict node.
Variables h w : nat.
Hypothesis net_input : dict_get net "input" = Ok (Variable_zeros [1; h; w; 3]%nat).

Local Abbreviation W := (world OptState).
Local Abbreviation loss_fn :=
  (tensor ndarray -> tensor ndarray -> result (ndarray -> R)).

(** The layer loss is defined for a layer and an image. *)
Local Abbreviation defined_for :=
  (fun (f : loss_fn) (input : ndarray) (lw : string * R) =>
     exists l, layer_loss node_shape node_value f net input (fst lw) = Ok l).

Lemma layers_loop_run (f : loss_fn) (input : ndarray)
    (pairs : list (string * R)) (acc : ndarray -> R) :
  Forall (defined_for f input) pairs ->
  exists L,
    layers_loop node_shape node_value f net input pairs acc = Ok L /\
    forall e, L e = acc e
                    + weighted_terms node_shape node_value f net input pairs e.
Proof.
  revert acc. induction pairs as [|[layer weight] rest IH]; intros acc Hgood.
  - exists acc. split; [reflexivity|]. intros e. cbn. lra.
  - inversion Hgood as [|? ? [l Hl] Hrest]; subst. cbn [fst] in Hl.
    destruct (IH (fun e => acc e + l e * weight) Hrest) as (L & HL & Hval).
    exists L. cbn [layers_loop]. rewrite Hl. cbn [bind].
    split; [exact HL|]. intros e. rewrite Hval.
    change (weighted_terms node_shape node_value f net input
              ((layer, weight) :: rest) e)
      with (layer_term node_shape node_value f net input layer e * weight
            + weighted_terms node_shape node_value f net input rest e).
    unfold layer_term at 1. rewrite Hl. lra.
Qed.

Lemma assign_run (img : ndarray) (wd : W) :
  ashape img = [1; h; w; 3]%nat ->
  assign OptState (Variable_zeros [1; h; w; 3]%nat) img wd
  = (Ok tt,
     mkWorld OptState img (slots OptState wd) (dirs OptState wd)
       (log OptState wd)).
Proof.
  intros Hs. unfold assign.
  destruct (shape_eq_dec [1; h; w; 3]%nat (ashape img)) as [_|ne];
    [reflexivity | exfalso; apply ne; symmetry; exact Hs].
Qed.

Lemma div_len_run (acc : ndarray -> R) (n : nat) :
  n <> 0%nat -> div_len acc n = Ok (fun e => acc e / INR n).
Proof.
  intros Hn. unfold div_len. destruct (Nat.eqb_spec n 0); [contradiction|].
  reflexivity.
Qed.

Lemma sum_content_losses_run (content_img : ndarray) (wd : W) :
  ashape content_img = [1; h; w; 3]%nat ->
  content_layers args <> [] ->
  Forall (defined_for content_layer_loss content_img)
    (Py.zip (content_layers args) (content_layer_weights args)) ->
  exists L wd',
    sum_content_losses args node_shape node_value OptState net content_img wd
    = (Ok L, wd') /\
    log OptState wd' = log OptState wd /\
    forall e, L e = content_aggregate args node_shape node_value net
                      content_img e.
Proof.
  intros Hs Hne Hgood.
  destruct (layers_loop_run content_layer_loss content_img _ (fun _ => 0) Hgood)
    as (L & HL & Hval).
  unfold sum_content_losses, mbind, lift. rewrite net_input.
  rewrite (assign_run content_img wd Hs). cbn [input_var]. rewrite HL.
  rewrite div_len_run by (destruct (content_layers args); [contradiction | discriminate]).
  eexists. eexists. split; [reflexivity|]. split; [reflexivity|].
  intros e. cbv beta. rewrite Hval. unfold content_aggregate. lra.
Qed.

Lemma style_imgs_loop_run (pairs : list (ndarray * R))
    (total : ndarray -> R) (wd : W) :
  style_layers args <> [] ->
  Forall (fun iw : ndarray * R =>
            ashape (fst iw) = [1; h; w; 3]%nat /\
            Forall (defined_for style_layer_loss (fst iw))
              (Py.zip (style_layers args) (style_layer_weights args)))
    pairs ->
  exists L wd',
    style_imgs_loop args node_shape node_value OptState net pairs total wd
    = (Ok L, wd') /\
    log OptState wd' = log OptState wd /\
    forall e,
      L e = total e +
            fold_right
              (fun (iw : ndarray * R) acc =>
                 weighted_terms node_shape node_value style_layer_loss net
                   (fst iw)
                   (Py.zip (style_layers args) (style_layer_weights args)) e
                 / INR (length (style_layers args)) * snd iw + acc)
              0 pairs.
Proof.
  intros Hne. revert total wd.
  induction pairs as [|[img img_weight] rest IH]; intros total wd Hgood.
  - exists total, wd. split; [reflexivity|]. split; [reflexivity|].
    intros e. cbn. lra.
  - inversion Hgood as [|? ? [Hs Hlayers] Hrest]; subst. cbn [fst] in Hs, Hlayers.
    destruct (layers_loop_run style_layer_loss img _ (fun _ => 0) Hlayers)
      as (Ls & HLs & Hvals).
    cbn [style_imgs_loop]. unfold mbind at 1. unfold lift. rewrite net_input.
    unfold mbind at 1. rewrite (assign_run img wd Hs).
    unfold mbind at 1. cbn [input_var]. rewrite HLs.
    unfold mbind at 1.
    rewrite div_len_run
      by (destruct (style_layers args); [contradiction | discriminate]).
    match goal with
    | |- context [style_imgs_loop _ _ _ _ _ rest ?t ?w1] =>
        destruct (IH t w1 Hrest) as (L & wd' & HL & Hlog & Hval)
    end.
    exists L, wd'. split; [exact HL|]. split; [rewrite Hlog; reflexivity|].
    intros e. rewrite Hval. cbv beta. rewrite Hvals.
    cbn [fold_right fst snd]. lra.
Qed.

Lemma sum_style_losses_run (style_imgs : list ndarray) (wd : W) :
  style_imgs <> [] ->
  style_layers args <> [] ->
  Forall (fun iw : ndarray * R =>
            ashape (fst iw) = [1; h; w; 3]%nat /\
            Forall (defined_for style_layer_loss (fst iw))
              (Py.zip (style_layers args) (style_layer_weights args)))
    (Py.zip style_imgs (style_imgs_weights args)) ->
  exists L wd',
    sum_style_losses args node_shape node_value OptState net style_imgs wd
    = (Ok L, wd') /\
    log OptState wd' = log OptState wd /\
    forall e, L e = style_aggregate args node_shape node_value net
                      style_imgs e.
Proof.
  intros Himgs Hne Hgood.
  destruct (style_imgs_loop_run _ (fun _ => 0) wd Hne Hgood)
    as (L & wd' & HL & Hlog & Hval).
  unfold sum_style_losses, mbind. rewrite HL. unfold lift.
  rewrite div_len_run by (destruct style_imgs; [contradiction | discriminate]).
  eexists. eexists. split; [reflexivity|]. split; [exact Hlog|].
  intros e. cbv beta. rewrite Hval. unfold style_aggregate. lra.
Qed.

End AggregateFacts.

(** The layer losses are defined on the layers of positive shape. *)
Lemma content_loss_defined (node_shape : node -> list nat)
    (node_value : node -> ndarray -> list R) (net : dict node)
    (input : ndarray) (layer : string) (n : node) (b h w d : nat) :
  dict_get net layer = Ok n ->
  node_shape n = [b; h; w; d] ->
  (0 < h)%nat -> (0 < w)%nat -> (0 < d)%nat ->
  exists l,
    layer_loss node_shape node_value content_layer_loss net input layer = Ok l.
Proof.
  intros Hn Hs Hh Hw Hd. unfold layer_loss. rewrite Hn. cbn [bind].
  destruct (content_layer_loss_eq
              (run_constant node_shape node_value n input)
              (net_tensor node_shape node_value n) b h w d Hs Hs Hh Hw Hd)
    as (l & Hl & _).
  exists l. exact Hl.
Qed.

Lemma style_loss_defined (node_shape : node -> list nat)
    (node_value : node -> ndarray -> list R) (net : dict node)
    (input : ndarray) (layer : string) (n : node) (h w d : nat) :
  dict_get net layer = Ok n ->
  node_shape n = [1; h; w; d]%nat ->
  (0 < h)%nat -> (0 < w)%nat -> (0 < d)%nat ->
  exists l,
    layer_loss node_shape node_value style_layer_loss net input layer = Ok l.
Proof.
  intros Hn Hs Hh Hw Hd. unfold layer_loss. rewrite Hn. cbn [bind].
  destruct (gram_matrix_ok (run_constant node_shape node_value n input) h w d Hs)
    as (Ga & HGa & Hsa & _).
  destruct (gram_matrix_ok (net_tensor node_shape node_value n) h w d Hs)
    as (Gx & HGx & Hsx & _).
  destruct (style_layer_loss_eq
              (run_constant node_shape node_value n input)
              (net_tensor node_shape node_value n) Ga Gx h w d
              Hs Hh Hw Hd HGa HGx Hsa Hsx) as (l & Hl & _).
  exists l. exact Hl.
Qed.

Lemma build_model_input (b h w d : nat) :
  exists net,
    build_model [b; h; w; d] = Ok net /\
    dict_get net "input" = Ok (Variable_zeros [1%nat; h; w; d]).
Proof. eexists. split; vm_compute; reflexivity. Qed.

Lemma zip_firstn {A B : Type} (a : list A) (b : list B) :
  Py.zip a b
  = Py.zip (firstn (Nat.min (length a) (length b)) a)
      (firstn (Nat.min (length a) (length b)) b) /\
  length (Py.zip a b) = Nat.min (length a) (length b).
Proof.
  unfold Py.zip. split; [|apply length_combine].
  revert b. induction a as [|x a IH]; intros [|y b]; cbn; try reflexivity.
  f_equal. apply IH.
Qed.

Section StylizeFacts.

Variable args : Namespace.
Variable str_float : R -> string.
Variable node_shape : node -> list nat.
Variable node_value : node -> ndarray -> list R.
Variable total_variation : ndarray -> R.
Variable OptState : Type.
Variable opt_init : OptState.
Variable adam_train_op :
  R -> R -> R -> R -> (ndarray -> R) -> ndarray * OptState -> ndarray * OptState.
Variable scipy_minimize : Z -> Z -> (ndarray -> R) -> ndarray -> ndarray.
Variable net : dict node.
Variables h w : nat.
Hypothesis net_input : dict_get net "input" = Ok (Variable_zeros [1; h; w; 3]%nat).

(** The minimizer of scipy keeps the shape of the variable. *)
Hypothesis minimize_shape :
  forall maxiter disp loss img,
    ashape (scipy_minimize maxiter disp loss img) = ashape img.

Local Abbreviation W := (world OptState).

(** What the quasi-Newton loop does: one minimization and one image per
    block. *)
Local Abbreviation lbfgs_actions :=
  (fun base : string =>
     flat_map
       (fun block =>
          [AMinimize;
           AWrite (os_path_join (os_path_join base "iters")
                     (file_name args block (max_iterations args)))])
       (counter_range (blocks args))).

Lemma minimize_with_lbfgs_run (loss : ndarray -> R) (maxiter disp : Z)
    (init_img : ndarray) (base : string) (wd : W) :
  render_dir args str_float = Ok base ->
  ashape init_img = [1; h; w; 3]%nat ->
  exists wd',
    minimize_with_lbfgs args str_float OptState opt_init scipy_minimize net
      (ScipyOptimizerInterface loss maxiter disp) init_img wd
    = (Ok tt, wd') /\
    ashape (input_var OptState wd') = [1; h; w; 3]%nat /\
    actions (log OptState wd') = actions (log OptState wd) ++ lbfgs_actions base.
Proof.
  intros Hdir Hinit.
  unfold minimize_with_lbfgs.
  unfold mbind at 1. unfold run_init, mbind at 1, lift. rewrite net_input.
  unfold mbind at 1.
  unfold mbind at 1. unfold assign. cbn [input_var slots dirs log].
  destruct (shape_eq_dec [1; h; w; 3]%nat (ashape init_img)) as [_|ne];
    [|exfalso; apply ne; symmetry; exact Hinit].
  match goal with
  | |- context [for_each OptState _ ?body ?w1] =>
      destruct (for_each_run OptState (counter_range (blocks args)) body
                  (fun wd0 : W =>
                     ashape (input_var OptState wd0) = [1; h; w; 3]%nat)
                  (fun block =>
                     [AMinimize;
                      AWrite (os_path_join (os_path_join base "iters")
                                (file_name args block (max_iterations args)))])
                  w1)
        as (wd' & Hrun & Hinv & Hact)
  end.
  - exact Hinit.
  - intros block wd1 Hblock Hinv1. apply in_counter_range in Hblock.
    unfold mbind at 1. cbn [scipy_run].
    unfold mbind at 1. unfold run_input, mbind at 1, lift. rewrite net_input.
    cbn [input_var]. unfold mbind at 1.
    match goal with
    | |- context [get_image_savename _ _ _ _ _ ?w2] =>
        pose proof (get_image_savename_run args str_float OptState block
                      (max_iterations args) w2) as Hsave
    end.
    rewrite (image_paths_checkpoint args str_float base block _ Hdir)
      in Hsave by lia.
    destruct Hsave as (wd2 & -> & Hi2 & Ha2).
    match goal with
    | |- context [write_image OptState ?pth ?img wd2] =>
        destruct (write_image_run OptState h w pth img wd2)
          as (wd3 & Hw3 & Hi3 & Ha3)
    end.
    { rewrite minimize_shape. exact Hinv1. }
    exists wd3. split; [exact Hw3|]. split.
    + rewrite Hi3, Hi2. cbn [input_var]. rewrite minimize_shape. exact Hinv1.
    + rewrite Ha3, Ha2. cbn [log]. rewrite actions_app. cbn.
      rewrite <- app_assoc. reflexivity.
  - exists wd'. split; [exact Hrun | split; [exact Hinv | exact Hact]].
Qed.

Lemma Forall_zip_l {A B : Type} (P : A -> Prop) (a : list A) (b : list B) :
  Forall P a -> Forall (fun ab : A * B => P (fst ab)) (Py.zip a b).
Proof.
  rewrite !Forall_forall. intros H [x y] Hin. apply in_combine_l in Hin.
  apply H. exact Hin.
Qed.

(** A quasi-Newton render runs to its end: the losses are built, the
    optimizer runs block by block, and the final output is written. *)
Lemma stylize_lbfgs_run (content_img : ndarray) (style_imgs : list ndarray)
    (init_img : ndarray) (base : string) (wd : W) :
  build_model (ashape content_img) = Ok net ->
  optimizer args = lbfgs ->
  render_dir args str_float = Ok base ->
  ashape content_img = [1; h; w; 3]%nat ->
  ashape init_img = [1; h; w; 3]%nat ->
  style_imgs <> [] -> style_layers args <> [] -> content_layers args <> [] ->
  Forall (fun lw : string * R =>
            exists l, layer_loss node_shape node_value content_layer_loss net
                        content_img (fst lw) = Ok l)
    (Py.zip (content_layers args) (content_layer_weights args)) ->
  Forall (fun img =>
            ashape img = [1; h; w; 3]%nat /\
            Forall (fun lw : string * R =>
                      exists l, layer_loss node_shape node_value
                                  style_layer_loss net img (fst lw) = Ok l)
              (Py.zip (style_layers args) (style_layer_weights args)))
    style_imgs ->
  exists (wd' : W) (d pth : string),
    image_paths args str_float (blocks args) 0 = Ok (d, pth) /\
    stylize args str_float node_shape node_value total_variation OptState
      opt_init adam_train_op scipy_minimize content_img style_imgs init_img wd
    = (Ok tt, wd') /\
    actions (log OptState wd')
    = actions (log OptState wd) ++ lbfgs_actions base ++
      AWrite pth :: AWrite (os_path_join d "0content.png") ::
      map (fun index =>
             AWrite (os_path_join d (str_int (Z.of_nat index) +++ "_style.png")))
        (seq 0 (length style_imgs)).
Proof.
  intros Hbuild Hopt Hdir Hcontent Hinit Himgs Hsl Hcl Hcdef Hsdef.
  assert (Hpaths : exists d pth,
             image_paths args str_float (blocks args) 0 = Ok (d, pth)).
  { unfold image_paths. rewrite Hdir. cbn [bind]. eauto. }
  destruct Hpaths as (d & pth & Hpaths).
  destruct (sum_style_losses_run args node_shape node_value OptState net h w
              net_input style_imgs wd Himgs Hsl)
    as (Ls & wd1 & HLs & Hlog1 & _).
  { apply (Forall_zip_l _ style_imgs (style_imgs_weights args) Hsdef). }
  destruct (sum_content_losses_run args node_shape node_value OptState net h w
              net_input content_img wd1 Hcontent Hcl Hcdef)
    as (Lc & wd2 & HLc & Hlog2 & _).
  unfold stylize. unfold mbind at 1, lift. rewrite Hbuild.
  unfold mbind at 1. rewrite HLs.
  unfold mbind at 1. rewrite HLc.
  unfold mbind at 1. rewrite net_input.
  unfold mbind at 1. unfold get_optimizer. rewrite Hopt.
  unfold mbind at 1.
  match goal with
  | |- context [minimize_with_lbfgs _ _ _ _ _ _
                  (ScipyOptimizerInterface ?l ?m ?dsp) _ wd2] =>
      destruct (minimize_with_lbfgs_run l m dsp init_img base wd2 Hdir Hinit)
        as (wd3 & Hmin & Hinv3 & Hact3)
  end.
  rewrite Hmin.
  unfold mbind at 1. unfold run_input, mbind at 1, lift. rewrite net_input.
  destruct (write_image_output_run args str_float OptState h w
              (input_var OptState wd3) content_img style_imgs d pth wd3
              Hpaths Hinv3 Hcontent)
    as (wd4 & Hw4 & Ha4).
  { eapply Forall_impl; [|exact Hsdef]. intros img [Hs _]. exact Hs. }
  exists wd4, d, pth. split; [exact Hpaths|]. split; [exact Hw4|].
  rewrite Ha4, Hact3, Hlog2, Hlog1, <- app_assoc. reflexivity.
Qed.

(** The training operation keeps the shape of the variable. *)
Hypothesis train_shape :
  forall lr b1 b2 eps loss img st,
    ashape (fst (adam_train_op lr b1 b2 eps loss (img, st))) = ashape img.


End StylizeFacts.

(** C6, as the code has it.  A difference between the length of a list of
    names and the length of its list of weights is never detected:
    normalizing the weights keeps every list as long as it is, and the
    aggregate losses pair names with weights up to the end of the shorter
    list, whichever layers the pairs name being looked up, and divide the
    weighted sum by the full number of names, or of style images. *)
Theorem aggregate_losses_pair_by_zip
    (args : Namespace) (node_shape : node -> list nat)
    (node_value : node -> ndarray -> list R) (OptState : Type)
    (net : dict node) (h w : nat) :
  dict_get net "input" = Ok (Variable_zeros [1; h; w; 3]%nat) ->
  (content_layers (normalize_weights args) = content_layers args /\
   length (content_layer_weights (normalize_weights args))
   = length (content_layer_weights args) /\
   style_layers (normalize_weights args) = style_layers args /\
   length (style_layer_weights (normalize_weights args))
   = length (style_layer_weights args) /\
   style_imgs (normalize_weights args) = style_imgs args /\
   length (style_imgs_weights (normalize_weights args))
   = length (style_imgs_weights args)) /\
  (length (Py.zip (content_layers args) (content_layer_weights args))
   = Nat.min (length (content_layers args))
       (length (content_layer_weights args)) /\
   length (Py.zip (style_layers args) (style_layer_weights args))
   = Nat.min (length (style_layers args)) (length (style_layer_weights args))) /\
  (forall (content_img : ndarray) (wd : world OptState),
      ashape content_img = [1; h; w; 3]%nat ->
      content_layers args <> [] ->
      Forall (fun lw : string * R =>
                exists l, layer_loss node_shape node_value content_layer_loss
                            net content_img (fst lw) = Ok l)
        (Py.zip (content_layers args) (content_layer_weights args)) ->
      exists L wd',
        sum_content_losses args node_shape node_value OptState net
          content_img wd = (Ok L, wd') /\
        forall e, L e = content_aggregate args node_shape node_value net
                          content_img e) /\
  (forall (style_imgs : list ndarray) (wd : world OptState),
      style_imgs <> [] ->
      style_layers args <> [] ->
      Forall (fun iw : ndarray * R =>
                ashape (fst iw) = [1; h; w; 3]%nat /\
                Forall (fun lw : string * R =>
                          exists l, layer_loss node_shape node_value
                                      style_layer_loss net (fst iw) (fst lw)
                                    = Ok l)
                  (Py.zip (style_layers args) (style_layer_weights args)))
        (Py.zip style_imgs (style_imgs_weights args)) ->
      exists L wd',
        sum_style_losses args node_shape node_value OptState net style_imgs wd
        = (Ok L, wd') /\
        forall e, L e = style_aggregate args node_shape node_value net
                          style_imgs e).
Proof.
  intros Hnet. split; [|split; [|split]].
  - cbn [normalize_weights content_layers content_layer_weights style_layers
           style_layer_weights style_imgs style_imgs_weights].
    rewrite !normalize_length. repeat split.
  - split; apply zip_firstn.
  - intros content_img wd Hs Hne Hdef.
    destruct (sum_content_losses_run args node_shape node_value OptState net
                h w Hnet content_img wd Hs Hne Hdef)
      as (L & wd' & HL & _ & Hval).
    exists L, wd'. split; assumption.
  - intros style_imgs wd Himgs Hne Hdef.
    destruct (sum_style_losses_run args node_shape node_value OptState net
                h w Hnet style_imgs wd Himgs Hne Hdef)
      as (L & wd' & HL & _ & Hval).
    exists L, wd'. split; assumption.
Qed.

(** The example network and runtime. *)
Lemma example_net_input :
  dict_get example_net "input" = Ok (Variable_zeros [1; 1; 1; 3]%nat).
Proof. vm_compute. reflexivity. Qed.

Lemma example_net_built : build_model (ashape example_img) = Ok example_net.
Proof. vm_compute. reflexivity. Qed.

Lemma example_net_layers :
  Forall (fun layer => exists n, dict_get example_net layer = Ok n)
    ["conv4_2"; "relu1_1"; "relu2_1"; "relu3_1"; "relu4_1"; "relu5_1"].
Proof. repeat constructor; eexists; vm_compute; reflexivity. Qed.

Lemma point_content_defined (input : ndarray) (layer : string) :
  (exists n, dict_get example_net layer = Ok n) ->
  exists l, layer_loss point_shape point_value content_layer_loss
              example_net input layer = Ok l.
Proof.
  intros [n Hn].
  apply (content_loss_defined point_shape point_value example_net input
           layer n 1 1 1 1 Hn eq_refl); lia.
Qed.

Lemma point_style_defined (input : ndarray) (layer : string) :
  (exists n, dict_get example_net layer = Ok n) ->
  exists l, layer_loss point_shape point_value style_layer_loss
              example_net input layer = Ok l.
Proof.
  intros [n Hn].
  apply (style_loss_defined point_shape point_value example_net input
           layer n 1 1 1 Hn eq_refl); lia.
Qed.

Lemma aggregate_losses_pair_by_zip_witness :
  exists L wd',
    sum_content_losses mismatched_args point_shape point_value unit
      example_net example_img empty_world = (Ok L, wd') /\
    forall e, L e = content_aggregate mismatched_args point_shape point_value
                      example_net example_img e.
Proof.
  apply (proj1 (proj2 (proj2
           (aggregate_losses_pair_by_zip mismatched_args point_shape
              point_value unit example_net 1%nat 1%nat example_net_input)))
           example_img empty_world).
  - reflexivity.
  - discriminate.
  - unfold Py.zip, mismatched_args.
    cbn [combine content_layers content_layer_weights].
    pose proof example_net_layers as Hl. rewrite Forall_forall in Hl.
    constructor; [|constructor].
    apply point_content_defined; cbn [fst]. apply Hl; cbn; auto.
Defined.

(** C6, as stated, fails: with 2 content layers for 1 weight and 5 style
    layers for 2 weights the render is not rejected; it builds its losses,
    runs the optimizer and writes its output. *)
Lemma mismatched_lengths_not_rejected :
  exists wd' : world unit,
    stylize mismatched_args (fun _ => "f") point_shape point_value
      no_variation unit tt idle_train_op idle_minimize
      example_img [example_img] example_img empty_world
    = (Ok tt, wd') /\
    In AMinimize (actions (log unit wd')).
Proof.
  pose proof example_net_layers as Hl. rewrite Forall_forall in Hl.
  destruct (stylize_lbfgs_run mismatched_args (fun _ => "f") point_shape
              point_value no_variation unit tt idle_train_op idle_minimize
              example_net 1%nat 1%nat example_net_input
              (fun _ _ _ _ => eq_refl)
              example_img [example_img] example_img
              "./image_output/lion.starry-night512LBFGS1000" empty_world)
    as (wd' & d & pth & _ & Hrun & Hact).
  - exact example_net_built.
  - reflexivity.
  - vm_compute; reflexivity.
  - reflexivity.
  - reflexivity.
  - discriminate.
  - discriminate.
  - discriminate.
  - unfold Py.zip, mismatched_args.
    cbn [combine content_layers content_layer_weights].
    constructor; [|constructor].
    apply point_content_defined; cbn [fst]. apply Hl; cbn; auto.
  - constructor; [|constructor]. split; [reflexivity|].
    unfold Py.zip, mismatched_args.
    cbn [combine style_layers style_layer_weights].
    repeat constructor; apply point_style_defined; cbn [fst]; apply Hl;
      cbn; auto.
  - exists wd'. split; [exact Hrun|]. rewrite Hact.
    apply in_or_app. right. apply in_or_app. left. left. reflexivity.
Qed.

(** ** The first-order render *)

Lemma build_model_net_input (net : dict node) (h w : nat) :
  build_model [1; h; w; 3]%nat = Ok net ->
  dict_get net "input" = Ok (Variable_zeros [1; h; w; 3]%nat).
Proof.
  intros H. destruct (build_model_input 1 h w 3) as (net' & Hb & Hi).
  rewrite Hb in H. injection H as <-. exact Hi.
Qed.





(** ** The two models of pre- and postprocessing agree *)

Module MemRefinement.

Lemma orient_false (l : list (list R)) : map (Mem.orient false) l = l.
Proof. unfold Mem.orient. apply map_id. Qed.

Lemma firstn_short {A : Type} (n : nat) (l : list A) :
  (length l <= n)%nat -> firstn n l = l.
Proof. intros H. apply firstn_all2. exact H. Qed.

Lemma skipn_short {A : Type} (n : nat) (l : list A) :
  (length l <= n)%nat -> skipn n l = [].
Proof. intros H. apply skipn_all2. exact H. Qed.

Lemma nth_error_alloc {A : Type} (s : list A) (x : A) :
  nth_error (s ++ [x]) (length s) = Some x.
Proof.
  rewrite nth_error_app2 by lia. rewrite Nat.sub_diag. reflexivity.
Qed.

Lemma list_update_alloc {A : Type} (s : list A) (x y : A) :
  Mem.list_update (s ++ [x]) (length s) y = s ++ [y].
Proof. induction s as [|a s IH]; cbn; [reflexivity | rewrite IH; reflexivity]. Qed.

(** What a Mem.view shows has at most as many pixels as its shape holds. *)
Lemma read_length (v : Mem.view) (s : Mem.heap) (px : list (list R)) :
  Mem.read v s = Ok px -> (length px <= pixel_count (Mem.vshape v))%nat.
Proof.
  unfold Mem.read. destruct (nth_error s (Mem.base v)); [|discriminate].
  intros [= <-]. rewrite length_map. apply firstn_le_length.
Qed.

Lemma pixel_count_cons (k : nat) (shp : list nat) :
  shp <> [] -> pixel_count (k :: shp) = (k * pixel_count shp)%nat.
Proof.
  intros Hne. unfold pixel_count. destruct shp; [contradiction | reflexivity].
Qed.

(** [Mem.preprocess] returns a Mem.view that shows what [preprocess] returns,
    and raises when it raises. *)
Lemma preprocess_refines (img : Mem.view) (s : Mem.heap) (px : list (list R)) :
  Mem.read img s = Ok px ->
  match preprocess (mkArray (Mem.vshape img) px) with
  | Ok a =>
      exists v,
        fst (Mem.preprocess img s) = Ok v /\
        Mem.vshape v = ashape a /\
        Mem.read v (snd (Mem.preprocess img s)) = Ok (pixels a)
  | Raise e => fst (Mem.preprocess img s) = Raise e
  end.
Proof.
  intros Hread. pose proof (read_length img s px Hread) as Hlen.
  unfold preprocess, np.newaxis3, np.rev_last, np.copy.
  cbv beta iota delta [Mem.preprocess Mem.hbind Mem.copy Mem.lift Mem.alloc
                         Mem.ret Mem.newaxis3 Mem.rev_last].
  rewrite Hread. cbv beta iota.
  cbn [ashape pixels Mem.vshape Mem.base Mem.reversed negb].
  destruct (3 <=? length (Mem.vshape img))%nat eqn:Hrank; cbn [bind];
    [|reflexivity].
  unfold np.broadcast3, Mem.broadcast3.
  cbn [ashape pixels Mem.vshape Mem.base Mem.reversed].
  destruct ((4 <=? length (1%nat :: Mem.vshape img))
            && (last (1%nat :: Mem.vshape img) 0 =? 3))%nat; [|reflexivity].
  rewrite nth_error_alloc, list_update_alloc.
  assert (Hne : Mem.vshape img <> []).
  { intros E. rewrite E in Hrank. discriminate. }
  rewrite (pixel_count_cons 1 _ Hne), Nat.mul_1_l.
  rewrite (firstn_short _ _ Hlen), (skipn_short _ _ Hlen), app_nil_r.
  eexists. cbn [fst snd]. split; [reflexivity|]. split; [reflexivity|].
  unfold Mem.read. cbn [Mem.base Mem.vshape Mem.reversed]. rewrite nth_error_alloc.
  rewrite (pixel_count_cons 1 _ Hne), Nat.mul_1_l.
  rewrite firstn_short by (rewrite length_map; exact Hlen).
  f_equal. rewrite !map_map. apply map_ext. intros p.
  unfold Mem.orient. rewrite rev_involutive. reflexivity.
Qed.

Lemma postprocess_refines (img : Mem.view) (s : Mem.heap) (px : list (list R)) :
  Mem.read img s = Ok px ->
  match postprocess (mkArray (Mem.vshape img) px) with
  | Ok a =>
      exists v,
        fst (Mem.postprocess img s) = Ok v /\
        Mem.vshape v = ashape a /\
        Mem.read v (snd (Mem.postprocess img s)) = Ok (pixels a)
  | Raise e => fst (Mem.postprocess img s) = Raise e
  end.
Proof.
  intros Hread. pose proof (read_length img s px Hread) as Hlen.
  unfold postprocess, np.copy.
  cbv beta iota delta [Mem.postprocess Mem.hbind Mem.copy Mem.lift Mem.alloc
                         Mem.ret Mem.index0 Mem.rev_last Mem.clip
                         Mem.astype_uint8].
  rewrite Hread. cbv beta iota.
  unfold np.broadcast3, Mem.broadcast3.
  cbn [ashape pixels Mem.vshape Mem.base Mem.reversed].
  destruct ((4 <=? length (Mem.vshape img)) && (last (Mem.vshape img) 0 =? 3))%nat;
    cbn [bind]; [|reflexivity].
  rewrite nth_error_alloc, list_update_alloc.
  rewrite (firstn_short _ _ Hlen), (skipn_short _ _ Hlen), app_nil_r.
  unfold np.index0. cbn [ashape pixels].
  destruct (Mem.vshape img) as [|[|k] rest]; cbn [bind]; try reflexivity.
  unfold Mem.read. cbn [Mem.base Mem.vshape Mem.reversed].
  rewrite nth_error_alloc. cbv beta iota.
  cbn [Mem.base Mem.vshape Mem.reversed].
  rewrite nth_error_alloc. cbv beta iota.
  cbn [Mem.base Mem.vshape Mem.reversed negb].
  eexists. cbn [fst snd]. split; [reflexivity|].
  unfold np.rev_last, np.astype_uint8, np.clip. cbn [ashape pixels].
  split; [reflexivity|].
  unfold Mem.read. cbn [Mem.base Mem.vshape Mem.reversed].
  rewrite nth_error_alloc. f_equal.
  rewrite !orient_false.
  rewrite !(firstn_short (pixel_count rest)
              (map _ (firstn (pixel_count rest) _)))
    by (rewrite length_map; apply firstn_le_length).
  reflexivity.
Qed.
End MemRefinement.

(* ================================================================= *)
(** * Part III: further properties of the code *)

(** ** More about [normalize] *)

Lemma sum_map_mul (c : R) (l : list R) :
  Py.sum (map (fun i => c * i) l) = c * Py.sum l.
Proof.
  induction l as [|x l IH]; simpl.
  - rewrite sum_nil. ring.
  - rewrite !sum_cons, IH. ring.
Qed.

Lemma map_div_1 (l : list R) : map (fun i => i / 1) l = l.
Proof.
  rewrite <- (map_id l) at 2. apply map_ext. intros i. field.
Qed.

(** X1. Only the proportions of the weights matter: multiplying every
    weight by one positive factor does not change the result of
    [normalize]. *)
Theorem normalize_scale_invariant (c : R) (weights : list R) :
  0 < c ->
  normalize (map (fun i => c * i) weights) = normalize weights.
Proof.
  intros Hc. unfold normalize. rewrite sum_map_mul, length_map.
  destruct (Rlt_dec 0 (Py.sum weights)) as [Hpos|Hneg];
    destruct (Rlt_dec 0 (c * Py.sum weights)) as [Hpos'|Hneg'];
    try reflexivity.
  - rewrite map_map. apply map_ext. intros i. field. lra.
  - exfalso. apply Hneg'. apply Rmult_lt_0_compat; assumption.
  - exfalso. apply Hneg. nra.
Qed.

Lemma normalize_scale_invariant_witness :
  normalize (map (fun i => 10 * i) [0.3; 0.7]) = normalize [0.3; 0.7].
Proof. apply (normalize_scale_invariant 10 [0.3; 0.7]). lra. Defined.

(** X2. [normalize] is idempotent: normalizing weights that [parse_args]
    has normalized changes nothing. *)
Theorem normalize_idempotent (weights : list R) :
  normalize (normalize weights) = normalize weights.
Proof.
  destruct (Rlt_dec 0 (Py.sum weights)) as [Hpos|Hneg].
  - assert (Hone : Py.sum (normalize weights) = 1)
      by (rewrite (normalize_pos _ Hpos), sum_map_div; field; lra).
    unfold normalize at 1. rewrite Hone.
    destruct (Rlt_dec 0 1) as [_|H]; [|exfalso; apply H; lra].
    apply map_div_1.
  - rewrite (normalize_nonpos weights) by lra.
    rewrite normalize_nonpos by (rewrite sum_repeat_0; lra).
    rewrite repeat_length. reflexivity.
Qed.

Lemma le_sum_of_nonneg (l : list R) (x : R) :
  Forall (fun v => 0 <= v) l -> In x l -> x <= Py.sum l.
Proof.
  intros Hnn. induction Hnn as [|v l Hv Hl IH]; intros Hin; [contradiction|].
  assert (Hs : 0 <= Py.sum l).
  { clear -Hl. induction Hl as [|u l Hu _ IH].
    - rewrite sum_nil. lra.
    - rewrite sum_cons. lra. }
  rewrite sum_cons. destruct Hin as [->|Hin]; [lra|].
  specialize (IH Hin). lra.
Qed.

(** X3. Weights that are not negative are normalized to numbers between 0
    and 1. *)
Theorem normalize_unit_interval (weights : list R) :
  Forall (fun v => 0 <= v) weights ->
  Forall (fun v => 0 <= v <= 1) (normalize weights).
Proof.
  intros Hnn. unfold normalize.
  destruct (Rlt_dec 0 (Py.sum weights)) as [Hpos|Hneg].
  - rewrite Forall_forall. intros v Hv. apply in_map_iff in Hv.
    destruct Hv as (i & <- & Hi).
    pose proof (le_sum_of_nonneg weights i Hnn Hi) as Hle.
    rewrite Forall_forall in Hnn. specialize (Hnn i Hi).
    split.
    + unfold Rdiv. apply Rmult_le_pos; [exact Hnn|].
      left. apply Rinv_0_lt_compat. exact Hpos.
    + apply Rmult_le_reg_r with (r := Py.sum weights); [exact Hpos|].
      unfold Rdiv. rewrite Rmult_assoc, Rinv_l by lra. lra.
  - rewrite Forall_forall. intros v Hv. apply repeat_spec in Hv. subst v. lra.
Qed.

Lemma normalize_unit_interval_witness :
  Forall (fun v => 0 <= v <= 1) (normalize [3; 0; 7]).
Proof.
  apply (normalize_unit_interval [3; 0; 7]).
  repeat constructor; lra.
Defined.

(** ** More about the loss functions *)

(** A row-major grid of [m] rows and [n] columns holds [f i j] at [(i, j)]. *)
Lemma nth_grid_from (f : nat -> nat -> R) (n m s i j : nat) :
  (i < m)%nat -> (j < n)%nat ->
  nth (i * n + j)
    (flat_map (fun a => map (f a) (seq 0 n)) (seq s m)) 0
  = f (s + i)%nat j.
Proof.
  revert s i. induction m as [|m IH]; intros s i Hi Hj; [lia|].
  cbn [seq flat_map]. destruct i as [|i].
  - rewrite app_nth1 by (rewrite length_map, length_seq; exact Hj).
    rewrite (nth_indep _ 0 (f s 0%nat))
      by (rewrite length_map, length_seq; exact Hj).
    rewrite map_nth, seq_nth by exact Hj. rewrite Nat.add_0_r. reflexivity.
  - rewrite app_nth2 by (rewrite length_map, length_seq; simpl; lia).
    rewrite length_map, length_seq.
    replace (S i * n + j - n)%nat with (i * n + j)%nat by (simpl; lia).
    rewrite IH by lia. f_equal. lia.
Qed.

Lemma nth_grid (f : nat -> nat -> R) (n m i j : nat) :
  (i < m)%nat -> (j < n)%nat ->
  entry n (flat_map (fun a => map (f a) (seq 0 n)) (seq 0 m)) i j = f i j.
Proof. intros Hi Hj. unfold entry. apply nth_grid_from; assumption. Qed.

Lemma flat_map_ext_seq {B : Type} (f g : nat -> list B) (s m : nat) :
  (forall a, (s <= a < s + m)%nat -> f a = g a) ->
  flat_map f (seq s m) = flat_map g (seq s m).
Proof.
  revert s. induction m as [|m IH]; intros s H; [reflexivity|].
  cbn [seq flat_map]. rewrite (H s) by lia. f_equal. apply IH.
  intros a Ha. apply H. lia.
Qed.

Lemma map_ext_seq {B : Type} (f g : nat -> B) (m : nat) :
  (forall a, (a < m)%nat -> f a = g a) ->
  map f (seq 0 m) = map g (seq 0 m).
Proof.
  intros H. apply map_ext_in. intros a Ha. apply in_seq in Ha. apply H. lia.
Qed.

(** The entries of the Gram matrix, written with the entries of the
    activation. *)
Lemma gram_matrix_value {E : Type} (x : tensor E) (h w d : nat) :
  shape x = [1; h; w; d]%nat ->
  exists G,
    gram_matrix x (h * w) d = Ok G /\
    shape G = [d; d] /\
    forall e,
      value G e
      = flat_map
          (fun j =>
             map (fun k =>
                    Py.sum
                      (map (fun l => entry d (value x e) l j
                                     * entry d (value x e) l k)
                         (seq 0 (h * w))))
               (seq 0 d))
          (seq 0 d).
Proof.
  intros Hx. unfold gram_matrix, tf.reshape. rewrite Hx.
  destruct (Nat.eq_dec (numel [1; h; w; d]%nat) (numel [(h * w)%nat; d]))
    as [_|ne]; [|exfalso; apply ne; simpl; lia].
  cbn [bind]. unfold tf.transpose; cbn [shape value bind].
  unfold tf.matmul; cbn [shape value].
  destruct (Nat.eq_dec (h * w) (h * w)) as [_|ne]; [|contradiction].
  eexists. split; [reflexivity|]. cbn [shape value]. split; [reflexivity|].
  intros e. apply flat_map_ext_seq. intros j Hj.
  apply map_ext_seq. intros k Hk. unfold Py.sum. f_equal.
  apply map_ext_seq. intros l Hl. f_equal.
  apply (nth_grid (fun a b => entry d (value x e) b a)); lia.
Qed.

(** X4. Entry (j, k) of the Gram matrix of an activation of shape (1,h,w,d)
    is the sum over the h*w positions of the product of channels j and k:
    it does not depend on where in the image a feature occurs together
    with another. *)
Theorem gram_matrix_entry {E : Type} (x : tensor E) (h w d j k : nat) :
  shape x = [1; h; w; d]%nat -> (j < d)%nat -> (k < d)%nat ->
  exists G,
    gram_matrix x (h * w) d = Ok G /\
    forall e,
      entry d (value G e) j k
      = Py.sum (map (fun l => entry d (value x e) l j * entry d (value x e) l k)
                  (seq 0 (h * w))).
Proof.
  intros Hx Hj Hk.
  destruct (gram_matrix_value x h w d Hx) as (G & HG & _ & Hval).
  exists G. split; [exact HG|]. intros e. rewrite Hval.
  apply (nth_grid
           (fun a b =>
              Py.sum (map (fun l => entry d (value x e) l a
                                    * entry d (value x e) l b)
                        (seq 0 (h * w))))); assumption.
Qed.

Lemma gram_matrix_entry_witness :
  exists G : tensor unit,
    gram_matrix (tf.constant [1; 1; 2; 2]%nat [1; 2; 3; 4]) (1 * 2) 2 = Ok G /\
    forall e,
      entry 2 (value G e) 0 1
      = Py.sum
          (map (fun l =>
                  entry 2 (value (tf.constant [1; 1; 2; 2]%nat [1; 2; 3; 4]) e)
                    l 0
                  * entry 2
                      (value (tf.constant [1; 1; 2; 2]%nat [1; 2; 3; 4]) e)
                      l 1)
             (seq 0 (1 * 2))).
Proof.
  apply (gram_matrix_entry
           (tf.constant [1; 1; 2; 2]%nat [1; 2; 3; 4] : tensor unit)
           1 2 2 0 1); (reflexivity || lia).
Defined.

(** X5. The Gram matrix is symmetric: its transpose has the same shape and
    the same entries. *)
Theorem gram_matrix_symmetric {E : Type} (x : tensor E) (h w d : nat) :
  shape x = [1; h; w; d]%nat ->
  exists G Gt,
    gram_matrix x (h * w) d = Ok G /\
    tf.transpose G = Ok Gt /\
    shape Gt = shape G /\
    forall e, value Gt e = value G e.
Proof.
  intros Hx.
  destruct (gram_matrix_value x h w d Hx) as (G & HG & Hs & Hval).
  exists G. unfold tf.transpose. rewrite Hs.
  eexists. split; [exact HG|]. split; [reflexivity|].
  cbn [shape value]. split; [reflexivity|].
  intros e. rewrite (Hval e).
  apply flat_map_ext_seq. intros j Hj.
  apply map_ext_seq. intros k Hk.
  rewrite (nth_grid
             (fun a b =>
                Py.sum (map (fun l => entry d (value x e) l a
                                      * entry d (value x e) l b)
                          (seq 0 (h * w))))) by lia.
  f_equal. apply map_ext. intros l. ring.
Qed.

Lemma gram_matrix_symmetric_witness :
  exists G Gt : tensor unit,
    gram_matrix (tf.constant [1; 1; 2; 2]%nat [1; 2; 3; 4]) (1 * 2) 2 = Ok G /\
    tf.transpose G = Ok Gt /\
    shape Gt = shape G /\
    forall e, value Gt e = value G e.
Proof.
  apply (gram_matrix_symmetric
           (tf.constant [1; 1; 2; 2]%nat [1; 2; 3; 4] : tensor unit) 1 2 2).
  reflexivity.
Defined.

Lemma entry_concat (d : nat) (rows : list (list R)) (l j : nat) :
  Forall (fun r => length r = d) rows ->
  (l < length rows)%nat -> (j < d)%nat ->
  entry d (concat rows) l j = nth j (nth l rows []) 0.
Proof.
  unfold entry. intros Hrows. revert l.
  induction Hrows as [|r rows Hr _ IH]; intros l Hl Hj; [simpl in Hl; lia|].
  cbn [concat]. destruct l as [|l].
  - rewrite app_nth1 by lia. reflexivity.
  - rewrite app_nth2 by (simpl; lia).
    replace (S l * d + j - length r)%nat with (l * d + j)%nat by (simpl; lia).
    cbn [nth]. apply IH; [simpl in Hl; lia | exact Hj].
Qed.

Lemma map_seq_nth {B : Type} (g : list R -> B) (rows : list (list R)) :
  map (fun l => g (nth l rows [])) (seq 0 (length rows)) = map g rows.
Proof.
  induction rows as [|r rows IH]; [reflexivity|].
  cbn [length seq map nth]. f_equal.
  rewrite <- seq_shift, map_map. exact IH.
Qed.

Lemma sum_permutation (l l' : list R) :
  Permutation l l' -> Py.sum l = Py.sum l'.
Proof.
  intros H. induction H as [|x l l' _ IH|x y l|l1 l2 l3 _ IH1 _ IH2].
  - reflexivity.
  - rewrite !sum_cons, IH. reflexivity.
  - rewrite !sum_cons. lra.
  - congruence.
Qed.

(** The Gram entries of an activation given by its rows, one row of [d]
    channels for each position. *)
Lemma gram_sum_rows (d j k : nat) (rows : list (list R)) :
  Forall (fun r => length r = d) rows -> (j < d)%nat -> (k < d)%nat ->
  Py.sum (map (fun l => entry d (concat rows) l j * entry d (concat rows) l k)
            (seq 0 (length rows)))
  = Py.sum (map (fun r => nth j r 0 * nth k r 0) rows).
Proof.
  intros Hrows Hj Hk.
  rewrite <- (map_seq_nth (fun r => nth j r 0 * nth k r 0) rows).
  f_equal. apply map_ext_seq. intros l Hl.
  rewrite !entry_concat by assumption. reflexivity.
Qed.

(** X6. The style of an activation does not depend on the order of its
    positions: when the rows of one activation are a permutation of the rows
    of another, both have the same Gram matrix and so the same style loss
    against every reference. *)
Theorem style_layer_loss_permutation_invariant {E : Type}
    (a x x' : tensor E) (h w d : nat) :
  shape a = [1; h; w; d]%nat ->
  shape x = [1; h; w; d]%nat -> shape x' = [1; h; w; d]%nat ->
  (0 < h)%nat -> (0 < w)%nat -> (0 < d)%nat ->
  (forall e, exists rows rows',
      value x e = concat rows /\ value x' e = concat rows' /\
      Permutation rows rows' /\
      Forall (fun r => length r = d) rows /\ length rows = (h * w)%nat) ->
  exists G G' ls ls',
    gram_matrix x (h * w) d = Ok G /\ gram_matrix x' (h * w) d = Ok G' /\
    style_layer_loss a x = Ok ls /\ style_layer_loss a x' = Ok ls' /\
    forall e, value G' e = value G e /\ ls' e = ls e.
Proof.
  intros Ha Hx Hx' Hh Hw Hd Hperm.
  destruct (gram_matrix_value a h w d Ha) as (Ga & HGa & Hsa & _).
  destruct (gram_matrix_value x h w d Hx) as (G & HG & Hs & Hval).
  destruct (gram_matrix_value x' h w d Hx') as (G' & HG' & Hs' & Hval').
  destruct (style_layer_loss_eq a x Ga G h w d Ha Hh Hw Hd HGa HG Hsa Hs)
    as (ls & Hls & Hlsv).
  destruct (style_layer_loss_eq a x' Ga G' h w d Ha Hh Hw Hd HGa HG' Hsa Hs')
    as (ls' & Hls' & Hlsv').
  exists G, G', ls, ls'. repeat (split; [assumption|]).
  intros e.
  assert (HGG : value G' e = value G e).
  { destruct (Hperm e) as (rows & rows' & Hr & Hr' & Hp & Hlen & Hn).
    assert (Hlen' : Forall (fun r => length r = d) rows')
      by (eapply Permutation_Forall; eassumption).
    assert (Hn' : length rows' = (h * w)%nat)
      by (rewrite <- Hn; symmetry; apply Permutation_length; exact Hp).
    rewrite Hval, Hval', Hr, Hr'.
    apply flat_map_ext_seq. intros j Hj.
    apply map_ext_seq. intros k Hk.
    rewrite <- Hn' at 1. rewrite <- Hn.
    rewrite !gram_sum_rows by (assumption || lia).
    apply sum_permutation. apply Permutation_map. apply Permutation_sym.
    exact Hp. }
  split; [exact HGG|]. rewrite Hlsv, Hlsv', HGG. reflexivity.
Qed.

Lemma style_layer_loss_permutation_invariant_witness :
  exists G G' ls ls',
    gram_matrix (tf.constant [1; 1; 2; 2]%nat [1; 2; 3; 4] : tensor unit)
      (1 * 2) 2 = Ok G /\
    gram_matrix (tf.constant [1; 1; 2; 2]%nat [3; 4; 1; 2] : tensor unit)
      (1 * 2) 2 = Ok G' /\
    style_layer_loss (tf.constant [1; 1; 2; 2]%nat [5; 6; 7; 8])
      (tf.constant [1; 1; 2; 2]%nat [1; 2; 3; 4]) = Ok ls /\
    style_layer_loss (tf.constant [1; 1; 2; 2]%nat [5; 6; 7; 8])
      (tf.constant [1; 1; 2; 2]%nat [3; 4; 1; 2]) = Ok ls' /\
    forall e, value G' e = value G e /\ ls' e = ls e.
Proof.
  apply (style_layer_loss_permutation_invariant
           (tf.constant [1; 1; 2; 2]%nat [5; 6; 7; 8] : tensor unit)
           (tf.constant [1; 1; 2; 2]%nat [1; 2; 3; 4])
           (tf.constant [1; 1; 2; 2]%nat [3; 4; 1; 2]) 1 2 2);
    try reflexivity; try lia.
  intros e. exists [[1; 2]; [3; 4]], [[3; 4]; [1; 2]].
  split; [reflexivity|]. split; [reflexivity|].
  split; [apply perm_swap|]. split; [repeat constructor | reflexivity].
Defined.

(** X7. An activation with an empty axis has no loss: building the content
    loss or the style loss against it raises [ZeroDivisionError], for the
    scale factor divides by the size of the activation. *)
Theorem layer_losses_raise_on_empty_axis {E : Type}
    (p x : tensor E) (h w d : nat) :
  shape p = [1; h; w; d]%nat -> shape x = [1; h; w; d]%nat ->
  (h * w * d = 0)%nat ->
  content_layer_loss p x = Raise ZeroDivisionError /\
  style_layer_loss p x = Raise ZeroDivisionError.
Proof.
  intros Hp Hx Hzero. split.
  - unfold content_layer_loss, unpack4. rewrite Hp. cbn [bind].
    rewrite !pow_half_sqrt. unfold Py.div.
    destruct (Req_dec_T (2 * sqrt (INR d) * sqrt (INR (h * w))) 0)
      as [_|ne]; [reflexivity|].
    exfalso. apply ne.
    assert (Hcases : d = 0%nat \/ (h * w = 0)%nat) by nia.
    destruct Hcases as [-> | ->]; simpl INR; rewrite sqrt_0; ring.
  - destruct (gram_matrix_value p h w d Hp) as (Gp & HGp & _).
    destruct (gram_matrix_value x h w d Hx) as (Gx & HGx & _).
    unfold style_layer_loss, unpack4. rewrite Hp. cbn [bind].
    rewrite HGp, HGx. cbn [bind].
    replace (4 * d ^ 2 * (h * w) ^ 2)%nat with 0%nat by (simpl; nia).
    unfold Py.div. simpl INR.
    destruct (Req_dec_T 0 0) as [_|ne]; [reflexivity | contradiction].
Qed.

Lemma layer_losses_raise_on_empty_axis_witness :
  content_layer_loss (tf.constant [1; 0; 2; 3]%nat [] : tensor unit)
    (tf.constant [1; 0; 2; 3]%nat []) = Raise ZeroDivisionError /\
  style_layer_loss (tf.constant [1; 0; 2; 3]%nat [] : tensor unit)
    (tf.constant [1; 0; 2; 3]%nat []) = Raise ZeroDivisionError.
Proof.
  apply (layer_losses_raise_on_empty_axis
           (tf.constant [1; 0; 2; 3]%nat [] : tensor unit)
           (tf.constant [1; 0; 2; 3]%nat []) 0 2 3); reflexivity.
Defined.

(** X8. The two losses treat a batch differently.  The content loss is
    built for any number [b] of activations and its scale factor ignores
    [b]; the style loss is built for one activation only: with [b] other
    than 1 the reshaping to (h*w, d) fails. *)
Theorem layer_losses_and_batch_size {E : Type}
    (p x : tensor E) (b h w d : nat) :
  shape p = [b; h; w; d] -> shape x = [b; h; w; d] ->
  (0 < h)%nat -> (0 < w)%nat -> (0 < d)%nat ->
  (exists loss : E -> R,
      content_layer_loss p x = Ok loss /\
      forall e, loss e = 1 / (2 * sqrt (INR d) * sqrt (INR (h * w)))
                         * sum_sq_diff (value x e) (value p e)) /\
  (b <> 1%nat -> exists err, style_layer_loss p x = Raise err).
Proof.
  intros Hp Hx Hh Hw Hd. split.
  - apply (content_layer_loss_eq p x b h w d); assumption.
  - intros Hb. exists InvalidArgumentError.
    unfold style_layer_loss, unpack4. rewrite Hp. cbn [bind].
    unfold gram_matrix, tf.reshape. rewrite Hp.
    destruct (Nat.eq_dec (numel [b; h; w; d]) (numel [(h * w)%nat; d]))
      as [e|_]; [|reflexivity].
    exfalso. simpl in e. nia.
Qed.

Lemma layer_losses_and_batch_size_witness :
  exists err,
    style_layer_loss (tf.constant [2; 1; 1; 1]%nat [1; 2] : tensor unit)
      (tf.constant [2; 1; 1; 1]%nat [3; 4]) = Raise err.
Proof.
  apply (proj2 (layer_losses_and_batch_size
                  (tf.constant [2; 1; 1; 1]%nat [1; 2] : tensor unit)
                  (tf.constant [2; 1; 1; 1]%nat [3; 4]) 2 1 1 1
                  eq_refl eq_refl ltac:(lia) ltac:(lia) ltac:(lia))).
  discriminate.
Defined.

(** ** Images outside the range, batches and arrays of other shapes *)

Lemma clip_bounds (v : R) : 0 <= Rmin (Rmax v 0) 255 <= 255.
Proof.
  split.
  - apply Rmin_glb; [apply Rmax_r | lra].
  - apply Rmin_r.
Qed.

Lemma trunc_clip_range (v : R) :
  (0 <= trunc (Rmin (Rmax v 0) 255) <= 255)%Z.
Proof.
  destruct (clip_bounds v) as [H0 H255].
  rewrite trunc_nonneg by exact H0.
  destruct (Int_part_close (Rmin (Rmax v 0) 255)) as [Hlo Hhi].
  split.
  - assert (H : (-1 < Int_part (Rmin (Rmax v 0) 255))%Z).
    { apply lt_IZR. simpl IZR. lra. }
    lia.
  - apply le_IZR. lra.
Qed.


Lemma broadcast3_pixel_length (op : R -> R -> R) (pxs : list (list R)) :
  Forall (fun px => length px = 3%nat) pxs ->
  Forall (fun px => length px = 3%nat)
    (map (fun px => map (fun vc => op (fst vc) (snd vc)) (combine px vgg_mean))
       pxs).
Proof.
  intros H. apply Forall_map. eapply Forall_impl; [|exact H].
  intros px Hl. cbn beta. rewrite length_map, length_combine, Hl. reflexivity.
Qed.

(** What [postprocess] returns on a batch of images of three channels. *)
Lemma postprocess_eq (img : ndarray) (b h w : nat) :
  ashape img = [S b; h; w; 3%nat] ->
  postprocess img
  = Ok (mkArray [h; w; 3%nat]
          (map (@rev R)
             (map (map (fun v => IZR (trunc (Rmin (Rmax v 0) 255))))
                (firstn (h * (w * 1))
                   (map (fun px => map (fun vc => fst vc + snd vc)
                                     (combine px vgg_mean))
                      (pixels img)))))).
Proof.
  intros Hs. unfold postprocess, np.copy, np.broadcast3. cbn [ashape pixels].
  rewrite Hs. cbn [length Nat.leb last Nat.eqb andb bind].
  unfold np.index0. cbn [ashape pixels bind].
  unfold np.rev_last, np.astype_uint8, np.clip. cbn [ashape pixels].
  do 3 f_equal. rewrite map_map.
  change (pixel_count [h; w; 3%nat]) with (h * (w * 1))%nat.
  apply map_ext. intros px. apply map_map.
Qed.

(** X9. [preprocess] accepts exactly the arrays of at least three axes
    whose last axis has size 3: with fewer axes the indexing raises
    [IndexError], with another last axis the subtraction of the three
    channel means raises [ValueError]; an accepted array gains a leading
    axis of size 1 and keeps its number of pixels. *)
Theorem preprocess_domain (img : ndarray) :
  ((length (ashape img) < 3)%nat -> preprocess img = Raise IndexError) /\
  ((3 <= length (ashape img))%nat -> last (ashape img) 0%nat <> 3%nat ->
   preprocess img = Raise ValueError) /\
  ((3 <= length (ashape img))%nat -> last (ashape img) 0%nat = 3%nat ->
   exists pre, preprocess img = Ok pre /\
               ashape pre = 1%nat :: ashape img /\
               length (pixels pre) = length (pixels img)).
Proof.
  unfold preprocess, np.newaxis3, np.rev_last, np.copy. cbn [ashape pixels].
  split; [|split].
  - intros Hlt. apply Nat.leb_gt in Hlt. rewrite Hlt. reflexivity.
  - intros Hle Hlast. apply Nat.leb_le in Hle. rewrite Hle. cbn [bind].
    unfold np.broadcast3. cbn [ashape pixels].
    replace (last (1%nat :: ashape img) 0%nat) with (last (ashape img) 0%nat)
      by (destruct (ashape img); [discriminate | reflexivity]).
    apply Nat.eqb_neq in Hlast. rewrite Hlast, andb_false_r. reflexivity.
  - intros Hle Hlast. pose proof Hle as Hle'.
    apply Nat.leb_le in Hle. rewrite Hle. cbn [bind].
    unfold np.broadcast3. cbn [ashape pixels].
    replace (last (1%nat :: ashape img) 0%nat) with (last (ashape img) 0%nat)
      by (destruct (ashape img); [discriminate | reflexivity]).
    rewrite Hlast.
    replace (4 <=? length (1%nat :: ashape img))%nat with true
      by (symmetry; apply Nat.leb_le; simpl; lia).
    cbn [Nat.eqb andb]. eexists. split; [reflexivity|].
    cbn [ashape pixels]. split; [reflexivity|].
    rewrite !length_map. reflexivity.
Qed.

Lemma preprocess_domain_witness :
  preprocess (mkArray [2; 3]%nat [[1; 2; 3]; [4; 5; 6]]) = Raise IndexError /\
  preprocess (mkArray [1; 1; 4]%nat [[1; 2; 3; 4]]) = Raise ValueError /\
  exists pre, preprocess (mkArray [1; 1; 3]%nat [[1; 2; 3]]) = Ok pre /\
              ashape pre = [1; 1; 1; 3]%nat /\
              length (pixels pre) = 1%nat.
Proof.
  split; [|split].
  - apply (proj1 (preprocess_domain (mkArray [2; 3]%nat [[1; 2; 3]; [4; 5; 6]]))).
    simpl. lia.
  - apply (proj1 (proj2 (preprocess_domain (mkArray [1; 1; 4]%nat [[1; 2; 3; 4]])))).
    + simpl. lia.
    + simpl. lia.
  - apply (proj2 (proj2 (preprocess_domain (mkArray [1; 1; 3]%nat [[1; 2; 3]])))).
    + simpl. lia.
    + reflexivity.
Defined.

(** X10. [postprocess] accepts exactly the arrays of at least four axes
    whose last axis has size 3 and whose first axis is not empty: the
    addition of the channel means raises [ValueError] on the others, and
    taking the first image of an empty batch raises [IndexError]. *)
Theorem postprocess_domain (img : ndarray) :
  ((length (ashape img) < 4)%nat \/ last (ashape img) 0%nat <> 3%nat ->
   postprocess img = Raise ValueError) /\
  ((4 <= length (ashape img))%nat -> last (ashape img) 0%nat = 3%nat ->
   hd 0%nat (ashape img) = 0%nat -> postprocess img = Raise IndexError) /\
  ((4 <= length (ashape img))%nat -> last (ashape img) 0%nat = 3%nat ->
   hd 0%nat (ashape img) <> 0%nat ->
   exists post, postprocess img = Ok post /\
                ashape post = tl (ashape img)).
Proof.
  unfold postprocess, np.copy, np.broadcast3. cbn [ashape pixels].
  split; [|split].
  - intros [Hlt | Hlast].
    + apply Nat.leb_gt in Hlt. rewrite Hlt. reflexivity.
    + apply Nat.eqb_neq in Hlast. rewrite Hlast, andb_false_r. reflexivity.
  - intros Hle Hlast Hhd. apply Nat.leb_le in Hle. rewrite Hle, Hlast.
    cbn [Nat.eqb andb bind]. unfold np.index0. cbn [ashape pixels].
    destruct (ashape img) as [|n rest]; [reflexivity|].
    cbn [hd] in Hhd. subst n. reflexivity.
  - intros Hle Hlast Hhd. apply Nat.leb_le in Hle. rewrite Hle, Hlast.
    cbn [Nat.eqb andb bind]. unfold np.index0. cbn [ashape pixels].
    destruct (ashape img) as [|n rest]; [contradiction Hhd; reflexivity|].
    cbn [hd] in Hhd. destruct n as [|n]; [contradiction Hhd; reflexivity|].
    cbn [bind]. eexists. split; reflexivity.
Qed.

Lemma postprocess_domain_witness :
  postprocess (mkArray [1; 1; 3]%nat [[1; 2; 3]]) = Raise ValueError /\
  postprocess (mkArray [0; 1; 1; 3]%nat []) = Raise IndexError /\
  exists post, postprocess (mkArray [1; 1; 1; 3]%nat [[1; 2; 3]]) = Ok post /\
               ashape post = [1; 1; 3]%nat.
Proof.
  split; [|split].
  - apply (proj1 (postprocess_domain (mkArray [1; 1; 3]%nat [[1; 2; 3]]))).
    left. simpl. lia.
  - apply (proj1 (proj2 (postprocess_domain (mkArray [0; 1; 1; 3]%nat [])))).
    + simpl. lia.
    + reflexivity.
    + reflexivity.
  - apply (proj2 (proj2 (postprocess_domain (mkArray [1; 1; 1; 3]%nat [[1; 2; 3]])))).
    + simpl. lia.
    + reflexivity.
    + simpl. lia.
Defined.

(** X11. Whatever real values the array holds, the image [postprocess]
    returns holds whole numbers between 0 and 255 only, and it fills its
    shape (h, w, 3) when the array fills its own. *)
Theorem postprocess_values_are_bytes (img : ndarray) (b h w : nat) :
  ashape img = [S b; h; w; 3%nat] ->
  exists post,
    postprocess img = Ok post /\
    ashape post = [h; w; 3%nat] /\
    Forall (Forall (fun v => exists z : Z, v = IZR z /\ (0 <= z <= 255)%Z))
      (pixels post) /\
    (wf_array img -> wf_array post).
Proof.
  intros Hs. eexists. split; [apply (postprocess_eq img b h w Hs)|].
  cbn [ashape pixels]. split; [reflexivity|]. split.
  - apply Forall_map, Forall_map, Forall_forall. intros px _. cbn beta.
    apply Forall_rev, Forall_map, Forall_forall. intros v _.
    exists (trunc (Rmin (Rmax v 0) 255)). split; [reflexivity|].
    apply trunc_clip_range.
  - intros [Hcount Hpx]. rewrite Hs in Hcount, Hpx.
    unfold pixel_count in Hcount. cbn in Hcount, Hpx.
    split; cbn [ashape pixels].
    + rewrite !length_map, length_firstn, length_map, Hcount.
      unfold pixel_count. cbn. lia.
    + cbn [last]. apply Forall_map, Forall_map, Forall_forall.
      intros px Hin. cbn beta. rewrite length_rev, length_map.
      assert (Hin' : In px (map (fun px => map (fun vc => fst vc + snd vc)
                                           (combine px vgg_mean))
                              (pixels img))).
      { rewrite <- (firstn_skipn (h * (w * 1)) (map _ (pixels img))).
        apply in_or_app. left. exact Hin. }
      clear Hin. rename Hin' into Hin.
      pose proof (broadcast3_pixel_length Rplus (pixels img) Hpx) as Hall.
      rewrite Forall_forall in Hall. apply Hall. exact Hin.
Qed.

Lemma postprocess_values_are_bytes_witness :
  exists post,
    postprocess (mkArray [1; 1; 1; 3]%nat [[-500; 0.5; 500]]) = Ok post /\
    ashape post = [1; 1; 3]%nat /\
    Forall (Forall (fun v => exists z : Z, v = IZR z /\ (0 <= z <= 255)%Z))
      (pixels post) /\
    (wf_array (mkArray [1; 1; 1; 3]%nat [[-500; 0.5; 500]]) -> wf_array post).
Proof.
  apply (postprocess_values_are_bytes
           (mkArray [1; 1; 1; 3]%nat [[-500; 0.5; 500]]) 0 1 1).
  reflexivity.
Defined.

(** X12. Of a batch of images [postprocess] returns the first one only:
    the images after it do not reach the result. *)
Theorem postprocess_keeps_first_image (b : nat) (s : list nat)
    (first rest : list (list R)) :
  length first = pixel_count s ->
  postprocess (mkArray (S b :: s) (first ++ rest))
  = postprocess (mkArray (1%nat :: s) first).
Proof.
  intros Hlen. unfold postprocess, np.copy, np.broadcast3.
  cbn [ashape pixels].
  destruct s as [|n s]; [reflexivity|].
  change (last (S b :: n :: s) 0%nat) with (last (n :: s) 0%nat).
  change (last (1%nat :: n :: s) 0%nat) with (last (n :: s) 0%nat).
  cbn [length].
  destruct ((4 <=? S (S (length s)))%nat && (last (n :: s) 0%nat =? 3)%nat);
    [|reflexivity].
  cbn [bind]. unfold np.index0. cbn [ashape pixels bind].
  do 4 f_equal.
  rewrite map_app, firstn_app, length_map, Hlen, Nat.sub_diag.
  cbn [firstn]. rewrite app_nil_r.
  rewrite <- Hlen at 1.
  rewrite <- (length_map (fun px => map (fun vc => fst vc + snd vc)
                                      (combine px vgg_mean)) first) at 1.
  rewrite <- Hlen.
  rewrite <- (length_map (fun px => map (fun vc => fst vc + snd vc)
                                      (combine px vgg_mean)) first).
  rewrite !firstn_all. reflexivity.
Qed.

Lemma postprocess_keeps_first_image_witness :
  postprocess (mkArray [2; 1; 1; 3]%nat ([[1; 2; 3]] ++ [[4; 5; 6]]))
  = postprocess (mkArray [1; 1; 1; 3]%nat [[1; 2; 3]]).
Proof.
  apply (postprocess_keeps_first_image 1 [1; 1; 3]%nat [[1; 2; 3]] [[4; 5; 6]]).
  reflexivity.
Defined.




(** ** Directories and paths *)




Section PathFacts.

Variable args : Namespace.
Variable str_float : R -> string.
Variable OptState : Type.


(** X16. With [--img_name] given, the image file is named after it
    whatever the block and the iteration: every checkpoint goes to the
    same path, each replacing the one before, and when [max_iterations] is
    positive the final output goes to that path too. *)
Theorem named_render_writes_one_file (name : string)
    (block iteration block' iteration' : Z) :
  img_name args = Some name ->
  (block < blocks args \/ iteration < max_iterations args)%Z ->
  (block' < blocks args \/ iteration' < max_iterations args)%Z ->
  image_paths args str_float block iteration
  = image_paths args str_float block' iteration' /\
  ((0 < max_iterations args)%Z ->
   image_paths args str_float (blocks args) 0
   = image_paths args str_float block iteration).
Proof.
  intros Hname H1 H2. unfold image_paths, file_name. rewrite Hname.
  assert (Hc : forall b i, (b < blocks args \/ i < max_iterations args)%Z ->
                 ((b <? blocks args) || (i <? max_iterations args))%Z%bool
                 = true).
  { intros b i [H | H]; apply orb_true_iff; [left | right];
      apply Z.ltb_lt; exact H. }
  rewrite (Hc _ _ H1), (Hc _ _ H2). split; [reflexivity|].
  intros Hmax. rewrite (Hc (blocks args) 0%Z (or_intror Hmax)). reflexivity.
Qed.

End PathFacts.


Lemma named_render_writes_one_file_witness :
  image_paths
    (mkNamespace false (Some "out.png") ["starry-night.jpg"] [1.0]
       (Some "lion.jpg") "./styles" "./image_input" 512 5e0 1e4 1e-3
       ["conv4_2"] ["relu1_1"] [1.0] [1.0] 0 "imagenet-vgg-verydeep-19.mat"
       "/gpu:0" "./image_output" lbfgs 1e1 0.9 None 1e-8 2 1000 50)
    (fun _ => "") 0 1000
  = image_paths
      (mkNamespace false (Some "out.png") ["starry-night.jpg"] [1.0]
         (Some "lion.jpg") "./styles" "./image_input" 512 5e0 1e4 1e-3
         ["conv4_2"] ["relu1_1"] [1.0] [1.0] 0 "imagenet-vgg-verydeep-19.mat"
         "/gpu:0" "./image_output" lbfgs 1e1 0.9 None 1e-8 2 1000 50)
      (fun _ => "") 1 1000.
Proof.
  apply (proj1 (named_render_writes_one_file
                  (mkNamespace false (Some "out.png") ["starry-night.jpg"]
                     [1.0] (Some "lion.jpg") "./styles" "./image_input" 512
                     5e0 1e4 1e-3 ["conv4_2"] ["relu1_1"] [1.0] [1.0] 0
                     "imagenet-vgg-verydeep-19.mat" "/gpu:0" "./image_output"
                     lbfgs 1e1 0.9 None 1e-8 2 1000 50)
                  (fun _ => "") "out.png" 0 1000 1 1000 eq_refl
                  ltac:(left; reflexivity) ltac:(left; reflexivity))).
Defined.

(** ** The optimizer loops *)

Lemma keeps_session_bind {OptState A B : Type} (m : M OptState A)
    (k : A -> M OptState B) :
  keeps_session m -> (forall a, keeps_session (k a)) ->
  keeps_session (mbind OptState m k).
Proof.
  intros Hm Hk wd wd' r. unfold mbind.
  destruct (m wd) as [[a|e] w1] eqn:Hrun.
  - intros Hrun'. destruct (Hm _ _ _ Hrun) as [Hi Hs].
    destruct (Hk a _ _ _ Hrun') as [Hi' Hs'].
    split; congruence.
  - intros [= <- <-]. apply (Hm _ _ _ Hrun).
Qed.

Lemma keeps_session_pure {OptState A : Type} (f : world OptState -> result A) :
  keeps_session (fun w => (f w, w)).
Proof. intros wd wd' r [= <- <-]. split; reflexivity. Qed.

Lemma emit_keeps_session {OptState : Type} (ev : event) :
  keeps_session (emit OptState ev).
Proof. intros wd wd' r [= <- <-]. split; reflexivity. Qed.

Lemma maybe_make_directory_keeps_session {OptState : Type} (d : string) :
  keeps_session (maybe_make_directory OptState d).
Proof.
  intros wd wd' r. unfold maybe_make_directory.
  destruct (existsb (String.eqb d) (dirs OptState wd));
    intros [= <- <-]; split; reflexivity.
Qed.

Lemma get_image_savename_keeps_session (args : Namespace)
    (str_float : R -> string) (OptState : Type) (block iteration : Z) :
  keeps_session (get_image_savename args str_float OptState block iteration).
Proof.
  unfold get_image_savename.
  apply keeps_session_bind; [apply (keeps_session_pure (fun _ => _))|].
  intros out_dir.
  apply keeps_session_bind; [apply (keeps_session_pure (fun _ => _))|].
  intros out_dir'.
  apply keeps_session_bind; [apply maybe_make_directory_keeps_session|].
  intros _. apply (keeps_session_pure (fun _ => Ok _)).
Qed.

Lemma write_image_keeps_session (OptState : Type) (path : string)
    (img : ndarray) :
  keeps_session (write_image OptState path img).
Proof.
  unfold write_image.
  apply keeps_session_bind; [apply (keeps_session_pure (fun _ => _))|].
  intros out. apply emit_keeps_session.
Qed.


Lemma length_counter_range (n : Z) : length (counter_range n) = Z.to_nat n.
Proof. unfold counter_range. rewrite length_map, length_seq. reflexivity. Qed.

Section OptimizerFacts.

Variable args : Namespace.
Variable str_float : R -> string.
Variable OptState : Type.
Variable opt_init : OptState.
Variable adam_train_op :
  R -> R -> R -> R -> (ndarray -> R) -> ndarray * OptState -> ndarray * OptState.
Variable scipy_minimize : Z -> Z -> (ndarray -> R) -> ndarray -> ndarray.
Variable net : dict node.
Variables h w : nat.
Hypothesis net_input : dict_get net "input" = Ok (Variable_zeros [1; h; w; 3]%nat).

Local Abbreviation W := (world OptState).

(** The rule of [for] with a counter: the invariant is indexed by the
    number of turns made. *)
Lemma for_each_count {A : Type} (l : list A) (body : A -> M OptState unit)
    (I : nat -> W -> Prop) (k : nat) (wd : W) :
  I k wd ->
  (forall x n wd1, In x l -> I n wd1 ->
     exists wd2, body x wd1 = (Ok tt, wd2) /\ I (S n) wd2) ->
  exists wd', for_each OptState l body wd = (Ok tt, wd') /\
              I (k + length l)%nat wd'.
Proof.
  revert k wd. induction l as [|x l IH]; intros k wd HI Hbody.
  - exists wd. cbn. rewrite Nat.add_0_r. auto.
  - destruct (Hbody x k wd (or_introl eq_refl) HI) as (wd1 & Hx & HI1).
    destruct (IH (S k) wd1 HI1) as (wd2 & Hl & HI2).
    { intros y n wd' Hy. apply Hbody. right. exact Hy. }
    exists wd2. cbn [for_each]. unfold mbind at 1. rewrite Hx.
    split; [exact Hl|].
    cbn [length]. rewrite Nat.add_succ_r. exact HI2.
Qed.

(** X17. With [--print_iterations 0] the first-order loop does not pass
    its first iteration, verbose or not: after one run of the training
    operation the remainder of the iteration number by 0 raises
    [ZeroDivisionError], and no image has been written. *)
Theorem adam_zero_print_interval_raises (lr b1 b2 eps : R)
    (init_img : ndarray) (loss : ndarray -> R) (wd : W) :
  print_iterations args = 0%Z ->
  (0 < blocks args)%Z -> (0 < max_iterations args)%Z ->
  ashape init_img = [1; h; w; 3]%nat ->
  exists wd',
    minimize_with_adam args str_float OptState opt_init adam_train_op net
      (AdamOptimizer lr b1 b2 eps) init_img loss wd
    = (Raise ZeroDivisionError, wd') /\
    log OptState wd' = log OptState wd ++ [RunTrainOp] /\
    dirs OptState wd' = dirs OptState wd /\
    (input_var OptState wd', slots OptState wd')
    = adam_train_op lr b1 b2 eps loss (init_img, opt_init).
Proof.
  intros Hp Hb Hm Hinit.
  assert (Hrange : forall n, (0 < n)%Z ->
             counter_range n
             = 0%Z :: map Z.of_nat (seq 1 (Z.to_nat n - 1))).
  { intros n Hn. unfold counter_range.
    replace (Z.to_nat n) with (S (Z.to_nat n - 1)) at 1 by lia.
    reflexivity. }
  unfold minimize_with_adam.
  unfold mbind at 1. cbn [ret].
  unfold mbind at 1. unfold run_init, mbind at 1, lift. rewrite net_input.
  unfold mbind at 1.
  unfold mbind at 1. unfold assign. cbn [input_var slots dirs log].
  destruct (shape_eq_dec [1; h; w; 3]%nat (ashape init_img)) as [_|ne];
    [|exfalso; apply ne; symmetry; exact Hinit].
  rewrite (Hrange _ Hb). cbn [for_each]. unfold mbind at 1.
  rewrite (Hrange _ Hm). cbn [for_each]. unfold mbind at 1.
  unfold mbind at 1. cbn [run_train_op].
  unfold mbind at 1. rewrite Hp. cbn [Z.eqb lift].
  eexists. split; [reflexivity|]. cbn [log dirs input_var slots].
  split; [reflexivity|]. split; [reflexivity|].
  symmetry. apply surjective_pairing.
Qed.

(** One block of the quasi-Newton loop. *)
Lemma lbfgs_block_run (loss : ndarray -> R) (maxiter disp : Z)
    (base : string) (block : Z) (wd : W) :
  (forall maxiter disp loss img,
      ashape (scipy_minimize maxiter disp loss img) = ashape img) ->
  render_dir args str_float = Ok base ->
  (block < blocks args)%Z ->
  ashape (input_var OptState wd) = [1; h; w; 3]%nat ->
  exists wd',
    mbind OptState
      (scipy_run OptState scipy_minimize
         (ScipyOptimizerInterface loss maxiter disp))
      (fun _ =>
       mbind OptState (run_input OptState net)
         (fun output_img =>
          mbind OptState
            (get_image_savename args str_float OptState block
               (max_iterations args))
            (fun '(_, img_path) =>
               write_image OptState img_path output_img))) wd
    = (Ok tt, wd') /\
    input_var OptState wd'
    = scipy_minimize maxiter disp loss (input_var OptState wd) /\
    slots OptState wd' = slots OptState wd.
Proof.
  intros minimize_shape Hdir Hb Hinv.
  unfold mbind at 1. cbn [scipy_run].
  unfold mbind at 1. unfold run_input, mbind at 1, lift. rewrite net_input.
  cbn [input_var]. unfold mbind at 1.
  match goal with
  | |- context [get_image_savename _ _ _ _ _ ?w2] =>
      pose proof (get_image_savename_run args str_float OptState block
                    (max_iterations args) w2) as Hsave;
      pose proof (get_image_savename_keeps_session args str_float OptState
                    block (max_iterations args) w2) as Hkeep
  end.
  rewrite (image_paths_checkpoint args str_float base block _ Hdir)
    in Hsave by lia.
  destruct Hsave as (wd2 & Heq & _ & _).
  destruct (Hkeep _ _ Heq) as [Hi2 Hs2]. rewrite Heq.
  match goal with
  | |- context [write_image OptState ?pth ?img wd2] =>
      destruct (write_image_run OptState h w pth img wd2)
        as (wd3 & Hw3 & _ & _);
      [rewrite minimize_shape; exact Hinv|];
      destruct (write_image_keeps_session OptState pth img _ _ _ Hw3)
        as [Hi3 Hs3]
  end.
  exists wd3. split; [exact Hw3|].
  rewrite Hi3, Hi2, Hs3, Hs2. split; reflexivity.
Qed.

(** X18. A quasi-Newton render is the minimizer of scipy applied [blocks]
    times in a row, each call with the whole budget of [max_iterations]
    iterations and starting from the image the call before it ended on;
    the first starts from [init_img], whatever the variable held before.
    The images written block by block do not change the variable. *)
Theorem lbfgs_render_iterates_minimizer (loss : ndarray -> R)
    (init_img : ndarray) (base : string) (wd : W) :
  (forall maxiter disp loss img,
      ashape (scipy_minimize maxiter disp loss img) = ashape img) ->
  optimizer args = lbfgs ->
  render_dir args str_float = Ok base ->
  ashape init_img = [1; h; w; 3]%nat ->
  exists opt wd',
    get_optimizer args loss = Ok opt /\
    minimize_with_lbfgs args str_float OptState opt_init scipy_minimize net
      opt init_img wd
    = (Ok tt, wd') /\
    input_var OptState wd'
    = Nat.iter (Z.to_nat (blocks args))
        (scipy_minimize (max_iterations args)
           (if verbose args then print_iterations args else 0%Z) loss)
        init_img /\
    slots OptState wd' = opt_init.
Proof.
  intros minimize_shape Hopt Hdir Hinit.
  exists (ScipyOptimizerInterface loss (max_iterations args)
            (if verbose args then print_iterations args else 0%Z)).
  unfold get_optimizer. rewrite Hopt.
  set (disp := if verbose args then print_iterations args else 0%Z).
  set (f := scipy_minimize (max_iterations args) disp loss).
  assert (Hshape : forall n, ashape (Nat.iter n f init_img) = [1; h; w; 3]%nat).
  { induction n as [|n IH]; [exact Hinit|].
    change (Nat.iter (S n) f init_img) with (f (Nat.iter n f init_img)).
    unfold f at 1. rewrite minimize_shape. exact IH. }
  unfold minimize_with_lbfgs.
  unfold mbind at 1. unfold run_init, mbind at 1, lift. rewrite net_input.
  unfold mbind at 1.
  unfold mbind at 1. unfold assign. cbn [input_var slots dirs log].
  destruct (shape_eq_dec [1; h; w; 3]%nat (ashape init_img)) as [_|ne];
    [|exfalso; apply ne; symmetry; exact Hinit].
  match goal with
  | |- context [for_each OptState _ ?body ?w1] =>
      destruct (for_each_count (counter_range (blocks args)) body
                  (fun n (wd0 : W) =>
                     input_var OptState wd0 = Nat.iter n f init_img /\
                     slots OptState wd0 = opt_init)
                  0%nat w1)
        as (wd' & Hrun & Hvar & Hslots)
  end.
  - split; reflexivity.
  - intros block n wd1 Hblock [Hvar Hslots]. apply in_counter_range in Hblock.
    destruct (lbfgs_block_run loss (max_iterations args) disp base block wd1
                minimize_shape Hdir) as (wd2 & Hrun & Hvar2 & Hslots2).
    + lia.
    + rewrite Hvar. apply Hshape.
    + exists wd2. split; [exact Hrun|]. split.
      * rewrite Hvar2, Hvar. reflexivity.
      * rewrite Hslots2. exact Hslots.
  - exists wd'. split; [reflexivity|]. split; [exact Hrun|].
    rewrite length_counter_range in Hvar. split; [exact Hvar | exact Hslots].
Qed.



End OptimizerFacts.

Lemma adam_zero_print_interval_raises_witness :
  exists wd',
    minimize_with_adam
      (mkNamespace false None ["starry-night.jpg"] [1.0] (Some "lion.jpg")
         "./styles" "./image_input" 512 5e0 1e4 1e-3 ["conv4_2"] ["relu1_1"]
         [1.0] [1.0] 0 "imagenet-vgg-verydeep-19.mat" "/gpu:0"
         "./image_output" adam 1e1 0.9 (Some 0.999) 1e-8 1 1000 0)
      (fun _ => "") unit tt idle_train_op example_net
      (AdamOptimizer 1e1 0.9 0.999 1e-8) example_img (fun _ => 0) empty_world
    = (Raise ZeroDivisionError, wd') /\
    log unit wd' = [RunTrainOp].
Proof.
  destruct (adam_zero_print_interval_raises
              (mkNamespace false None ["starry-night.jpg"] [1.0]
                 (Some "lion.jpg") "./styles" "./image_input" 512 5e0 1e4
                 1e-3 ["conv4_2"] ["relu1_1"] [1.0] [1.0] 0
                 "imagenet-vgg-verydeep-19.mat" "/gpu:0" "./image_output"
                 adam 1e1 0.9 (Some 0.999) 1e-8 1 1000 0)
              (fun _ => "") unit tt idle_train_op example_net 1%nat 1%nat
              example_net_input 1e1 0.9 0.999 1e-8 example_img (fun _ => 0)
              empty_world eq_refl eq_refl eq_refl eq_refl)
    as (wd' & Hrun & Hlog & _).
  exists wd'. split; [exact Hrun | exact Hlog].
Defined.

Lemma lbfgs_render_iterates_minimizer_witness :
  exists opt wd',
    get_optimizer (default_args "lion.jpg" "starry-night.jpg") (fun _ => 0)
    = Ok opt /\
    minimize_with_lbfgs (default_args "lion.jpg" "starry-night.jpg")
      (fun _ => "") unit tt idle_minimize example_net opt example_img
      empty_world
    = (Ok tt, wd') /\
    input_var unit wd'
    = Nat.iter
        (Z.to_nat (blocks (default_args "lion.jpg" "starry-night.jpg")))
        (idle_minimize
           (max_iterations (default_args "lion.jpg" "starry-night.jpg"))
           (if verbose (default_args "lion.jpg" "starry-night.jpg")
            then print_iterations (default_args "lion.jpg" "starry-night.jpg")
            else 0%Z)
           (fun _ => 0))
        example_img /\
    slots unit wd' = tt.
Proof.
  apply (lbfgs_render_iterates_minimizer
           (default_args "lion.jpg" "starry-night.jpg") (fun _ => "") unit tt
           idle_minimize example_net 1%nat 1%nat example_net_input
           (fun _ => 0) example_img
           "./image_output/lion.starry-night512LBFGS1000" empty_world).
  - intros. reflexivity.
  - reflexivity.
  - vm_compute. reflexivity.
  - reflexivity.
Defined.


(** ** What building the losses does to the session *)

Lemma silent_bind {OptState A B : Type} (m : M OptState A)
    (k : A -> M OptState B) :
  silent m -> (forall a, silent (k a)) -> silent (mbind OptState m k).
Proof.
  intros Hm Hk wd wd' r. unfold mbind.
  destruct (m wd) as [[a|e] w1] eqn:Hrun.
  - intros Hrun'. destruct (Hm _ _ _ Hrun) as [Hd Hl].
    destruct (Hk a _ _ _ Hrun') as [Hd' Hl'].
    split; congruence.
  - intros [= <- <-]. apply (Hm _ _ _ Hrun).
Qed.

Lemma silent_pure {OptState A : Type} (f : world OptState -> result A) :
  silent (fun w => (f w, w)).
Proof. intros wd wd' r [= <- <-]. split; reflexivity. Qed.

Lemma assign_silent {OptState : Type} (var : node) (img : ndarray) :
  silent (assign OptState var img).
Proof.
  intros wd wd' r. unfold assign.
  destruct var; try (intros [= <- <-]; split; reflexivity).
  destruct (shape_eq_dec _ _); intros [= <- <-]; split; reflexivity.
Qed.

Lemma last_cons_default {A : Type} (a d : A) (l : list A) :
  last (a :: l) d = last l a.
Proof.
  revert a d. induction l as [|b l IH]; intros a d; [reflexivity|].
  change (last (a :: b :: l) d) with (last (b :: l) d).
  rewrite (IH b d), (IH b a). reflexivity.
Qed.

Section LossEffects.

Variable args : Namespace.
Variable node_shape : node -> list nat.
Variable node_value : node -> ndarray -> list R.
Variable OptState : Type.
Variable net : dict node.

Local Abbreviation W := (world OptState).

Lemma style_imgs_loop_silent (pairs : list (ndarray * R))
    (total : ndarray -> R) :
  silent (style_imgs_loop args node_shape node_value OptState net pairs total).
Proof.
  revert total. induction pairs as [|[img img_weight] rest IH]; intros total.
  - apply (silent_pure (fun _ => Ok total)).
  - cbn [style_imgs_loop].
    apply silent_bind; [apply (silent_pure (fun _ => _))|]. intros var.
    apply silent_bind; [apply assign_silent|]. intros _.
    apply silent_bind; [apply (silent_pure (fun w0 => _))|]. intros style_loss.
    apply silent_bind; [apply (silent_pure (fun _ => _))|]. intros style_loss'.
    apply IH.
Qed.

Lemma sum_style_losses_silent (style_imgs : list ndarray) :
  silent (sum_style_losses args node_shape node_value OptState net style_imgs).
Proof.
  unfold sum_style_losses.
  apply silent_bind; [apply style_imgs_loop_silent|]. intros total.
  apply (silent_pure (fun _ => _)).
Qed.

Lemma sum_content_losses_silent (content_img : ndarray) :
  silent (sum_content_losses args node_shape node_value OptState net
            content_img).
Proof.
  unfold sum_content_losses.
  apply silent_bind; [apply (silent_pure (fun _ => _))|]. intros var.
  apply silent_bind; [apply assign_silent|]. intros _.
  apply silent_bind; [apply (silent_pure (fun w0 => _))|]. intros content_loss.
  apply (silent_pure (fun _ => _)).
Qed.

Lemma style_imgs_loop_effect (pairs : list (ndarray * R))
    (total L : ndarray -> R) (wd wd' : W) :
  style_imgs_loop args node_shape node_value OptState net pairs total wd
  = (Ok L, wd') ->
  wd' = mkWorld OptState (last (map fst pairs) (input_var OptState wd))
          (slots OptState wd) (dirs OptState wd) (log OptState wd).
Proof.
  revert total wd. induction pairs as [|[img img_weight] rest IH];
    intros total wd.
  - intros [= _ <-]. destruct wd. reflexivity.
  - cbn [style_imgs_loop]. unfold mbind at 1. unfold lift.
    destruct (dict_get net "input") as [var|e]; [|discriminate].
    unfold mbind at 1. unfold assign.
    destruct var; try discriminate.
    destruct (shape_eq_dec _ _) as [_|_]; [|discriminate].
    unfold mbind at 1. cbn [input_var].
    destruct (layers_loop _ _ _ _ _ _ _) as [Ls|e]; [|discriminate].
    unfold mbind at 1.
    destruct (div_len Ls _) as [Ls'|e]; [|discriminate].
    intros Hrest. apply IH in Hrest. rewrite Hrest.
    cbn [input_var slots dirs log map fst].
    rewrite last_cons_default. reflexivity.
Qed.

(** X20. Building the losses changes nothing of the session but the value
    of the variable: [sum_content_losses] leaves it holding the content
    image and [sum_style_losses] the last style image that has a weight.
    Neither of them creates a directory, writes a file or runs an
    optimizer, whether it returns or raises. *)
Theorem loss_builders_only_assign_variable (content_img : ndarray)
    (style_imgs : list ndarray) (wd : W) :
  (forall L wd',
      sum_content_losses args node_shape node_value OptState net content_img
        wd = (Ok L, wd') ->
      wd' = mkWorld OptState content_img (slots OptState wd)
              (dirs OptState wd) (log OptState wd)) /\
  (forall L wd',
      sum_style_losses args node_shape node_value OptState net style_imgs
        wd = (Ok L, wd') ->
      wd' = mkWorld OptState
              (last (map fst (Py.zip style_imgs (style_imgs_weights args)))
                 (input_var OptState wd))
              (slots OptState wd) (dirs OptState wd) (log OptState wd)) /\
  silent (sum_content_losses args node_shape node_value OptState net
            content_img) /\
  silent (sum_style_losses args node_shape node_value OptState net
            style_imgs).
Proof.
  split; [|split; [|split]].
  - intros L wd'. unfold sum_content_losses, mbind, lift.
    destruct (dict_get net "input") as [var|e]; [|discriminate].
    unfold assign. destruct var; try discriminate.
    destruct (shape_eq_dec _ _) as [_|_]; [|discriminate]. cbn [input_var].
    destruct (layers_loop _ _ _ _ _ _ _) as [Lc|e]; [|discriminate].
    destruct (div_len Lc _) as [Lc'|e]; [|discriminate].
    intros [= _ <-]. reflexivity.
  - intros L wd'. unfold sum_style_losses. unfold mbind at 1.
    destruct (style_imgs_loop _ _ _ _ _ _ _ wd) as [[Ls|e] w1] eqn:Hloop;
      [|discriminate].
    unfold lift. destruct (div_len Ls _) as [Ls'|e]; [|discriminate].
    intros [= _ <-]. apply (style_imgs_loop_effect _ _ _ _ _ Hloop).
  - apply sum_content_losses_silent.
  - apply sum_style_losses_silent.
Qed.

End LossEffects.

(** X21. A first-order render of a namespace without [beta2] never
    optimizes: [stylize] raises before any optimizer step, and no
    directory is created and no file written.  When the network and both
    losses are built, what it raises is the [AttributeError] of
    [args.beta2], at the construction of the optimizer. *)
Theorem adam_render_without_beta2_stops (args : Namespace)
    (str_float : R -> string) (node_shape : node -> list nat)
    (node_value : node -> ndarray -> list R)
    (total_variation : ndarray -> R) (OptState : Type) (opt_init : OptState)
    (adam_train_op :
       R -> R -> R -> R -> (ndarray -> R) ->
       ndarray * OptState -> ndarray * OptState)
    (scipy_minimize : Z -> Z -> (ndarray -> R) -> ndarray -> ndarray)
    (content_img : ndarray) (style_imgs : list ndarray) (init_img : ndarray)
    (wd : world OptState) :
  optimizer args = adam -> beta2 args = None ->
  (exists e wd',
      stylize args str_float node_shape node_value total_variation OptState
        opt_init adam_train_op scipy_minimize content_img style_imgs init_img
        wd
      = (Raise e, wd') /\
      dirs OptState wd' = dirs OptState wd /\
      log OptState wd' = log OptState wd) /\
  (forall net Ls Lc w1 w2,
      build_model (ashape content_img) = Ok net ->
      sum_style_losses args node_shape node_value OptState net style_imgs wd
      = (Ok Ls, w1) ->
      sum_content_losses args node_shape node_value OptState net content_img
        w1
      = (Ok Lc, w2) ->
      stylize args str_float node_shape node_value total_variation OptState
        opt_init adam_train_op scipy_minimize content_img style_imgs init_img
        wd
      = (Raise (AttributeError "beta2"), w2)).
Proof.
  intros Hopt Hb2. split.
  - unfold stylize. unfold mbind at 1, lift.
    destruct (build_model (ashape content_img)) as [net|e];
      [|exists e, wd; auto].
    unfold mbind at 1.
    destruct (sum_style_losses args node_shape node_value OptState net
                style_imgs wd) as [[Ls|e] w1] eqn:Hs;
      destruct (sum_style_losses_silent args node_shape node_value OptState
                  net style_imgs _ _ _ Hs) as [Hd1 Hl1];
      [|exists e, w1; auto].
    unfold mbind at 1.
    destruct (sum_content_losses args node_shape node_value OptState net
                content_img w1) as [[Lc|e] w2] eqn:Hc;
      destruct (sum_content_losses_silent args node_shape node_value OptState
                  net content_img _ _ _ Hc) as [Hd2 Hl2];
      [|exists e, w2; split; [reflexivity | split; congruence]].
    unfold mbind at 1.
    destruct (dict_get net "input") as [var|e];
      [|exists e, w2; split; [reflexivity | split; congruence]].
    unfold mbind at 1. unfold get_optimizer, get_beta2. rewrite Hopt, Hb2.
    cbn [bind].
    exists (AttributeError "beta2"), w2.
    split; [reflexivity | split; congruence].
  - intros net Ls Lc w1 w2 Hnet Hs Hc.
    unfold stylize. unfold mbind at 1, lift. rewrite Hnet.
    unfold mbind at 1. rewrite Hs.
    unfold mbind at 1. rewrite Hc.
    assert (Hin : exists var, dict_get net "input" = Ok var).
    { revert Hc. unfold sum_content_losses. unfold mbind at 1. unfold lift.
      destruct (dict_get net "input") as [var|e]; [eauto | discriminate]. }
    destruct Hin as [var Hvar].
    unfold mbind at 1. rewrite Hvar.
    unfold mbind at 1. unfold get_optimizer, get_beta2. rewrite Hopt, Hb2.
    reflexivity.
Qed.

Lemma adam_render_without_beta2_stops_witness :
  exists e wd',
    stylize (adam_args "lion.jpg" "starry-night.jpg" true None)
      (fun _ => "f") point_shape point_value no_variation unit tt
      idle_train_op idle_minimize example_img [example_img] example_img
      empty_world
    = (Raise e, wd') /\
    dirs unit wd' = dirs unit empty_world /\
    log unit wd' = log unit empty_world.
Proof.
  exact (proj1 (adam_render_without_beta2_stops
                  (adam_args "lion.jpg" "starry-night.jpg" true None)
                  (fun _ => "f") point_shape point_value no_variation unit tt
                  idle_train_op idle_minimize example_img [example_img]
                  example_img empty_world eq_refl eq_refl)).
Defined.

(** ** Weights that sum to nothing *)

Lemma weighted_terms_zero (node_shape : node -> list nat)
    (node_value : node -> ndarray -> list R)
    (f : tensor ndarray -> tensor ndarray -> result (ndarray -> R))
    (net : dict node) (input : ndarray) (pairs : list (string * R))
    (e : ndarray) :
  Forall (fun lw : string * R => snd lw = 0) pairs ->
  weighted_terms node_shape node_value f net input pairs e = 0.
Proof.
  induction 1 as [|[layer weight] rest Hw _ IH]; [reflexivity|].
  cbn [snd] in Hw. subst weight.
  change (weighted_terms node_shape node_value f net input
            ((layer, 0) :: rest) e)
    with (layer_term node_shape node_value f net input layer e * 0
          + weighted_terms node_shape node_value f net input rest e).
  rewrite IH. lra.
Qed.

(** X22. Weights that sum to 0 or less take the content loss out of the
    objective: [parse_args] normalizes them to zeros, and the content loss
    built from them is 0 for every image. *)
Theorem nonpositive_weights_cancel_content_loss (a : Namespace)
    (node_shape : node -> list nat) (node_value : node -> ndarray -> list R)
    (OptState : Type) (net : dict node) (h w : nat)
    (content_img : ndarray) (wd : world OptState) :
  dict_get net "input" = Ok (Variable_zeros [1; h; w; 3]%nat) ->
  ashape content_img = [1; h; w; 3]%nat ->
  content_layers a <> [] ->
  Forall (fun layer =>
            exists l, layer_loss node_shape node_value content_layer_loss net
                        content_img layer = Ok l)
    (content_layers a) ->
  Py.sum (content_layer_weights a) <= 0 ->
  exists L wd',
    sum_content_losses (normalize_weights a) node_shape node_value OptState
      net content_img wd
    = (Ok L, wd') /\
    forall e, L e = 0.
Proof.
  intros Hin Hs Hne Hdef Hsum.
  destruct (sum_content_losses_run (normalize_weights a) node_shape
              node_value OptState net h w Hin content_img wd Hs Hne)
    as (L & wd' & Hrun & _ & Hval).
  { apply (Forall_zip_l
             (fun layer =>
                exists l, layer_loss node_shape node_value content_layer_loss
                            net content_img layer = Ok l)
             (content_layers a) _ Hdef). }
  exists L, wd'. split; [exact Hrun|].
  intros e. rewrite Hval. unfold content_aggregate.
  rewrite weighted_terms_zero; [unfold Rdiv; ring|].
  change (content_layer_weights (normalize_weights a))
    with (normalize (content_layer_weights a)).
  rewrite (normalize_nonpos _ Hsum).
  apply Forall_forall. intros [layer weight] Hpair.
  apply in_combine_r in Hpair. apply repeat_spec in Hpair. exact Hpair.
Qed.

Lemma nonpositive_weights_cancel_content_loss_witness :
  exists L wd',
    sum_content_losses
      (normalize_weights
         (mkNamespace false None ["starry-night.jpg"] [1.0] (Some "lion.jpg")
            "./styles" "./image_input" 512 5e0 1e4 1e-3 ["conv4_2"]
            ["relu1_1"] [0] [1.0] 0 "imagenet-vgg-verydeep-19.mat" "/gpu:0"
            "./image_output" lbfgs 1e1 0.9 None 1e-8 1 1000 50))
      point_shape point_value unit example_net example_img empty_world
    = (Ok L, wd') /\
    forall e, L e = 0.
Proof.
  apply (nonpositive_weights_cancel_content_loss
           (mkNamespace false None ["starry-night.jpg"] [1.0]
              (Some "lion.jpg") "./styles" "./image_input" 512 5e0 1e4 1e-3
              ["conv4_2"] ["relu1_1"] [0] [1.0] 0
              "imagenet-vgg-verydeep-19.mat" "/gpu:0" "./image_output" lbfgs
              1e1 0.9 None 1e-8 1 1000 50)
           point_shape point_value unit example_net 1%nat 1%nat example_img
           empty_world example_net_input eq_refl).
  - discriminate.
  - constructor; [|constructor].
    apply point_content_defined.
    pose proof example_net_layers as Hl. inversion Hl as [|? ? H1 _]; subst.
    exact H1.
  - unfold Py.sum. cbn [content_layer_weights fold_left]. lra.
Defined.

(** ** Loading the images *)


Lemma preprocess_shape (img : ndarray) (h w : nat) :
  ashape img = [h; w; 3%nat] ->
  exists pre, preprocess img = Ok pre /\ ashape pre = [1%nat; h; w; 3%nat].
Proof.
  intros Hs. rewrite (preprocess_eq img h w Hs). eexists.
  split; reflexivity.
Qed.

Section LoadingFacts.

Variable args : Namespace.
Variable imread : string -> option ndarray.
Variable resample : ndarray -> nat -> nat -> list (list R).

(** The content image is a file that holds an image of [h] rows and [w]
    columns. *)
Variable c : string.
Variable img : ndarray.
Variables h w : nat.
Hypothesis file : imread (os_path_join (content_img_dir args) c) = Some img.
Hypothesis file_shape : ashape img = [h; w; 3%nat].
Hypothesis rows : (0 < h)%nat.
Hypothesis columns : (0 < w)%nat.

Local Abbreviation mx := (max_size args).
Local Abbreviation rows_z := (Z.of_nat h).
Local Abbreviation columns_z := (Z.of_nat w).

Lemma content_not_resized :
  (rows_z <= mx)%Z -> (columns_z <= mx)%Z ->
  get_content_image args imread resample (Some c)
  = read_image imread (os_path_join (content_img_dir args) c).
Proof.
  intros Hh Hw. unfold get_content_image, read_image.
  cbn [and_then]. rewrite file. cbn [check_image astype_float32 and_then].
  rewrite file_shape. cbn [unpack3 and_then].
  replace (mx <? rows_z)%Z with false by (symmetry; apply Z.ltb_ge; exact Hh).
  rewrite andb_false_r. cbn [and_then fst snd].
  destruct (Rlt_dec (IZR mx) (INR w)) as [Hlt|_]; [|reflexivity].
  exfalso. rewrite INR_IZR_INZ in Hlt. apply lt_IZR in Hlt. lia.
Qed.


Lemma resize_empty (dw dh : Z) :
  (dw <= 0)%Z \/ (dh <= 0)%Z ->
  cv2_resize resample img (dw, dh) = Failed Cv2Error.
Proof.
  intros Hempty. unfold cv2_resize. cbn [fst snd].
  destruct Hempty as [H | H]; apply Z.leb_le in H; rewrite H.
  - rewrite orb_true_r. reflexivity.
  - rewrite orb_true_r. reflexivity.
Qed.





End LoadingFacts.


(** X24. What [get_content_image] raises: [TypeError] when no content
    image is named, the [OSError] of [check_image] with the path when the
    file cannot be read, and [cv2.error] for every image when [--max_size]
    is 0 or less. *)
Theorem get_content_image_errors (args : Namespace)
    (imread : string -> option ndarray)
    (resample : ndarray -> nat -> nat -> list (list R)) :
  get_content_image args imread resample None = Failed (PyExn TypeError) /\
  (forall c,
      imread (os_path_join (content_img_dir args) c) = None ->
      get_content_image args imread resample (Some c)
      = Failed (OSError ENOENT "No such file"
                  (os_path_join (content_img_dir args) c))) /\
  (forall c img h w,
      imread (os_path_join (content_img_dir args) c) = Some img ->
      ashape img = [h; w; 3%nat] -> (0 < h)%nat -> (0 < w)%nat ->
      (max_size args <= 0)%Z ->
      get_content_image args imread resample (Some c) = Failed Cv2Error).
Proof.
  split; [reflexivity|]. split.
  - intros c Hnone. unfold get_content_image. cbn [and_then].
    rewrite Hnone. reflexivity.
  - intros c img h w Hfile Hs Hh Hw Hmx. unfold get_content_image.
    cbn [and_then]. rewrite Hfile. cbn [check_image astype_float32 and_then].
    rewrite Hs. cbn [unpack3 and_then].
    replace (max_size args <? Z.of_nat h)%Z with true
      by (symmetry; apply Z.ltb_lt; lia).
    rewrite andb_true_r. unfold Py.div.
    destruct (w <? h)%nat.
    + destruct (Req_dec_T (INR h) 0) as [Hz|_];
        [exfalso; apply lt_0_INR in Hh; lra|].
      cbn [of_result and_then].
      rewrite (resize_empty resample img) by (right; exact Hmx).
      reflexivity.
    + cbn [and_then fst snd].
      destruct (Rlt_dec (IZR (max_size args)) (INR w)) as [_|Hge].
      * destruct (Req_dec_T (INR w) 0) as [Hz|_];
          [exfalso; apply lt_0_INR in Hw; lra|].
        cbn [of_result and_then].
        rewrite (resize_empty resample img) by (left; exact Hmx).
        reflexivity.
      * exfalso. apply Hge. apply Rle_lt_trans with 0.
        -- apply IZR_le in Hmx. exact Hmx.
        -- apply lt_0_INR. exact Hw.
Qed.

Lemma get_content_image_errors_witness :
  get_content_image thumbnail_args example_files flat_resample
    (Some "missing.jpg")
  = Failed (OSError ENOENT "No such file"
              (os_path_join (content_img_dir thumbnail_args) "missing.jpg")).
Proof.
  exact (proj1 (proj2 (get_content_image_errors thumbnail_args example_files
                         flat_resample)) "missing.jpg" eq_refl).
Defined.

Section StyleImages.

Variable args : Namespace.
Variable imread : string -> option ndarray.
Variable resample : ndarray -> nat -> nat -> list (list R).

(** A style file that holds an image of three channels. *)
Local Abbreviation readable :=
  (fun style_fn : string =>
     exists img,
       imread (os_path_join (style_imgs_dir args) style_fn) = Some img /\
       last (ashape img) 0%nat = 3%nat /\
       pixel_count (ashape img) <> 0%nat).

Lemma style_image_loaded (style_fn : string) (ch cw : nat) :
  readable style_fn -> (0 < ch)%nat -> (0 < cw)%nat ->
  exists img pre,
    imread (os_path_join (style_imgs_dir args) style_fn) = Some img /\
    cv2_resize resample img (Z.of_nat cw, Z.of_nat ch)
    = Done (mkArray [ch; cw; 3%nat] (resample img cw ch)) /\
    preprocess (mkArray [ch; cw; 3%nat] (resample img cw ch)) = Ok pre /\
    ashape pre = [1%nat; ch; cw; 3%nat].
Proof.
  intros (img & Hfile & Hlast & Hcount) Hch Hcw.
  destruct (preprocess_shape (mkArray [ch; cw; 3%nat] (resample img cw ch))
              ch cw eq_refl) as (pre & Hpre & Hs).
  exists img, pre. split; [exact Hfile|]. split; [|split; assumption].
  unfold cv2_resize. cbn [fst snd].
  replace (pixel_count (ashape img) =? 0)%nat with false
    by (symmetry; apply Nat.eqb_neq; exact Hcount).
  replace (Z.of_nat cw <=? 0)%Z with false by (symmetry; apply Z.leb_gt; lia).
  replace (Z.of_nat ch <=? 0)%Z with false by (symmetry; apply Z.leb_gt; lia).
  cbn [orb]. rewrite Hlast, !Nat2Z.id. reflexivity.
Qed.

Lemma style_imgs_from_loaded (fns : list string) (ch cw : nat) :
  Forall readable fns -> (0 < ch)%nat -> (0 < cw)%nat ->
  exists style_imgs,
    style_imgs_from args imread resample fns ch cw = Done style_imgs /\
    length style_imgs = length fns /\
    Forall (fun s => ashape s = [1%nat; ch; cw; 3%nat]) style_imgs.
Proof.
  intros Hall Hch Hcw. induction Hall as [|fn fns Hfn _ IH].
  - exists []. repeat split. constructor.
  - destruct (style_image_loaded fn ch cw Hfn Hch Hcw)
      as (img & pre & Hfile & Hresize & Hpre & Hs).
    destruct IH as (rest & Hrest & Hlen & Hshapes).
    exists (pre :: rest). cbn [style_imgs_from]. rewrite Hfile.
    cbn [check_image astype_float32 and_then]. rewrite Hresize.
    cbn [and_then]. rewrite Hpre. cbn [of_result and_then]. rewrite Hrest.
    cbn [and_then length]. split; [reflexivity|]. split; [lia|].
    constructor; assumption.
Qed.

(** X25. When the style files hold images, [get_style_images] returns one
    image for each name of [args.style_imgs], in their order, and each has
    the height and the width of the content image, whatever the size of
    its file: every one of them has the shape of the variable of the
    network that [build_model] makes for the content image. *)
Theorem get_style_images_take_content_size (content_img : ndarray)
    (b ch cw : nat) :
  ashape content_img = [b; ch; cw; 3%nat] ->
  (0 < ch)%nat -> (0 < cw)%nat ->
  Forall readable (style_imgs args) ->
  exists styles net,
    get_style_images args imread resample content_img = Done styles /\
    length styles = length (style_imgs args) /\
    Forall (fun s => ashape s = [1%nat; ch; cw; 3%nat]) styles /\
    build_model (ashape content_img) = Ok net /\
    Forall (fun s => dict_get net "input" = Ok (Variable_zeros (ashape s)))
      styles.
Proof.
  intros Hs Hch Hcw Hall.
  destruct (style_imgs_from_loaded _ ch cw Hall Hch Hcw)
    as (styles & Hrun & Hlen & Hshapes).
  destruct (build_model_input b ch cw 3) as (net & Hnet & Hinput).
  exists styles, net. unfold get_style_images. rewrite Hs.
  cbn [and_then]. split; [exact Hrun|]. split; [exact Hlen|].
  split; [exact Hshapes|]. split; [exact Hnet|].
  eapply Forall_impl; [|exact Hshapes].
  intros s Hshape. cbn beta. rewrite Hshape. exact Hinput.
Qed.

(** X26. The first style file that cannot be read stops
    [get_style_images] with the [OSError] of [check_image] for its path;
    the names after it are not looked at. *)
Theorem get_style_images_first_missing_file (content_img : ndarray)
    (b ch cw cd : nat) (present rest : list string) (style_fn : string) :
  ashape content_img = [b; ch; cw; cd] ->
  (0 < ch)%nat -> (0 < cw)%nat ->
  style_imgs args = present ++ style_fn :: rest ->
  Forall readable present ->
  imread (os_path_join (style_imgs_dir args) style_fn) = None ->
  get_style_images args imread resample content_img
  = Failed (OSError ENOENT "No such file"
              (os_path_join (style_imgs_dir args) style_fn)).
Proof.
  intros Hs Hch Hcw Hnames Hall Hnone.
  unfold get_style_images. rewrite Hs. cbn [and_then]. rewrite Hnames.
  clear Hnames. induction Hall as [|fn fns Hfn _ IH].
  - cbn [app style_imgs_from]. rewrite Hnone. reflexivity.
  - destruct (style_image_loaded fn ch cw Hfn Hch Hcw)
      as (img & pre & Hfile & Hresize & Hpre & _).
    cbn [app style_imgs_from]. rewrite Hfile.
    cbn [check_image astype_float32 and_then]. rewrite Hresize.
    cbn [and_then]. rewrite Hpre. cbn [of_result and_then]. rewrite IH.
    reflexivity.
Qed.

End StyleImages.

Lemma example_style_readable :
  Forall (fun style_fn : string =>
            exists img,
              example_files (os_path_join "./styles" style_fn) = Some img /\
              last (ashape img) 0%nat = 3%nat /\
              pixel_count (ashape img) <> 0%nat)
    ["starry-night.jpg"].
Proof.
  constructor; [|constructor].
  exists (mkArray [2; 2; 3]%nat (repeat [4; 5; 6] 4)).
  split; [reflexivity|]. split; [reflexivity|]. discriminate.
Qed.

Lemma get_style_images_take_content_size_witness :
  exists styles net,
    get_style_images thumbnail_args example_files flat_resample example_img
    = Done styles /\
    length styles = length (style_imgs thumbnail_args) /\
    Forall (fun s => ashape s = [1; 1; 1; 3]%nat) styles /\
    build_model (ashape example_img) = Ok net /\
    Forall (fun s => dict_get net "input" = Ok (Variable_zeros (ashape s)))
      styles.
Proof.
  exact (get_style_images_take_content_size thumbnail_args example_files
           flat_resample example_img 1 1 1 eq_refl ltac:(lia) ltac:(lia)
           example_style_readable).
Defined.

Lemma get_style_images_first_missing_file_witness :
  get_style_images
    (mkNamespace false None ["starry-night.jpg"; "wave.jpg"; "scream.jpg"]
       [1.0] (Some "lion.jpg") "./styles" "./image_input" 512 5e0 1e4 1e-3
       ["conv4_2"] ["relu1_1"] [1.0] [1.0] 0 "imagenet-vgg-verydeep-19.mat"
       "/gpu:0" "./image_output" lbfgs 1e1 0.9 None 1e-8 1 1000 50)
    example_files flat_resample example_img
  = Failed (OSError ENOENT "No such file" (os_path_join "./styles" "wave.jpg")).
Proof.
  exact (get_style_images_first_missing_file
           (mkNamespace false None
              ["starry-night.jpg"; "wave.jpg"; "scream.jpg"] [1.0]
              (Some "lion.jpg") "./styles" "./image_input" 512 5e0 1e4 1e-3
              ["conv4_2"] ["relu1_1"] [1.0] [1.0] 0
              "imagenet-vgg-verydeep-19.mat" "/gpu:0" "./image_output" lbfgs
              1e1 0.9 None 1e-8 1 1000 50)
           example_files flat_resample example_img 1 1 1 3
           ["starry-night.jpg"] ["scream.jpg"] "wave.jpg"
           eq_refl ltac:(lia) ltac:(lia) eq_refl example_style_readable
           eq_refl).
Defined.

(** ** The whole render *)

Section RenderFacts.

Variable args : Namespace.
Variable imread : string -> option ndarray.
Variable resample : ndarray -> nat -> nat -> list (list R).
Variable str_float : R -> string.
Variable node_shape : node -> list nat.
Variable node_value : node -> ndarray -> list R.
Variable total_variation : ndarray -> R.
Variable OptState : Type.
Variable opt_init : OptState.
Variable adam_train_op :
  R -> R -> R -> R -> (ndarray -> R) -> ndarray * OptState -> ndarray * OptState.
Variable scipy_minimize : Z -> Z -> (ndarray -> R) -> ndarray -> ndarray.

(** X27. A quasi-Newton render from the files to the output.  When the
    content image loads, the style files hold images and the layers named
    by the configuration are layers of the network with activations of
    positive size, [render_image] runs to its end: the style images are
    loaded at the size of the content image, the minimizer runs once per
    block, each run followed by the write of a checkpoint, and the output
    image, the content image and one image per style file are written
    last. *)
Theorem render_image_lbfgs_completes (content : ndarray) (net : dict node)
    (h w : nat) (base : string) (wd : world OptState) :
  (forall maxiter disp loss img,
      ashape (scipy_minimize maxiter disp loss img) = ashape img) ->
  get_content_image args imread resample (content_img args) = Done content ->
  ashape content = [1; h; w; 3]%nat -> (0 < h)%nat -> (0 < w)%nat ->
  style_imgs args <> [] ->
  Forall (fun style_fn : string =>
            exists img,
              imread (os_path_join (style_imgs_dir args) style_fn) = Some img /\
              last (ashape img) 0%nat = 3%nat /\
              pixel_count (ashape img) <> 0%nat)
    (style_imgs args) ->
  optimizer args = lbfgs ->
  render_dir args str_float = Ok base ->
  build_model (ashape content) = Ok net ->
  content_layers args <> [] -> style_layers args <> [] ->
  Forall (fun layer =>
            exists n hh ww dd,
              dict_get net layer = Ok n /\
              node_shape n = [1; hh; ww; dd]%nat /\
              (0 < hh)%nat /\ (0 < ww)%nat /\ (0 < dd)%nat)
    (content_layers args ++ style_layers args) ->
  exists (wd' : world OptState) (styles : list ndarray) (d pth : string),
    get_style_images args imread resample content = Done styles /\
    Forall (fun s => ashape s = ashape content) styles /\
    image_paths args str_float (blocks args) 0 = Ok (d, pth) /\
    render_image args imread resample str_float node_shape node_value
      total_variation OptState opt_init adam_train_op scipy_minimize wd
    = (Done tt, wd') /\
    actions (log OptState wd')
    = actions (log OptState wd) ++
      flat_map
        (fun block =>
           [AMinimize;
            AWrite (os_path_join (os_path_join base "iters")
                      (file_name args block (max_iterations args)))])
        (counter_range (blocks args)) ++
      AWrite pth :: AWrite (os_path_join d "0content.png") ::
      map (fun index =>
             AWrite (os_path_join d (str_int (Z.of_nat index) +++ "_style.png")))
        (seq 0 (length (style_imgs args))).
Proof.
  intros Hmin Hcontent Hshape Hh Hw Hnames Hfiles Hopt Hdir Hnet Hcl Hsl
    Hlayers.
  destruct (style_imgs_from_loaded args imread resample (style_imgs args)
              h w Hfiles Hh Hw)
    as (styles & Hfrom & Hlen & Hshapes).
  assert (Hstyles : get_style_images args imread resample content
                    = Done styles).
  { unfold get_style_images. rewrite Hshape. cbn [and_then]. exact Hfrom. }
  apply Forall_app in Hlayers as [Hclayers Hslayers].
  pose proof Hnet as Hnet'. rewrite Hshape in Hnet'.
  pose proof (build_model_net_input net h w Hnet') as Hinput.
  destruct (stylize_lbfgs_run args str_float node_shape node_value
              total_variation OptState opt_init adam_train_op scipy_minimize
              net h w Hinput Hmin content styles content base wd Hnet Hopt
              Hdir Hshape Hshape)
    as (wd' & d & pth & Hpaths & Hrun & Hact).
  - intros ->. cbn [length] in Hlen. apply Hnames.
    apply length_zero_iff_nil. symmetry. exact Hlen.
  - exact Hsl.
  - exact Hcl.
  - apply (Forall_zip_l
             (fun layer =>
                exists l, layer_loss node_shape node_value content_layer_loss
                            net content layer = Ok l)).
    eapply Forall_impl; [|exact Hclayers].
    intros layer (n & hh & ww & dd & Hn & Hs & H1 & H2 & H3).
    apply (content_loss_defined node_shape node_value net content layer n
             1 hh ww dd Hn Hs H1 H2 H3).
  - eapply Forall_impl; [|exact Hshapes].
    intros s Hs. split; [exact Hs|].
    apply (Forall_zip_l
             (fun layer =>
                exists l, layer_loss node_shape node_value style_layer_loss
                            net s layer = Ok l)).
    eapply Forall_impl; [|exact Hslayers].
    intros layer (n & hh & ww & dd & Hn & Hsn & H1 & H2 & H3).
    apply (style_loss_defined node_shape node_value net s layer n
             hh ww dd Hn Hsn H1 H2 H3).
  - exists wd', styles, d, pth.
    split; [exact Hstyles|].
    split; [rewrite Hshape; exact Hshapes|].
    split; [exact Hpaths|].
    split.
    + unfold render_image. rewrite Hcontent, Hstyles, Hrun. reflexivity.
    + rewrite Hact, Hlen. reflexivity.
Qed.

(** X28. [main] never renders: [parse_args] raises the [ArgumentError] of
    the second [--beta1] whatever the command line and the files, so
    [render_image] is not reached and nothing is created or written. *)
Theorem main_never_renders
    (argparse_parse : list argument -> list string -> result Namespace)
    (argv : list string) (wd : world OptState) :
  main imread resample str_float node_shape node_value total_variation
    OptState opt_init adam_train_op scipy_minimize argparse_parse argv wd
  = (Failed (PyExn (ArgumentError "--beta1")), wd).
Proof.
  assert (Hparser : parse_args_parser = Raise (ArgumentError "--beta1"))
    by reflexivity.
  unfold main, parse_args, mbind, lift. rewrite Hparser. reflexivity.
Qed.

End RenderFacts.

Lemma example_content_loaded :
  get_content_image (default_args "lion.jpg" "starry-night.jpg")
    example_files flat_resample
    (content_img (default_args "lion.jpg" "starry-night.jpg"))
  = Done (mkArray [1; 1; 1; 3]%nat
            (map (fun px => map (fun vc => fst vc - snd vc)
                              (combine px vgg_mean))
               (map (@rev R) [[1; 2; 3]]))).
Proof.
  change (content_img (default_args "lion.jpg" "starry-night.jpg"))
    with (Some "lion.jpg").
  rewrite (content_not_resized (default_args "lion.jpg" "starry-night.jpg")
             example_files flat_resample "lion.jpg"
             (mkArray [1; 1; 3]%nat [[1; 2; 3]]) 1 1 eq_refl eq_refl)
    by (cbn; lia).
  unfold read_image.
  change (example_files
            (os_path_join
               (content_img_dir (default_args "lion.jpg" "starry-night.jpg"))
               "lion.jpg"))
    with (Some (mkArray [1; 1; 3]%nat [[1; 2; 3]])).
  cbn [check_image astype_float32 and_then].
  rewrite (preprocess_eq (mkArray [1; 1; 3]%nat [[1; 2; 3]]) 1 1 eq_refl).
  reflexivity.
Qed.

Lemma render_image_lbfgs_completes_witness :
  exists (wd' : world unit),
    render_image (default_args "lion.jpg" "starry-night.jpg") example_files
      flat_resample (fun _ => "f") point_shape point_value no_variation unit
      tt idle_train_op idle_minimize empty_world
    = (Done tt, wd').
Proof.
  destruct (render_image_lbfgs_completes
              (default_args "lion.jpg" "starry-night.jpg") example_files
              flat_resample (fun _ => "f") point_shape point_value
              no_variation unit tt idle_train_op idle_minimize
              (mkArray [1; 1; 1; 3]%nat
                 (map (fun px => map (fun vc => fst vc - snd vc)
                                   (combine px vgg_mean))
                    (map (@rev R) [[1; 2; 3]])))
              example_net 1%nat 1%nat
              "./image_output/lion.starry-night512LBFGS1000" empty_world)
    as (wd' & styles & d & pth & _ & _ & _ & Hrun & _).
  - intros. reflexivity.
  - exact example_content_loaded.
  - reflexivity.
  - lia.
  - lia.
  - discriminate.
  - exact example_style_readable.
  - reflexivity.
  - vm_compute. reflexivity.
  - exact example_net_built.
  - discriminate.
  - discriminate.
  - pose proof example_net_layers as Hl.
    eapply Forall_impl; [|exact Hl].
    intros layer [n Hn]. exists n, 1%nat, 1%nat, 1%nat.
    split; [exact Hn|]. split; [reflexivity|]. lia.
  - exists wd'. exact Hrun.
Defined.

(** ** The network and the names of the configuration *)



(** X30. The aggregate losses need something to average over: with no
    style image, with no style layer or with no content layer the division
    by the number of names raises [ZeroDivisionError], for the sum is still
    the number 0 it started from. *)
Theorem aggregate_losses_raise_without_names (args : Namespace)
    (node_shape : node -> list nat) (node_value : node -> ndarray -> list R)
    (OptState : Type) (net : dict node) (h w : nat) (img : ndarray)
    (rest : list ndarray) (wd : world OptState) :
  dict_get net "input" = Ok (Variable_zeros [1; h; w; 3]%nat) ->
  ashape img = [1; h; w; 3]%nat ->
  fst (sum_style_losses args node_shape node_value OptState net [] wd)
  = Raise ZeroDivisionError /\
  (content_layers args = [] ->
   fst (sum_content_losses args node_shape node_value OptState net img wd)
   = Raise ZeroDivisionError) /\
  (style_layers args = [] -> style_imgs_weights args <> [] ->
   fst (sum_style_losses args node_shape node_value OptState net
          (img :: rest) wd)
   = Raise ZeroDivisionError).
Proof.
  intros Hin Hs. split; [reflexivity|]. split.
  - intros Hnone. unfold sum_content_losses, mbind, lift. rewrite Hin.
    rewrite (assign_run OptState h w img wd Hs). rewrite Hnone.
    reflexivity.
  - intros Hnone Hweights. unfold sum_style_losses.
    destruct (style_imgs_weights args) as [|weight weights];
      [contradiction Hweights; reflexivity|].
    unfold Py.zip at 1. cbn [combine style_imgs_loop].
    unfold mbind at 1. unfold mbind at 1. unfold lift. rewrite Hin.
    unfold mbind at 1. rewrite (assign_run OptState h w img wd Hs).
    unfold mbind at 1. rewrite Hnone. reflexivity.
Qed.

Lemma aggregate_losses_raise_without_names_witness :
  fst (sum_style_losses (default_args "lion.jpg" "starry-night.jpg")
         point_shape point_value unit example_net [] empty_world)
  = Raise ZeroDivisionError.
Proof.
  exact (proj1 (aggregate_losses_raise_without_names
                  (default_args "lion.jpg" "starry-night.jpg") point_shape
                  point_value unit example_net 1 1 example_img []
                  empty_world example_net_input eq_refl)).
Defined.
